(** * Training Job Orchestrator: a shallow embedding

    The development embeds the job-management core of the repository:

    - [src/api/model_trainer_api-v1.py]: [ModelTrainerAPI] (validation and
      admission, cancellation, deletion, the simulated worker, the two JSON
      catalogs, the reports, testing and export);
    - [src/training/trainer_test.py]: [TrainingManager._start_real_training]
      (the trainer-backed worker and its progress callback).

    Python objects that are mutated from several threads are modelled by one
    explicit [State]; every worker thread is a program counter in that
    state, and a step of a worker is one block of its code between two
    points where it can be descheduled (thread start, [time.sleep], a call
    into the training framework, file output).  A call of the interface is
    one step as well, or two for [start_training] (up to the start of the
    worker, then [_save_state]): the calls of the interface are taken one
    after the other, between the blocks of the workers.  Two calls of
    [start_training] that overlap are treated apart, with
    [admission_tests] and [admission_register]. *)

From Stdlib Require Import ZArith List String Ascii Bool Lia SpecFloat.
From Stdlib Require Import DecimalString DecimalZ.
From Stdlib Require Import Permutation Sorted.
From Stdlib Require OrderedTypeEx.
Import ListNotations.

Local Open Scope string_scope.
Local Open Scope Z_scope.

(* ===================================================================== *)
(** ** Strings and paths *)
(* ===================================================================== *)

Module Str.

(** [str(n)] for a Python [int]. *)
Definition of_Z (z : Z) : string := NilZero.string_of_int (Z.to_int z).

(** A [string] holds the UTF-8 encoding of a Python [str].  The separators
    that the code looks for ([/], [.], [_]) are single bytes that occur in
    no longer sequence, and the order of two encodings is the order of the
    texts they encode. *)
Definition byte (c : ascii) : Z := Z.of_nat (nat_of_ascii c).

(** The code points for which [str.isspace] holds, by their encodings:
    U+0009 to U+000D and U+001C to U+0020 (one byte); *)
Definition is_space (c : ascii) : bool :=
  let n := byte c in
  ((9 <=? n) && (n <=? 13)) || ((28 <=? n) && (n <=? 32)).

(** U+0085 and U+00A0 (two bytes); *)
Definition is_space2 (c1 c2 : ascii) : bool :=
  (byte c1 =? 194) && ((byte c2 =? 133) || (byte c2 =? 160)).

(** U+1680, U+2000 to U+200A, U+2028, U+2029, U+202F, U+205F and U+3000
    (three bytes). *)
Definition is_space3 (c1 c2 c3 : ascii) : bool :=
  let a := byte c1 in
  let b := byte c2 in
  let c := byte c3 in
  ((a =? 225) && (b =? 154) && (c =? 128))
  || ((a =? 226) && (b =? 128)
      && (((128 <=? c) && (c <=? 138)) || (c =? 168) || (c =? 169) || (c =? 175)))
  || ((a =? 226) && (b =? 129) && (c =? 159))
  || ((a =? 227) && (b =? 128) && (c =? 128)).

(** The text without the white space at its head.  With [backwards] the
    text is read from its end, so that the bytes of a code point come in
    reverse order. *)
Fixpoint strip_head (backwards : bool) (s : string) : string :=
  match s with
  | EmptyString => EmptyString
  | String c1 r1 =>
      if is_space c1 then strip_head backwards r1
      else
        match r1 with
        | EmptyString => s
        | String c2 r2 =>
            if (if backwards then is_space2 c2 c1 else is_space2 c1 c2) then
              strip_head backwards r2
            else
              match r2 with
              | EmptyString => s
              | String c3 r3 =>
                  if (if backwards then is_space3 c3 c2 c1 else is_space3 c1 c2 c3)
                  then strip_head backwards r3
                  else s
              end
        end
  end.

(** [s.lstrip()] *)
Definition lstrip (s : string) : string := strip_head false s.

Fixpoint rev_onto (s acc : string) : string :=
  match s with
  | EmptyString => acc
  | String c r => rev_onto r (String c acc)
  end.

Definition rev (s : string) : string := rev_onto s EmptyString.

(** [s.strip()] *)
Definition strip (s : string) : string :=
  rev (strip_head true (rev (strip_head false s))).

(** The bytes from 128 to 191, which continue a code point. *)
Definition is_continuation (c : ascii) : bool :=
  let n := byte c in (128 <=? n) && (n <=? 191).

(** Python truthiness of a [str]. *)
Definition truthy (s : string) : bool :=
  match s with EmptyString => false | _ => true end.

(** The text after the last occurrence of [sep], when there is one. *)
Fixpoint after_last (sep : ascii) (s : string) : option string :=
  match s with
  | EmptyString => None
  | String c r =>
      match after_last sep r with
      | Some t => Some t
      | None => if Ascii.eqb c sep then Some r else None
      end
  end.

(** The text before the last occurrence of [sep], when there is one. *)
Fixpoint before_last (sep : ascii) (s : string) : option string :=
  match s with
  | EmptyString => None
  | String c r =>
      match before_last sep r with
      | Some t => Some (String c t)
      | None => if Ascii.eqb c sep then Some EmptyString else None
      end
  end.

Fixpoint all_chars (p : ascii -> bool) (s : string) : bool :=
  match s with
  | EmptyString => true
  | String c r => p c && all_chars p r
  end.

(** [s.lower()], on the letters of ASCII. *)
Definition lower_char (c : ascii) : ascii :=
  let n := nat_of_ascii c in
  if (65 <=? n)%nat && (n <=? 90)%nat then ascii_of_nat (n + 32) else c.

Fixpoint lower (s : string) : string :=
  match s with
  | EmptyString => EmptyString
  | String c r => String (lower_char c) (lower r)
  end.

Fixpoint ends_with_slash (s : string) : bool :=
  match s with
  | EmptyString => false
  | String c EmptyString => Ascii.eqb c "/"
  | String _ r => ends_with_slash r
  end.

Definition starts_with_slash (s : string) : bool :=
  match s with
  | String c _ => Ascii.eqb c "/"
  | EmptyString => false
  end.

Fixpoint mem (x : string) (l : list string) : bool :=
  match l with
  | [] => false
  | y :: r => String.eqb x y || mem x r
  end.

End Str.

Module Path.

(** [os.path.basename] (POSIX). *)
Definition basename (p : string) : string :=
  match Str.after_last "/" p with
  | Some t => t
  | None => p
  end.

(** [os.path.splitext(p)[1]] (POSIX): the extension starts at the last dot
    of the base name, unless only dots precede it. *)
Definition splitext_ext (p : string) : string :=
  let b := basename p in
  match Str.before_last "." b, Str.after_last "." b with
  | Some stem, Some ext =>
      if Str.all_chars (fun c => Ascii.eqb c ".") stem then EmptyString
      else String "." ext
  | _, _ => EmptyString
  end.

(** [os.path.join(a, b)] (POSIX, two arguments). *)
Definition join (a b : string) : string :=
  if Str.starts_with_slash b then b
  else if negb (Str.truthy a) || Str.ends_with_slash a then a ++ b
  else a ++ "/" ++ b.

End Path.

(* ===================================================================== *)
(** ** Python [dict] with [str] keys: insertion-ordered association lists *)
(* ===================================================================== *)

Module Dict.

Section Ops.
Context {V : Type}.

Definition t := list (string * V).

Fixpoint get (k : string) (d : t) : option V :=
  match d with
  | [] => None
  | (k', v) :: r => if String.eqb k' k then Some v else get k r
  end.

(** [d[k] = v]: replaces in place, or appends a new key at the end. *)
Fixpoint set (k : string) (v : V) (d : t) : t :=
  match d with
  | [] => [(k, v)]
  | (k', v') :: r =>
      if String.eqb k' k then (k, v) :: r else (k', v') :: set k v r
  end.

(** [del d[k]] *)
Fixpoint del (k : string) (d : t) : t :=
  match d with
  | [] => []
  | (k', v') :: r => if String.eqb k' k then r else (k', v') :: del k r
  end.

Definition mem (k : string) (d : t) : bool :=
  match get k d with Some _ => true | None => false end.

Definition keys (d : t) : list string := map fst d.
Definition values (d : t) : list V := map snd d.

(** Update the object stored under [k], if any (a mutation through a
    shared reference to that object). *)
Fixpoint modify (k : string) (f : V -> V) (d : t) : t :=
  match d with
  | [] => []
  | (k', v) :: r =>
      if String.eqb k' k then (k', f v) :: r else (k', v) :: modify k f r
  end.
End Ops.

Arguments t : clear implicits.

End Dict.

(* ===================================================================== *)
(** ** Python [float]: IEEE 754 binary64 through the standard library's
       [SpecFloat] *)
(* ===================================================================== *)

Module Float.

Definition prec : Z := 53.
Definition emax : Z := 1024.

Definition float := spec_float.

(** The exact value of an [int], not yet rounded: the operations below round
    their exact result, so [truediv] is the correctly rounded quotient that
    Python's [int / int] returns. *)
Definition of_int (z : Z) : float :=
  match z with
  | Z0 => S754_zero false
  | Zpos p => S754_finite false p 0
  | Zneg p => S754_finite true p 0
  end.

(** [a / b] on [int]s ([b] non-zero). *)
Definition truediv (a b : Z) : float := SFdiv prec emax (of_int a) (of_int b).

Definition mul (x y : float) : float := SFmul prec emax x y.
Definition div (x y : float) : float := SFdiv prec emax x y.
Definition sub (x y : float) : float := SFsub prec emax x y.

(** [int(x)]: truncation toward zero (of a finite [x]). *)
Definition to_int (x : float) : Z :=
  match x with
  | S754_finite s m e =>
      let a := if 0 <=? e then Z.shiftl (Zpos m) e else Z.shiftr (Zpos m) (- e) in
      if s then - a else a
  | _ => 0
  end.

(** The literals [0.5], [0.95] and [0.05]. *)
Definition lit_0_5 : float := Eval vm_compute in truediv 1 2.
Definition lit_0_95 : float := Eval vm_compute in truediv 95 100.
Definition lit_0_05 : float := Eval vm_compute in truediv 5 100.

End Float.

Abbreviation float := Float.float.

(* ===================================================================== *)
(** ** JSON documents *)
(* ===================================================================== *)

(** The value trees that [json.dump] writes and [json.load] returns.  The
    catalogs are kept on disk as such trees: the text encoding and its
    parser belong to the [json] library. *)
#[warnings="-register-all"] Inductive json : Type :=
| JNull
| JInt (z : Z)
| JFloat (x : float)
| JStr (s : string)
| JList (l : list json)
| JObj (fields : list (string * json)).

Module Json.

Definition of_opt_str (o : option string) : json :=
  match o with Some s => JStr s | None => JNull end.

Definition of_metrics (m : Dict.t float) : json :=
  JObj (map (fun kv => (fst kv, JFloat (snd kv))) m).

Definition as_str (j : json) : option string :=
  match j with JStr s => Some s | _ => None end.

Definition as_int (j : json) : option Z :=
  match j with JInt z => Some z | _ => None end.

Definition as_float (j : json) : option float :=
  match j with JFloat x => Some x | _ => None end.

(** An optional [str] field: [null] is [None]. *)
Definition as_opt_str (j : json) : option (option string) :=
  match j with
  | JNull => Some None
  | JStr s => Some (Some s)
  | _ => None
  end.

Fixpoint as_str_list (l : list json) : option (list string) :=
  match l with
  | [] => Some []
  | JStr s :: r =>
      match as_str_list r with Some t => Some (s :: t) | None => None end
  | _ :: _ => None
  end.

Fixpoint as_float_fields (l : list (string * json)) : option (Dict.t float) :=
  match l with
  | [] => Some []
  | (k, JFloat x) :: r =>
      match as_float_fields r with Some t => Some ((k, x) :: t) | None => None end
  | _ :: _ => None
  end.

End Json.

(* ===================================================================== *)
(** ** Records *)
(* ===================================================================== *)

(** [TrainingJob] (model_trainer_api-v1.py, lines 28-52).  [logs] and
    [metrics] are never [None] once [__post_init__] has run. *)
Record TrainingJob : Type := {
  id : string;
  model_name : string;
  base_model : string;
  dataset_path : string;
  status : string;
  progress : Z;
  learning_rate : float;
  batch_size : Z;
  epochs : Z;
  max_length : Z;
  start_time : string;
  end_time : option string;
  logs : list string;
  error_message : option string;
  model_path : option string;
  metrics : Dict.t float
}.

(** [ModelInfo] (model_trainer_api-v1.py, lines 54-65). *)
Record ModelInfo : Type := {
  name : string;
  mi_base_model : string;
  mi_model_path : string;
  training_job_id : string;
  created_at : string;
  dataset_info : list (string * json);
  performance_metrics : Dict.t float;
  model_size : Z;
  description : option string
}.

(** Field assignments on a job object. *)
Definition set_status (v : string) (j : TrainingJob) : TrainingJob :=
  {| id := id j; model_name := model_name j; base_model := base_model j;
     dataset_path := dataset_path j; status := v; progress := progress j;
     learning_rate := learning_rate j; batch_size := batch_size j;
     epochs := epochs j; max_length := max_length j;
     start_time := start_time j; end_time := end_time j; logs := logs j;
     error_message := error_message j; model_path := model_path j;
     metrics := metrics j |}.

Definition set_progress (v : Z) (j : TrainingJob) : TrainingJob :=
  {| id := id j; model_name := model_name j; base_model := base_model j;
     dataset_path := dataset_path j; status := status j; progress := v;
     learning_rate := learning_rate j; batch_size := batch_size j;
     epochs := epochs j; max_length := max_length j;
     start_time := start_time j; end_time := end_time j; logs := logs j;
     error_message := error_message j; model_path := model_path j;
     metrics := metrics j |}.

Definition set_end_time (v : option string) (j : TrainingJob) : TrainingJob :=
  {| id := id j; model_name := model_name j; base_model := base_model j;
     dataset_path := dataset_path j; status := status j; progress := progress j;
     learning_rate := learning_rate j; batch_size := batch_size j;
     epochs := epochs j; max_length := max_length j;
     start_time := start_time j; end_time := v; logs := logs j;
     error_message := error_message j; model_path := model_path j;
     metrics := metrics j |}.

Definition set_error_message (v : option string) (j : TrainingJob) : TrainingJob :=
  {| id := id j; model_name := model_name j; base_model := base_model j;
     dataset_path := dataset_path j; status := status j; progress := progress j;
     learning_rate := learning_rate j; batch_size := batch_size j;
     epochs := epochs j; max_length := max_length j;
     start_time := start_time j; end_time := end_time j; logs := logs j;
     error_message := v; model_path := model_path j;
     metrics := metrics j |}.

(** [job.logs.append(line)] *)
Definition append_log (line : string) (j : TrainingJob) : TrainingJob :=
  {| id := id j; model_name := model_name j; base_model := base_model j;
     dataset_path := dataset_path j; status := status j; progress := progress j;
     learning_rate := learning_rate j; batch_size := batch_size j;
     epochs := epochs j; max_length := max_length j;
     start_time := start_time j; end_time := end_time j;
     logs := logs j ++ [line];
     error_message := error_message j; model_path := model_path j;
     metrics := metrics j |}.

(** Python truthiness of an [Optional[str]] field. *)
Definition truthy_opt (o : option string) : bool :=
  match o with Some s => Str.truthy s | None => false end.

(** *** [dataclasses.asdict] and the keyword constructors *)

Definition job_asdict (j : TrainingJob) : json :=
  JObj [ ("id", JStr (id j));
         ("model_name", JStr (model_name j));
         ("base_model", JStr (base_model j));
         ("dataset_path", JStr (dataset_path j));
         ("status", JStr (status j));
         ("progress", JInt (progress j));
         ("learning_rate", JFloat (learning_rate j));
         ("batch_size", JInt (batch_size j));
         ("epochs", JInt (epochs j));
         ("max_length", JInt (max_length j));
         ("start_time", JStr (start_time j));
         ("end_time", Json.of_opt_str (end_time j));
         ("logs", JList (map JStr (logs j)));
         ("error_message", Json.of_opt_str (error_message j));
         ("model_path", Json.of_opt_str (model_path j));
         ("metrics", Json.of_metrics (metrics j)) ].

Definition model_asdict (m : ModelInfo) : json :=
  JObj [ ("name", JStr (name m));
         ("base_model", JStr (mi_base_model m));
         ("model_path", JStr (mi_model_path m));
         ("training_job_id", JStr (training_job_id m));
         ("created_at", JStr (created_at m));
         ("dataset_info", JObj (dataset_info m));
         ("performance_metrics", Json.of_metrics (performance_metrics m));
         ("model_size", JInt (model_size m));
         ("description", Json.of_opt_str (description m)) ].

Definition job_fields : list string :=
  [ "id"; "model_name"; "base_model"; "dataset_path"; "status"; "progress";
    "learning_rate"; "batch_size"; "epochs"; "max_length"; "start_time";
    "end_time"; "logs"; "error_message"; "model_path"; "metrics" ].

Definition model_fields : list string :=
  [ "name"; "base_model"; "model_path"; "training_job_id"; "created_at";
    "dataset_info"; "performance_metrics"; "model_size"; "description" ].

(** A keyword argument that must be given. *)
Definition required {A} (conv : json -> option A) (k : string)
    (kw : list (string * json)) : option A :=
  match Dict.get k kw with Some v => conv v | None => None end.

(** A keyword argument with a default. *)
Definition defaulted {A} (conv : json -> option A) (dflt : A) (k : string)
    (kw : list (string * json)) : option A :=
  match Dict.get k kw with Some v => conv v | None => Some dflt end.

Definition conv_logs (j : json) : option (list string) :=
  match j with
  | JNull => Some []
  | JList l => Json.as_str_list l
  | _ => None
  end.

Definition conv_metrics (j : json) : option (Dict.t float) :=
  match j with
  | JNull => Some []
  | JObj l => Json.as_float_fields l
  | _ => None
  end.

Definition conv_obj (j : json) : option (list (string * json)) :=
  match j with JObj l => Some l | _ => None end.

(** The keyword constructor call of [TrainingJob] on a decoded record.
    [None] stands for the [TypeError] raised on a missing or an unexpected
    keyword ([constructor_refuses] below), and also for a record with a
    value outside the annotated type of its field: the constructor takes
    such a value, the typed record cannot hold it, and the catalogs that the
    properties speak of have no such record. *)
Definition job_of_json (d : json) : option TrainingJob :=
  match d with
  | JObj kw =>
      if forallb (fun k => Str.mem k job_fields) (Dict.keys kw) then
        match required Json.as_str "id" kw,
              required Json.as_str "model_name" kw,
              required Json.as_str "base_model" kw,
              required Json.as_str "dataset_path" kw,
              required Json.as_str "status" kw,
              required Json.as_int "progress" kw,
              required Json.as_float "learning_rate" kw,
              required Json.as_int "batch_size" kw with
        | Some a1, Some a2, Some a3, Some a4, Some a5, Some a6, Some a7, Some a8 =>
            match required Json.as_int "epochs" kw,
                  required Json.as_int "max_length" kw,
                  required Json.as_str "start_time" kw,
                  defaulted Json.as_opt_str None "end_time" kw,
                  defaulted conv_logs [] "logs" kw,
                  defaulted Json.as_opt_str None "error_message" kw,
                  defaulted Json.as_opt_str None "model_path" kw,
                  defaulted conv_metrics [] "metrics" kw with
            | Some a9, Some a10, Some a11, Some a12, Some a13, Some a14,
              Some a15, Some a16 =>
                Some {| id := a1; model_name := a2; base_model := a3;
                        dataset_path := a4; status := a5; progress := a6;
                        learning_rate := a7; batch_size := a8; epochs := a9;
                        max_length := a10; start_time := a11; end_time := a12;
                        logs := a13; error_message := a14; model_path := a15;
                        metrics := a16 |}
            | _, _, _, _, _, _, _, _ => None
            end
        | _, _, _, _, _, _, _, _ => None
        end
      else None
  | _ => None
  end.

(** The fields of [TrainingJob] without a default. *)
Definition job_required : list string :=
  [ "id"; "model_name"; "base_model"; "dataset_path"; "status"; "progress";
    "learning_rate"; "batch_size"; "epochs"; "max_length"; "start_time" ].

(** The decoded records on which the keyword constructor call of
    [TrainingJob] raises a [TypeError] whatever their values are: the
    record is not an object, or it has a key that is not a field, or it
    lacks a field without default. *)
Definition constructor_refuses (d : json) : bool :=
  match d with
  | JObj kw =>
      negb (forallb (fun k => Str.mem k job_fields) (Dict.keys kw))
      || negb (forallb (fun k => Dict.mem k kw) job_required)
  | _ => true
  end.

(** The keyword constructor call of [ModelInfo] on a decoded record. *)
Definition model_of_json (d : json) : option ModelInfo :=
  match d with
  | JObj kw =>
      if forallb (fun k => Str.mem k model_fields) (Dict.keys kw) then
        match required Json.as_str "name" kw,
              required Json.as_str "base_model" kw,
              required Json.as_str "model_path" kw,
              required Json.as_str "training_job_id" kw,
              required Json.as_str "created_at" kw with
        | Some b1, Some b2, Some b3, Some b4, Some b5 =>
            match required conv_obj "dataset_info" kw,
                  required conv_metrics "performance_metrics" kw,
                  required Json.as_int "model_size" kw,
                  defaulted Json.as_opt_str None "description" kw with
            | Some b6, Some b7, Some b8, Some b9 =>
                Some {| name := b1; mi_base_model := b2; mi_model_path := b3;
                        training_job_id := b4; created_at := b5;
                        dataset_info := b6; performance_metrics := b7;
                        model_size := b8; description := b9 |}
            | _, _, _, _ => None
            end
        | _, _, _, _, _ => None
        end
      else None
  | _ => None
  end.

(* ===================================================================== *)
(** ** Configuration, storage and the orchestrator's state *)
(* ===================================================================== *)

(** The fields of [ModelTrainerConfig] (config/settings.py) that the
    orchestrator reads.  Its [__post_init__] creates the directories, so the
    catalogs can always be written. *)
Record Config : Type := {
  max_file_size : Z;
  supported_formats : list string;
  max_concurrent_jobs : Z;
  models_directory : string;
  logs_directory : string
}.

(** What [validate_dataset] and [_analyze_dataset] observe of a file: its
    size, or the exception that [os.path.getsize] raises on it (the file
    exists but its size cannot be read), and the number of records each
    reader finds in it ([None] when that reader raises, or when the JSON
    document is not a list).  The column names and the three-record preview
    of the metadata are not used by the orchestrator and are left out. *)
Record DatasetFile : Type := {
  file_size : Z;
  size_error : option string;
  csv_rows : option Z;
  json_items : option Z;
  text_lines : option Z
}.

Record Metadata : Type := {
  md_file_size : Z;
  md_file_format : string;
  md_num_samples : Z
}.

(** Files: the two catalogs ([training_jobs.json] in the logs directory,
    [trained_models.json] in the models directory), the texts that the
    orchestrator writes (model artefacts and exports) by path, and under
    [datasets] every other entry of the file system by path, the uploaded
    datasets among them. *)
Record Disk : Type := {
  jobs_file : option json;
  models_file : option json;
  model_files : Dict.t string;
  datasets : Dict.t DatasetFile
}.

(** Program points of a worker thread.  [Sim*]: [_simulate_training.
    training_worker]; [Real*]: [_start_real_training.training_worker]. *)
Inductive PC : Type :=
| SimSpawned                      (* thread started, nothing run yet *)
| SimLoop (epoch step : Z)        (* at the head of the inner loop *)
| SimSleep (epoch step : Z)       (* in [time.sleep(0.5)] *)
| SimWrite                        (* in [open(model_path, 'w')] *)
| RealSpawned
| RealSetup                       (* between [_save_state()] and [trainer.train()] *)
| RealTrainBegin                  (* in [trainer.train()], before [on_train_begin] *)
| RealTraining                    (* in [trainer.train()] *)
| RealEvaluate                    (* in [trainer.evaluate()] *)
| RealSave                        (* in [trainer.save_model(...)] *)
| SimDone                         (* the simulated worker has returned *)
| RealDone.                       (* the trainer-backed worker has returned *)

Record Thread : Type := {
  th_job_id : string;
  th_pc : PC
}.

(** The object state of the orchestrator, the threads it has started and
    the files it writes.  [callers] counts the calls of [start_training]
    that have started their worker and not yet reached [_save_state()]. *)
Record State : Type := {
  config : Config;
  training_jobs : Dict.t TrainingJob;
  trained_models : Dict.t ModelInfo;
  active_jobs : Z;
  threads : list Thread;
  callers : nat;
  disk : Disk
}.

Definition with_training_jobs (v : Dict.t TrainingJob) (s : State) : State :=
  {| config := config s; training_jobs := v; trained_models := trained_models s;
     active_jobs := active_jobs s; threads := threads s; callers := callers s;
     disk := disk s |}.

Definition with_trained_models (v : Dict.t ModelInfo) (s : State) : State :=
  {| config := config s; training_jobs := training_jobs s; trained_models := v;
     active_jobs := active_jobs s; threads := threads s; callers := callers s;
     disk := disk s |}.

Definition with_active_jobs (v : Z) (s : State) : State :=
  {| config := config s; training_jobs := training_jobs s;
     trained_models := trained_models s;
     active_jobs := v; threads := threads s; callers := callers s;
     disk := disk s |}.

Definition with_threads (v : list Thread) (s : State) : State :=
  {| config := config s; training_jobs := training_jobs s;
     trained_models := trained_models s;
     active_jobs := active_jobs s; threads := v; callers := callers s;
     disk := disk s |}.

Definition with_callers (v : nat) (s : State) : State :=
  {| config := config s; training_jobs := training_jobs s;
     trained_models := trained_models s;
     active_jobs := active_jobs s; threads := threads s; callers := v;
     disk := disk s |}.

Definition with_disk (v : Disk) (s : State) : State :=
  {| config := config s; training_jobs := training_jobs s;
     trained_models := trained_models s;
     active_jobs := active_jobs s; threads := threads s; callers := callers s;
     disk := v |}.

(** A mutation of the job object registered under [job_id]. *)
Definition update_job (job_id : string) (f : TrainingJob -> TrainingJob)
    (s : State) : State :=
  with_training_jobs (Dict.modify job_id f (training_jobs s)) s.

Fixpoint set_nth_pc (tid : nat) (pc : PC) (l : list Thread) : list Thread :=
  match l, tid with
  | [], _ => []
  | t :: r, O => {| th_job_id := th_job_id t; th_pc := pc |} :: r
  | t :: r, S n => t :: set_nth_pc n pc r
  end.

Definition goto (tid : nat) (pc : PC) (s : State) : State :=
  with_threads (set_nth_pc tid pc (threads s)) s.

(** A reading of the clock: [int(time.time())], [datetime.now().isoformat()]
    and [datetime.now().strftime('%Y-%m-%d %H:%M:%S')]. *)
Record Clock : Type := {
  unix_time : Z;
  isoformat : string;
  strftime : string
}.

(** What belongs to the language runtime and its libraries: the format
    specifications [:.1f], [:.4f] and [:.2e] of f-strings, the text that
    [json.dump(..., indent=2)] writes, and what [os.path.getsize] and the
    readers of [_analyze_dataset] ([pandas.read_csv], [json.load],
    [readlines]) find in a file that holds a given text. *)
Record Formatting : Type := {
  format_1f : float -> string;
  format_4f : float -> string;
  format_2e : float -> string;
  dump_indent2 : json -> string;
  observe_text : string -> DatasetFile
}.

(* ===================================================================== *)
(** ** The job store: [_save_state] and [_load_state] *)
(* ===================================================================== *)

(** [ModelTrainerAPI._save_state] (lines 101-117): both catalogs are
    rewritten wholesale from the in-memory dictionaries. *)
Definition _save_state (s : State) : State :=
  with_disk
    {| jobs_file := Some (JList (map job_asdict (Dict.values (training_jobs s))));
       models_file := Some (JList (map model_asdict (Dict.values (trained_models s))));
       model_files := model_files (disk s);
       datasets := datasets (disk s) |} s.

(** The loop [for job_data in jobs_data: ...] of [_load_state]; the second
    component tells whether a record raised. *)
Fixpoint load_jobs (l : list json) (d : Dict.t TrainingJob)
    : Dict.t TrainingJob * bool :=
  match l with
  | [] => (d, true)
  | x :: r =>
      match job_of_json x with
      | Some job => load_jobs r (Dict.set (id job) job d)
      | None => (d, false)
      end
  end.

Fixpoint load_models (l : list json) (d : Dict.t ModelInfo)
    : Dict.t ModelInfo * bool :=
  match l with
  | [] => (d, true)
  | x :: r =>
      match model_of_json x with
      | Some m => load_models r (Dict.set (name m) m d)
      | None => (d, false)
      end
  end.

(** [ModelTrainerAPI._load_state] (lines 79-99).  One [try] covers both
    catalogs: an exception while reading the jobs skips the models too, and
    is only logged.  A catalog that is not a list is iterated all the same:
    an empty object or an empty string gives no turn of the loop and no
    exception; a key of an object or a character of a string is refused by
    the constructor call, and any other value cannot be iterated. *)
Definition _load_state (s : State) : State :=
  let '(jobs, ok) :=
    match jobs_file (disk s) with
    | None => (training_jobs s, true)
    | Some (JList l) => load_jobs l (training_jobs s)
    | Some (JObj []) => (training_jobs s, true)
    | Some (JStr EmptyString) => (training_jobs s, true)
    | Some _ => (training_jobs s, false)
    end in
  let s1 := with_training_jobs jobs s in
  if ok then
    match models_file (disk s) with
    | None => s1
    | Some (JList l) => with_trained_models (fst (load_models l (trained_models s))) s1
    | Some _ => s1
    end
  else s1.

(** [ModelTrainerAPI.__init__] (lines 70-77): a process start on the files
    [d]. *)
Definition init (cfg : Config) (d : Disk) : State :=
  _load_state
    {| config := cfg; training_jobs := []; trained_models := [];
       active_jobs := 0; threads := []; callers := O; disk := d |}.

(** [TrainingManager._save_state] (trainer_test.py, lines 38-41) is a
    placeholder that only prints. *)
Definition TrainingManager_save_state (s : State) : State := s.

(* ===================================================================== *)
(** ** [ModelTrainerAPI]: validation, admission, cancellation, deletion *)
(* ===================================================================== *)

(** The arguments of one call of [start_training]. *)
Record Request : Type := {
  rq_model_name : string;
  rq_base_model : string;
  rq_dataset_path : string;
  rq_learning_rate : float;
  rq_batch_size : Z;
  rq_epochs : Z;
  rq_max_length : Z;
  rq_description : string
}.

(** Which worker body [start_training] starts: [_simulate_training], as the
    source has it, or [_start_real_training], which the docstring of
    [_simulate_training] names as its replacement. *)
Inductive WorkerKind : Type := Simulated | Trainer.

Definition status_pending : string := "pending".
Definition status_initializing : string := "initializing".
Definition status_training : string := "training".
Definition status_completed : string := "completed".
Definition status_failed : string := "failed".
Definition status_cancelled : string := "cancelled".

(** The terminal states of the specification. *)
Definition is_terminal (st : string) : bool :=
  String.eqb st status_completed || String.eqb st status_failed
  || String.eqb st status_cancelled.

Definition opt_or_zero (o : option Z) : Z :=
  match o with Some n => n | None => 0 end.

(** [', '.join(l)] *)
Fixpoint join_comma (l : list string) : string :=
  match l with
  | [] => EmptyString
  | [x] => x
  | x :: r => x ++ ", " ++ join_comma r
  end.

(** [os.path.exists]: a text that the orchestrator wrote, another entry of
    the file system, or one of the two catalogs. *)
Definition path_exists (s : State) (p : string) : bool :=
  Dict.mem p (model_files (disk s))
  || Dict.mem p (datasets (disk s))
  || (String.eqb p (Path.join (logs_directory (config s)) "training_jobs.json")
      && match jobs_file (disk s) with Some _ => true | None => false end)
  || (String.eqb p (Path.join (models_directory (config s)) "trained_models.json")
      && match models_file (disk s) with Some _ => true | None => false end).

(** [os.remove(p)], when it succeeds: no file is left under [p]. *)
Definition remove_file (cfg : Config) (p : string) (d : Disk) : Disk :=
  {| jobs_file :=
       if String.eqb p (Path.join (logs_directory cfg) "training_jobs.json")
       then None else jobs_file d;
     models_file :=
       if String.eqb p (Path.join (models_directory cfg) "trained_models.json")
       then None else models_file d;
     model_files := Dict.del p (model_files d);
     datasets := Dict.del p (datasets d) |}.

Section Orchestrator.

Variable fmt : Formatting.

(** What is observed of a catalog: the text that [json.dump] wrote, in
    which [json.load] finds the document again. *)
Definition observe_catalog (data : json) : DatasetFile :=
  let f := observe_text fmt (dump_indent2 fmt data) in
  {| file_size := file_size f;
     size_error := size_error f;
     csv_rows := csv_rows f;
     json_items :=
       match data with
       | JList l => Some (Z.of_nat (List.length l))
       | _ => None
       end;
     text_lines := text_lines f |}.

(** What is observed of the file under [p], if there is one: a catalog, a
    text that the orchestrator wrote, or another file. *)
Definition file_view (s : State) (p : string) : option DatasetFile :=
  let d := disk s in
  match (if String.eqb p (Path.join (logs_directory (config s)) "training_jobs.json")
         then jobs_file d else None),
        (if String.eqb p (Path.join (models_directory (config s)) "trained_models.json")
         then models_file d else None) with
  | Some data, _ => Some (observe_catalog data)
  | None, Some data => Some (observe_catalog data)
  | None, None =>
      match Dict.get p (model_files d) with
      | Some text => Some (observe_text fmt text)
      | None => Dict.get p (datasets d)
      end
  end.

(** [_analyze_dataset] (lines 141-185), restricted to the sample count. *)
Definition _analyze_dataset (f : DatasetFile) (file_ext : string) : Metadata :=
  {| md_file_size := file_size f;
     md_file_format := file_ext;
     md_num_samples :=
       if String.eqb file_ext ".csv" then
         match csv_rows f with Some n => Z.min n 1000 | None => 0 end
       else if String.eqb file_ext ".json" then opt_or_zero (json_items f)
       else if String.eqb file_ext ".jsonl" then
         match text_lines f with Some n => Z.min n 1000 | None => 0 end
       else if String.eqb file_ext ".txt" then opt_or_zero (text_lines f)
       else 0 |}.

(** [validate_dataset] (lines 119-139).  The metadata of a rejected file is
    the empty dictionary, here [None].  [os.path.exists] holds when
    [file_view] finds a file; the only call that can raise under the [try]
    is [os.path.getsize] (line 125, and line 144 on the same file). *)
Definition validate_dataset (s : State) (file_path : string)
    : bool * string * option Metadata :=
  match (if Str.truthy file_path then file_view s file_path else None) with
  | None => (false, "File does not exist", None)
  | Some f =>
      match size_error f with
      | Some msg => (false, "Validation error: " ++ msg, None)
      | None =>
          if max_file_size (config s) <? file_size f then
            (false,
             "File too large. Max size: "
               ++ format_1f fmt (Float.div (Float.truediv (max_file_size (config s)) 1024)
                                           (Float.of_int 1024))
               ++ "MB",
             None)
          else
            let file_ext := Str.lower (Path.splitext_ext file_path) in
            if negb (Str.mem file_ext (supported_formats (config s))) then
              (false,
               "Unsupported format. Supported: "
                 ++ join_comma (supported_formats (config s)),
               None)
            else
              (true, "Dataset validated successfully", Some (_analyze_dataset f file_ext))
      end
  end.

(** [thread.start()] at the end of [_simulate_training] or of
    [_start_real_training]. *)
Definition spawn (k : WorkerKind) (job_id : string) (s : State) : State :=
  with_threads
    (threads s ++
       [ {| th_job_id := job_id;
            th_pc := match k with Simulated => SimSpawned | Trainer => RealSpawned end |} ])
    s.

Definition new_job_id (clk : Clock) (s : State) : string :=
  "job_" ++ Str.of_Z (unix_time clk) ++ "_"
    ++ Str.of_Z (Z.of_nat (List.length (training_jobs s))).

(** [start_training] (lines 187-231) up to and including the start of the
    worker thread, run without another caller in between.  A rejection
    returns before anything is assigned. *)
Definition admission (k : WorkerKind) (clk : Clock) (rq : Request) (s : State)
    : (bool * string) * State :=
  if negb (Str.truthy (Str.strip (rq_model_name rq))) then
    ((false, "Model name is required"), s)
  else if Dict.mem (rq_model_name rq) (trained_models s) then
    ((false, "Model '" ++ rq_model_name rq ++ "' already exists"), s)
  else if max_concurrent_jobs (config s) <=? active_jobs s then
    ((false,
      "Maximum concurrent jobs (" ++ Str.of_Z (max_concurrent_jobs (config s))
        ++ ") reached"), s)
  else
    let '(is_valid, message, dataset_metadata) :=
      validate_dataset s (rq_dataset_path rq) in
    if negb is_valid then
      ((false, "Dataset validation failed: " ++ message), s)
    else
      let job_id := new_job_id clk s in
      let job :=
        {| id := job_id;
           model_name := rq_model_name rq;
           base_model := rq_base_model rq;
           dataset_path := rq_dataset_path rq;
           status := status_pending;
           progress := 0;
           learning_rate := rq_learning_rate rq;
           batch_size := rq_batch_size rq;
           epochs := rq_epochs rq;
           max_length := rq_max_length rq;
           start_time := isoformat clk;
           end_time := None;
           logs :=
             [ "Training job created at " ++ strftime clk;
               "Dataset: " ++ Path.basename (rq_dataset_path rq) ++ " ("
                 ++ Str.of_Z (match dataset_metadata with
                              | Some md => md_num_samples md
                              | None => 0
                              end)
                 ++ " samples)" ];
           error_message := None;
           model_path := None;
           metrics := [] |} in
      let s1 := with_training_jobs (Dict.set job_id job (training_jobs s)) s in
      let s2 := with_active_jobs (active_jobs s1 + 1) s1 in
      let s3 := spawn k job_id s2 in
      ((true, "Training started successfully! Job ID: " ++ job_id),
       with_callers (S (callers s3)) s3).

(** The two parts of [admission].  Between them the caller waits for the
    files that [validate_dataset] reads, and nothing keeps another caller
    from running.  First the tests of lines 193-205, which give the message
    of a rejection or the metadata of the accepted dataset; *)
Definition admission_tests (rq : Request) (s : State) : string + option Metadata :=
  if negb (Str.truthy (Str.strip (rq_model_name rq))) then
    inl "Model name is required"
  else if Dict.mem (rq_model_name rq) (trained_models s) then
    inl ("Model '" ++ rq_model_name rq ++ "' already exists")
  else if max_concurrent_jobs (config s) <=? active_jobs s then
    inl ("Maximum concurrent jobs (" ++ Str.of_Z (max_concurrent_jobs (config s))
           ++ ") reached")
  else
    let '(is_valid, message, dataset_metadata) :=
      validate_dataset s (rq_dataset_path rq) in
    if negb is_valid then inl ("Dataset validation failed: " ++ message)
    else inr dataset_metadata.

(** then the registration of lines 207-231, in the state that the caller
    finds when it goes on. *)
Definition admission_register (k : WorkerKind) (clk : Clock) (rq : Request)
    (dataset_metadata : option Metadata) (s : State) : (bool * string) * State :=
  let job_id := new_job_id clk s in
  let job :=
    {| id := job_id;
       model_name := rq_model_name rq;
       base_model := rq_base_model rq;
       dataset_path := rq_dataset_path rq;
       status := status_pending;
       progress := 0;
       learning_rate := rq_learning_rate rq;
       batch_size := rq_batch_size rq;
       epochs := rq_epochs rq;
       max_length := rq_max_length rq;
       start_time := isoformat clk;
       end_time := None;
       logs :=
         [ "Training job created at " ++ strftime clk;
           "Dataset: " ++ Path.basename (rq_dataset_path rq) ++ " ("
             ++ Str.of_Z (match dataset_metadata with
                          | Some md => md_num_samples md
                          | None => 0
                          end)
             ++ " samples)" ];
       error_message := None;
       model_path := None;
       metrics := [] |} in
  let s1 := with_training_jobs (Dict.set job_id job (training_jobs s)) s in
  let s2 := with_active_jobs (active_jobs s1 + 1) s1 in
  let s3 := spawn k job_id s2 in
  ((true, "Training started successfully! Job ID: " ++ job_id),
   with_callers (S (callers s3)) s3).

(** The rest of [start_training] (lines 233-235): [_save_state()], then the
    return. *)
Definition commit (s : State) : State :=
  match callers s with
  | O => s
  | S n => with_callers n (_save_state s)
  end.

Definition start_training_with (k : WorkerKind) (clk : Clock) (rq : Request)
    (s : State) : (bool * string) * State :=
  let '(r, s1) := admission k clk rq s in
  if fst r then (r, commit s1) else (r, s1).

(** [start_training] (lines 187-235), run without interruption. *)
Definition start_training : Clock -> Request -> State -> (bool * string) * State :=
  start_training_with Simulated.

(** [cancel_training] (lines 407-421). *)
Definition cancel_training (clk : Clock) (job_id : string) (s : State)
    : (bool * string) * State :=
  match Dict.get job_id (training_jobs s) with
  | None => ((false, "Job " ++ job_id ++ " not found"), s)
  | Some job =>
      if negb (Str.mem (status job) [status_pending; status_training]) then
        ((false, "Cannot cancel job with status: " ++ status job), s)
      else
        let s1 :=
          update_job job_id
            (fun j => append_log ("Training cancelled at " ++ strftime clk)
                        (set_status status_cancelled j)) s in
        ((true, "Training job " ++ job_id ++ " cancelled successfully"),
         _save_state s1)
  end.

(** [delete_model] (lines 423-442).  [raised] is the exception, if any,
    that [os.remove(model.model_path)] raises when it is called (as on a
    directory, or on a file that may not be removed): the handler answers
    with it, and the model stays registered. *)
Definition delete_model (raised : option string) (model_name : string) (s : State)
    : (bool * string) * State :=
  match Dict.get model_name (trained_models s) with
  | None => ((false, "Model '" ++ model_name ++ "' not found"), s)
  | Some model =>
      match (if path_exists s (mi_model_path model) then raised else None) with
      | Some msg => ((false, "Error deleting model: " ++ msg), s)
      | None =>
          let s1 :=
            if path_exists s (mi_model_path model) then
              with_disk (remove_file (config s) (mi_model_path model) (disk s)) s
            else s in
          let s2 := with_trained_models (Dict.del model_name (trained_models s1)) s1 in
          ((true, "Model '" ++ model_name ++ "' deleted successfully"), _save_state s2)
      end
  end.

(* ===================================================================== *)
(** ** The workers *)
(* ===================================================================== *)

(** What reaches a worker thread from outside when it runs one block of its
    code: nothing ([Tick]), or the outcome of the external call it waits in,
    or a callback of the training framework. *)
Inductive Event : Type :=
| Tick
| Returned
| Raised (msg : string)
| SetupReturned (train_samples val_samples : Z)
| SetupRaised (stage : nat) (train_samples val_samples : Z) (msg : string)
| OnTrainBegin
| OnStepBegin
| OnLog (is_local_process_zero : bool) (global_step max_steps : Z)
        (loss lr : option float)
| EvaluateReturned (final_metrics : string).

(** *** The simulated worker (model_trainer_api-v1.py, lines 237-302) *)

(** Line 255: [((epoch * 10 + step + 1) / (job.epochs * 10)) * 100]. *)
Definition sim_progress (n_epochs epoch step : Z) : float :=
  Float.mul (Float.truediv (epoch * 10 + step + 1) (n_epochs * 10)) (Float.of_int 100).

Definition sim_next (epoch step : Z) : PC :=
  if step <? 9 then SimLoop epoch (step + 1) else SimLoop (epoch + 1) 0.

(** Lines 294-296. *)
Definition sim_finally (s : State) : State :=
  _save_state (with_active_jobs (active_jobs s - 1) s).

(** Lines 267-280. *)
Definition sim_model_info (cfg : Config) (job_id : string) (job : TrainingJob)
    (ended : string) : ModelInfo :=
  {| name := model_name job;
     mi_base_model := base_model job;
     mi_model_path := Path.join (models_directory cfg) (model_name job ++ ".model");
     training_job_id := job_id;
     created_at := ended;
     dataset_info := [ ("path", JStr (dataset_path job)); ("samples", JInt 1000) ];
     performance_metrics := [ ("accuracy", Float.lit_0_95); ("loss", Float.lit_0_05) ];
     model_size := 1024 * 1024 * 50;
     description :=
       Some ("Custom model trained on " ++ Path.basename (dataset_path job)) |}.

(** Lines 261-282: the block that follows the loops, up to the opening of
    the model file. *)
Definition sim_complete (clk : Clock) (job_id : string) (job : TrainingJob)
    (s : State) : State :=
  let s1 :=
    update_job job_id
      (fun j => append_log "Training completed successfully!"
                  (set_progress 100
                     (set_end_time (Some (isoformat clk))
                        (set_status status_completed j)))) s in
  with_trained_models
    (Dict.set (model_name job)
       (sim_model_info (config s) job_id job (isoformat clk))
       (trained_models s1)) s1.

(** Lines 288-292. *)
Definition sim_except (msg : string) (job_id : string) (s : State) : State :=
  update_job job_id
    (fun j => append_log ("Training failed: " ++ msg)
                (set_error_message (Some msg) (set_status status_failed j))) s.

Definition text_of_opt (o : option string) : string :=
  match o with Some t => t | None => "None" end.

Definition nl : string := String (ascii_of_nat 10) EmptyString.

(** One block of [_simulate_training.training_worker], run by thread [tid]
    at program point [pc]. *)
Definition sim_worker (clk : Clock) (ev : Event) (tid : nat) (job_id : string)
    (pc : PC) (s : State) : State :=
  match pc, ev, Dict.get job_id (training_jobs s) with
  | SimSpawned, Tick, None => goto tid SimDone s
  | SimSpawned, Tick, Some _ =>
      goto tid (SimLoop 0 0)
        (update_job job_id
           (fun j => append_log "Training started..." (set_status status_training j)) s)
  | SimLoop epoch step, Tick, Some job =>
      if epochs job <=? epoch then goto tid SimWrite (sim_complete clk job_id job s)
      else if String.eqb (status job) status_cancelled then goto tid SimDone (sim_finally s)
      else goto tid (SimSleep epoch step) s
  | SimSleep epoch step, Tick, Some job =>
      let p := sim_progress (epochs job) epoch step in
      let s1 := update_job job_id (set_progress (Float.to_int p)) s in
      let s2 :=
        if step mod 3 =? 0 then
          update_job job_id
            (append_log
               ("Epoch " ++ Str.of_Z (epoch + 1) ++ "/" ++ Str.of_Z (epochs job)
                  ++ ", Step " ++ Str.of_Z (step + 1) ++ "/10 - Loss: "
                  ++ format_4f fmt
                       (Float.sub Float.lit_0_5 (Float.div p (Float.of_int 200))))) s1
        else s1 in
      goto tid (sim_next epoch step) s2
  | SimWrite, Returned, Some job =>
      let path := Path.join (models_directory (config s)) (model_name job ++ ".model") in
      let d := disk s in
      let s1 :=
        with_disk
          {| jobs_file := jobs_file d; models_file := models_file d;
             model_files :=
               Dict.set path
                 ("Model: " ++ model_name job ++ nl ++ "Trained: "
                    ++ text_of_opt (end_time job)) (model_files d);
             datasets := datasets d |} s in
      goto tid SimDone (sim_finally s1)
  | SimWrite, Raised msg, Some _ =>
      goto tid SimDone (sim_finally (sim_except msg job_id s))
  | _, _, _ => s
  end.

(** *** The trainer-backed worker (trainer_test.py, lines 43-211) *)

(** [JobProgressCallback.on_log], line 69:
    [(state.global_step / state.max_steps) * 100]. *)
Definition real_progress (global_step max_steps : Z) : float :=
  Float.mul (Float.truediv global_step max_steps) (Float.of_int 100).

(** Lines 73-78. *)
Definition log_entry (global_step max_steps : Z) (loss lr : option float) : string :=
  "Step " ++ Str.of_Z global_step ++ "/" ++ Str.of_Z max_steps
    ++ match loss with Some x => " - Loss: " ++ format_4f fmt x | None => EmptyString end
    ++ match lr with Some x => " - LR: " ++ format_2e fmt x | None => EmptyString end.

(** Lines 190-199: the handler leaves a cancelled job cancelled. *)
Definition real_except (msg : string) (job_id : string) (s : State) : State :=
  update_job job_id
    (fun j =>
       if String.eqb (status j) status_cancelled then
         append_log "Training run was successfully cancelled by the user." j
       else
         append_log ("Training failed unexpectedly: " ++ msg)
           (set_error_message (Some msg) (set_status status_failed j))) s.

(** Lines 201-206. *)
Definition real_finally (clk : Clock) (job_id : string) (s : State) : State :=
  TrainingManager_save_state
    (update_job job_id
       (fun j => if truthy_opt (end_time j) then j
                 else set_end_time (Some (isoformat clk)) j)
       (with_active_jobs (active_jobs s - 1) s)).

Definition append_logs (lines : list string) (j : TrainingJob) : TrainingJob :=
  fold_left (fun acc line => append_log line acc) lines j.

(** The log lines of lines 99, 112, 134 and 53, in the order they are
    appended before [trainer.train()] is entered.  An exception during the
    set-up leaves the first [stage] of them in the log. *)
Definition setup_logs (job : TrainingJob) (train_samples val_samples : Z)
    : list string :=
  [ "Loading base model and tokenizer: " ++ base_model job ++ "...";
    "Loading and processing dataset: " ++ dataset_path job ++ "...";
    "Dataset processed. Training samples: " ++ Str.of_Z train_samples
      ++ ", Validation samples: " ++ Str.of_Z val_samples;
    "Training callback initialized." ].

(** One block of [_start_real_training.training_worker] (and of the
    callbacks that the trainer runs on its thread). *)
Definition real_worker (clk : Clock) (ev : Event) (tid : nat) (job_id : string)
    (pc : PC) (s : State) : State :=
  let fail msg s0 := goto tid RealDone (real_finally clk job_id (real_except msg job_id s0)) in
  match pc, ev, Dict.get job_id (training_jobs s) with
  | RealSpawned, Tick, None => goto tid RealDone s
  | RealSpawned, Tick, Some _ =>
      goto tid RealSetup
        (TrainingManager_save_state
           (update_job job_id
              (fun j => append_log "Initializing training environment..."
                          (set_status status_initializing j)) s))
  | RealSetup, SetupReturned n_train n_val, Some job =>
      goto tid RealTrainBegin
        (update_job job_id (append_logs (setup_logs job n_train n_val)) s)
  | RealSetup, SetupRaised stage n_train n_val msg, Some job =>
      fail msg
        (update_job job_id
           (append_logs (firstn stage (setup_logs job n_train n_val))) s)
  | RealTrainBegin, OnTrainBegin, Some _ =>
      goto tid RealTraining
        (update_job job_id
           (fun j => append_log "Hugging Face Trainer has started the training run."
                       (set_status status_training j)) s)
  | RealTrainBegin, Raised msg, Some _ => fail msg s
  | RealTraining, OnStepBegin, Some job =>
      if String.eqb (status job) status_cancelled then
        update_job job_id
          (append_log "Cancellation signal received. Stopping training.") s
      else s
  | RealTraining, OnLog local_zero global_step max_steps loss lr, Some _ =>
      if local_zero then
        if max_steps =? 0 then fail "division by zero" s
        else
          update_job job_id
            (fun j => append_log (log_entry global_step max_steps loss lr)
                        (set_progress
                           (Float.to_int (real_progress global_step max_steps)) j)) s
      else s
  | RealTraining, Returned, Some _ =>
      goto tid RealEvaluate
        (update_job job_id
           (append_log "Training process finished. Evaluating final model...") s)
  | RealTraining, Raised msg, Some _ => fail msg s
  | RealEvaluate, EvaluateReturned final_metrics, Some _ =>
      goto tid RealSave
        (update_job job_id
           (fun j => set_progress 100
                       (set_end_time (Some (isoformat clk))
                          (set_status status_completed
                             (append_log ("Final evaluation metrics: " ++ final_metrics) j))))
           s)
  | RealEvaluate, Raised msg, Some _ => fail msg s
  | RealSave, Returned, Some job =>
      goto tid RealDone
        (real_finally clk job_id
           (update_job job_id
              (append_log
                 ("Model saved successfully to "
                    ++ Path.join (models_directory (config s)) (model_name job))) s))
  | RealSave, Raised msg, Some _ => fail msg s
  | _, _, _ => s
  end.

(* ===================================================================== *)
(** ** The system: callers and workers interleaved *)
(* ===================================================================== *)

Inductive Label : Type :=
| Admit (k : WorkerKind) (rq : Request)
| Commit
| Cancel (job_id : string)
| DeleteModel (model_name : string) (raised : option string)
| Work (tid : nat) (ev : Event).

Definition is_sim_pc (pc : PC) : bool :=
  match pc with
  | SimSpawned | SimLoop _ _ | SimSleep _ _ | SimWrite | SimDone => true
  | _ => false
  end.

(** One step: a block of one thread, at the clock reading [clk]. *)
Definition step (clk : Clock) (l : Label) (s : State) : State :=
  match l with
  | Admit k rq => snd (admission k clk rq s)
  | Commit => commit s
  | Cancel job_id => snd (cancel_training clk job_id s)
  | DeleteModel model_name raised => snd (delete_model raised model_name s)
  | Work tid ev =>
      match nth_error (threads s) tid with
      | None => s
      | Some t =>
          if is_sim_pc (th_pc t) then sim_worker clk ev tid (th_job_id t) (th_pc t) s
          else real_worker clk ev tid (th_job_id t) (th_pc t) s
      end
  end.

Fixpoint run (tr : list (Clock * Label)) (s : State) : State :=
  match tr with
  | [] => s
  | (clk, l) :: r => run r (step clk l s)
  end.

(** The states of a process started on empty catalogs. *)
Definition fresh (cfg : Config) (files : Dict.t DatasetFile) : State :=
  init cfg {| jobs_file := None; models_file := None; model_files := [];
              datasets := files |}.

Definition reachable (cfg : Config) (files : Dict.t DatasetFile) (s : State) : Prop :=
  exists tr, s = run tr (fresh cfg files).

End Orchestrator.

(* ===================================================================== *)
(** ** [ModelTrainerAPI]: reports, testing and export *)
(* ===================================================================== *)

Module Text.

(** [s[:n]]: the first [n] code points of the text, each one a first byte
    with the continuation bytes that follow it. *)
Fixpoint take (n : nat) (s : string) {struct s} : string :=
  match s with
  | EmptyString => EmptyString
  | String c r =>
      if Str.is_continuation c then String c (take n r)
      else
        match n with
        | O => EmptyString
        | S m => String c (take m r)
        end
  end.

(** [l[-n:]] for a positive [n]. *)
Definition last_n {A} (n : nat) (l : list A) : list A :=
  skipn (List.length l - n) l.

Definition is_lower (c : ascii) : bool :=
  let n := nat_of_ascii c in (97 <=? n)%nat && (n <=? 122)%nat.

Definition is_upper (c : ascii) : bool :=
  let n := nat_of_ascii c in (65 <=? n)%nat && (n <=? 90)%nat.

Definition upper_char (c : ascii) : ascii :=
  if is_lower c then ascii_of_nat (nat_of_ascii c - 32) else c.

(** [s.title()] on ASCII text: a letter that follows a letter is put in
    lower case, any other letter in upper case. *)
Fixpoint title_from (previous_is_cased : bool) (s : string) : string :=
  match s with
  | EmptyString => EmptyString
  | String c r =>
      if is_lower c then
        String (if previous_is_cased then c else upper_char c) (title_from true r)
      else if is_upper c then
        String (if previous_is_cased then Str.lower_char c else c) (title_from true r)
      else String c (title_from false r)
  end.

Definition title (s : string) : string := title_from false s.

(** [''.join(l)] *)
Definition concat (l : list string) : string :=
  fold_right String.append EmptyString l.

Section Sorting.
Context {A : Type}.
Variable key : A -> string.

(** [sorted(l, key=key, reverse=True)]: decreasing keys, and elements with
    equal keys in the order they have in [l]. *)
Fixpoint insert_desc (x : A) (l : list A) : list A :=
  match l with
  | [] => [x]
  | y :: r => if String.ltb (key x) (key y) then y :: insert_desc x r else x :: l
  end.

Definition sorted_desc (l : list A) : list A :=
  fold_right insert_desc [] l.

End Sorting.

End Text.

(** The format specification [:.2%] and [json.dumps(..., indent=2)], which
    belong to the language runtime and its library. *)
Record Rendering : Type := {
  format_2pct : float -> string;
  dumps_indent2 : json -> string
}.

(** The template that [random.choice] picks in [test_model]. *)
Inductive Pick : Type := First | Second | Third.

Section Reports.

Variable fmt : Formatting.
Variable rnd : Rendering.

(** Lines 311-329: the report on one job. *)
Definition job_status_text (job_id : string) (job : TrainingJob) : string :=
  "**Job " ++ job_id ++ " Status:**" ++ nl ++ nl
  ++ "Model: " ++ model_name job ++ nl
  ++ "Status: " ++ Text.title (status job) ++ nl
  ++ "Progress: " ++ Str.of_Z (progress job) ++ "%" ++ nl
  ++ "Base Model: " ++ base_model job ++ nl
  ++ "Started: " ++ Text.take 19 (start_time job) ++ nl
  ++ match end_time job with
     | Some e => if Str.truthy e then "Completed: " ++ Text.take 19 e ++ nl
                 else EmptyString
     | None => EmptyString
     end
  ++ match error_message job with
     | Some e => if Str.truthy e then "Error: " ++ e ++ nl else EmptyString
     | None => EmptyString
     end
  ++ match logs job with
     | [] => EmptyString
     | _ :: _ =>
         nl ++ "**Recent Logs:**" ++ nl
         ++ Text.concat (map (fun log => "- " ++ log ++ nl) (Text.last_n 5 (logs job)))
     end.

(** Lines 338-347: the entry of one job in the report on all jobs. *)
Definition job_summary_text (job : TrainingJob) : string :=
  "**" ++ model_name job ++ "** (ID: " ++ id job ++ ")" ++ nl
  ++ "- Status: " ++ Text.title (status job) ++ nl
  ++ "- Progress: " ++ Str.of_Z (progress job) ++ "%" ++ nl
  ++ "- Base Model: " ++ base_model job ++ nl
  ++ "- Started: " ++ Text.take 19 (start_time job) ++ nl
  ++ match Text.last_n 1 (logs job) with
     | log :: _ => "- Latest: " ++ log ++ nl
     | [] => EmptyString
     end
  ++ nl.

(** [get_training_status] (lines 304-349); [None] is the default argument. *)
Definition get_training_status (job_id : option string) (s : State) : string :=
  match job_id with
  | Some (String c r as k) =>
      match Dict.get k (training_jobs s) with
      | None => "Job " ++ k ++ " not found"
      | Some job => job_status_text k job
      end
  | _ =>
      match training_jobs s with
      | [] => "No training jobs found"
      | _ :: _ =>
          "**All Training Jobs:**" ++ nl ++ nl
          ++ Text.concat
               (map job_summary_text
                  (Text.sorted_desc start_time (Dict.values (training_jobs s))))
      end
  end.

(** [f"{model.performance_metrics.get('accuracy', 0):.2%}"] *)
Definition accuracy_text (m : ModelInfo) : string :=
  format_2pct rnd
    match Dict.get "accuracy" (performance_metrics m) with
    | Some x => x
    | None => Float.of_int 0
    end.

(** Lines 359-371: the entry of one model; [os.path.basename] raises a
    [TypeError] ([None] here) on a [path] that is not a string. *)
Definition model_summary_text (m : ModelInfo) : option string :=
  match match Dict.get "path" (dataset_info m) with
        | None => Some "Unknown"
        | Some (JStr p) => Some p
        | Some _ => None
        end with
  | None => None
  | Some p =>
      Some ("**" ++ name m ++ "**" ++ nl
            ++ "- Base Model: " ++ mi_base_model m ++ nl
            ++ "- Created: " ++ Text.take 19 (created_at m) ++ nl
            ++ "- Size: "
            ++ format_1f fmt (Float.div (Float.truediv (model_size m) 1024)
                                        (Float.of_int 1024))
            ++ " MB" ++ nl
            ++ "- Dataset: " ++ Path.basename p ++ nl
            ++ match performance_metrics m with
               | [] => EmptyString
               | _ :: _ => "- Accuracy: " ++ accuracy_text m ++ nl
               end
            ++ match description m with
               | Some d => if Str.truthy d then "- Description: " ++ d ++ nl
                           else EmptyString
               | None => EmptyString
               end
            ++ nl)
  end.

Fixpoint models_text (l : list ModelInfo) : option string :=
  match l with
  | [] => Some EmptyString
  | m :: r =>
      match model_summary_text m, models_text r with
      | Some a, Some b => Some (a ++ b)
      | _, _ => None
      end
  end.

(** [get_trained_models] (lines 351-373); [None] when it raises. *)
Definition get_trained_models (s : State) : option string :=
  match trained_models s with
  | [] => Some "No trained models available"
  | _ :: _ =>
      match models_text (Text.sorted_desc created_at (Dict.values (trained_models s))) with
      | Some t => Some ("**Trained Models:**" ++ nl ++ nl ++ t)
      | None => None
      end
  end.

(** Lines 388-392. *)
Definition response_template (pick : Pick) (model_name test_input : string)
    (m : ModelInfo) : string :=
  match pick with
  | First =>
      "Based on my training with " ++ mi_base_model m
        ++ ", here's my response to '" ++ test_input
        ++ "': This is a simulated response that would be generated by your custom trained model."
  | Second =>
      "Using the patterns learned from your dataset, I interpret '" ++ test_input
        ++ "' as follows: [Simulated model output based on training data]"
  | Third =>
      "Model '" ++ model_name
        ++ "' response: Your trained model would process this input and generate contextually appropriate output based on the training data."
  end.

(** Lines 397-405. *)
Definition model_response (pick : Pick) (model_name test_input : string)
    (m : ModelInfo) : string :=
  "**Model Response from '" ++ model_name ++ "':**" ++ nl ++ nl
  ++ "**Input:** " ++ test_input ++ nl ++ nl
  ++ "**Output:** " ++ response_template pick model_name test_input m ++ nl ++ nl
  ++ "**Model Info:**" ++ nl
  ++ "- Base Model: " ++ mi_base_model m ++ nl
  ++ "- Trained: " ++ Text.take 19 (created_at m) ++ nl
  ++ "- Accuracy: " ++ accuracy_text m ++ nl.

(** [test_model] (lines 375-405). *)
Definition test_model (pick : Pick) (model_name test_input : string) (s : State)
    : string :=
  if negb (Str.truthy model_name) || negb (Str.truthy test_input) then
    "Please provide both model name and test input"
  else
    match Dict.get model_name (trained_models s) with
    | None =>
        "Model '" ++ model_name ++ "' not found. Available models: "
          ++ join_comma (Dict.keys (trained_models s))
    | Some m =>
        if negb (path_exists s (mi_model_path m)) then
          "Model file not found at " ++ mi_model_path m
        else model_response pick model_name test_input m
    end.

(** Lines 451-457: the path and the text of an export. *)
Definition export_path (cfg : Config) (model_name export_format : string) : string :=
  Path.join (models_directory cfg) (model_name ++ "_export." ++ export_format).

Definition export_text (clk : Clock) (model_name : string) (m : ModelInfo) : string :=
  "Exported model: " ++ model_name ++ nl
  ++ "Export time: " ++ isoformat clk ++ nl
  ++ "Model info: " ++ dumps_indent2 rnd (model_asdict m) ++ nl.

(** [export_model] (lines 444-462).  [raised] is the exception, if any, that
    [open(export_path, 'w')] raises. *)
Definition export_model (clk : Clock) (raised : option string)
    (model_name export_format : string) (s : State) : (bool * string) * State :=
  match Dict.get model_name (trained_models s) with
  | None => ((false, "Model '" ++ model_name ++ "' not found"), s)
  | Some m =>
      match raised with
      | Some msg => ((false, "Export failed: " ++ msg), s)
      | None =>
          let d := disk s in
          let p := export_path (config s) model_name export_format in
          ((true, "Model exported to: " ++ p),
           with_disk
             {| jobs_file := jobs_file d; models_file := models_file d;
                model_files := Dict.set p (export_text clk model_name m) (model_files d);
                datasets := datasets d |} s)
      end
  end.

End Reports.

(* ===================================================================== *)
(** * Specification vocabulary *)
(* ===================================================================== *)

(** The predicates and functions in which the properties of the
    orchestrator are stated. *)

Section Vocabulary.

Variable fmt : Formatting.

(** ** Registries *)

(** The keys of a registry are the identifiers of the records stored under
    them, and no key occurs twice. *)
Definition keyed_by {V} (key : V -> string) (d : Dict.t V) : Prop :=
  NoDup (Dict.keys d) /\ Forall (fun kv => key (snd kv) = fst kv) d.

Definition persisted_jobs (d : Disk) : list json :=
  match jobs_file d with
  | Some (JList l) => l
  | _ => []
  end.

(** ** Submissions *)

(** The four grounds of rejection, in the order they are tested. *)
Inductive Rejection : Type :=
| InvalidRequest
| DuplicateModel
| CapacityExceeded
| InvalidDataset.

Definition rejection (rq : Request) (s : State) : option Rejection :=
  if negb (Str.truthy (Str.strip (rq_model_name rq))) then Some InvalidRequest
  else if Dict.mem (rq_model_name rq) (trained_models s) then Some DuplicateModel
  else if max_concurrent_jobs (config s) <=? active_jobs s then Some CapacityExceeded
  else if negb (fst (fst (validate_dataset fmt s (rq_dataset_path rq)))) then
    Some InvalidDataset
  else None.

Definition rejection_message (rq : Request) (s : State) (e : Rejection) : string :=
  match e with
  | InvalidRequest => "Model name is required"
  | DuplicateModel => "Model '" ++ rq_model_name rq ++ "' already exists"
  | CapacityExceeded =>
      "Maximum concurrent jobs (" ++ Str.of_Z (max_concurrent_jobs (config s))
        ++ ") reached"
  | InvalidDataset =>
      "Dataset validation failed: "
        ++ snd (fst (validate_dataset fmt s (rq_dataset_path rq)))
  end.

(** The identifier that line 208 builds from the clock and the size of the
    job registry. *)
Definition job_key (t : Z) (i : nat) : string :=
  "job_" ++ Str.of_Z t ++ "_" ++ Str.of_Z (Z.of_nat i).

Definition is_digit (c : ascii) : bool :=
  let n := nat_of_ascii c in (48 <=? n)%nat && (n <=? 57)%nat.

Definition first_pc (k : WorkerKind) : PC :=
  match k with Simulated => SimSpawned | Trainer => RealSpawned end.

(** ** Workers *)

Definition pc_kind (pc : PC) : WorkerKind :=
  if is_sim_pc pc then Simulated else Trainer.

(** A thread that has not returned yet. *)
Definition live (pc : PC) : bool :=
  match pc with SimDone | RealDone => false | _ => true end.

Definition live_count (l : list Thread) : Z :=
  Z.of_nat (List.length (filter (fun t => live (th_pc t)) l)).

Definition returned_count (l : list Thread) : Z :=
  Z.of_nat (List.length (filter (fun t => negb (live (th_pc t))) l)).


Definition not_started (j : TrainingJob) : Prop :=
  (status j = status_pending \/ status j = status_cancelled)
  /\ end_time j = None /\ error_message j = None.

Definition setting_up (j : TrainingJob) : Prop :=
  status j = status_initializing /\ end_time j = None /\ error_message j = None.

Definition running (j : TrainingJob) : Prop :=
  (status j = status_training \/ status j = status_cancelled)
  /\ end_time j = None /\ error_message j = None.

Definition finishing (j : TrainingJob) : Prop :=
  status j = status_completed /\ end_time j <> None /\ error_message j = None
  /\ progress j = 100.

Definition finished (j : TrainingJob) : Prop :=
  (status j = status_completed \/ status j = status_failed
   \/ status j = status_cancelled)
  /\ (status j <> status_cancelled -> end_time j <> None)
  /\ (status j = status_completed -> progress j = 100)
  /\ (status j = status_failed <-> error_message j <> None).

(** What the job record of a worker looks like at each of its program
    points. *)
Definition local_ok (pc : PC) (j : TrainingJob) : Prop :=
  match pc with
  | SimSpawned | RealSpawned => not_started j
  | RealSetup | RealTrainBegin => setting_up j
  | SimLoop _ _ | SimSleep _ _ | RealTraining | RealEvaluate => running j
  | SimWrite | RealSave => finishing j
  | SimDone => finished j
  | RealDone => finished j /\ end_time j <> None
  end.

Record Inv (s : State) : Prop := {
  inv_ids : map th_job_id (threads s) = Dict.keys (training_jobs s);
  inv_keys : forall i k, nth_error (Dict.keys (training_jobs s)) i = Some k ->
                         exists t, k = job_key t i;
  inv_local : forall tid t job,
      nth_error (threads s) tid = Some t ->
      Dict.get (th_job_id t) (training_jobs s) = Some job ->
      id job = th_job_id t /\ local_ok (th_pc t) job;
  inv_active : active_jobs s = live_count (threads s);
  inv_models : keyed_by name (trained_models s)
}.

(** ** Status changes *)

(** The status changes that the code makes, by the kind of worker that the
    job has.  The first group are the edges of the life cycle; the second
    group are writes of a worker over a status that was already terminal. *)
Inductive worker_edge : WorkerKind -> string -> string -> Prop :=
| E_sim_start : worker_edge Simulated status_pending status_training
| E_sim_complete : worker_edge Simulated status_training status_completed
| E_real_init : worker_edge Trainer status_pending status_initializing
| E_real_begin : worker_edge Trainer status_initializing status_training
| E_real_setup_failed : worker_edge Trainer status_initializing status_failed
| E_real_complete : worker_edge Trainer status_training status_completed
| E_real_failed : worker_edge Trainer status_training status_failed.

Inductive worker_overwrite : WorkerKind -> string -> string -> Prop :=
| O_sim_start : worker_overwrite Simulated status_cancelled status_training
| O_sim_complete : worker_overwrite Simulated status_cancelled status_completed
| O_sim_failed : worker_overwrite Simulated status_completed status_failed
| O_real_init : worker_overwrite Trainer status_cancelled status_initializing
| O_real_complete : worker_overwrite Trainer status_cancelled status_completed
| O_real_failed : worker_overwrite Trainer status_completed status_failed.

Inductive cancel_edge : string -> string -> Prop :=
| E_cancel_pending : cancel_edge status_pending status_cancelled
| E_cancel_training : cancel_edge status_training status_cancelled.

Definition step_status (kind : WorkerKind) (st st' : string) : Prop :=
  st' = st \/ worker_edge kind st st' \/ worker_overwrite kind st st'.

Record WorkEffect (s s' : State) (tid : nat) (t : Thread) (job : TrainingJob)
  : Prop := {
  we_job : exists job' pc',
      Dict.get (th_job_id t) (training_jobs s') = Some job'
      /\ threads s' = set_nth_pc tid pc' (threads s)
      /\ pc_kind pc' = pc_kind (th_pc t)
      /\ (live (th_pc t) = false -> s' = s)
      /\ local_ok pc' job'
      /\ id job' = id job
      /\ model_name job' = model_name job
      /\ step_status (pc_kind (th_pc t)) (status job) (status job')
      /\ active_jobs s'
         = active_jobs s - (if live (th_pc t) && negb (live pc') then 1 else 0);
  we_others : forall k', k' <> th_job_id t ->
      Dict.get k' (training_jobs s') = Dict.get k' (training_jobs s);
  we_keys : Dict.keys (training_jobs s') = Dict.keys (training_jobs s);
  we_config : config s' = config s;
  we_callers : callers s' = callers s;
  we_models : keyed_by name (trained_models s) -> keyed_by name (trained_models s');
  we_models_mono : forall n, Dict.mem n (trained_models s) = true ->
                             Dict.mem n (trained_models s') = true
}.

(** The status of a job along a run, and the same with repetitions
    removed. *)
Definition status_at (s : State) (k : string) : string :=
  match Dict.get k (training_jobs s) with
  | Some j => status j
  | None => EmptyString
  end.

Fixpoint history (tr : list (Clock * Label)) (s : State) (k : string) : list string :=
  status_at s k ::
  match tr with
  | [] => []
  | (clk, l) :: r => history r (step fmt clk l s) k
  end.

Fixpoint compress (l : list string) : list string :=
  match l with
  | [] => []
  | x :: r =>
      match compress r with
      | [] => [x]
      | y :: c => if String.eqb x y then y :: c else x :: y :: c
      end
  end.

(** Whether a run contains a call of [cancel_training] for job [k]. *)
Definition cancels (k : string) (tr : list (Clock * Label)) : bool :=
  existsb (fun cl => match snd cl with
                     | Cancel k' => String.eqb k' k
                     | _ => false
                     end) tr.

(** The statuses from [st] to [completed], under each kind of worker. *)
Definition path_to_completed (wk : WorkerKind) (st : string) : option (list string) :=
  if String.eqb st status_completed then Some [status_completed]
  else if String.eqb st status_training then
    Some [status_training; status_completed]
  else
    match wk with
    | Simulated =>
        if String.eqb st status_pending then
          Some [status_pending; status_training; status_completed]
        else None
    | Trainer =>
        if String.eqb st status_initializing then
          Some [status_initializing; status_training; status_completed]
        else if String.eqb st status_pending then
          Some [status_pending; status_initializing; status_training;
                status_completed]
        else None
    end.

Definition has_worker (s : State) (k : string) (wk : WorkerKind) : Prop :=
  exists tid t, nth_error (threads s) tid = Some t /\ th_job_id t = k
                /\ pc_kind (th_pc t) = wk.

(** ** Progress *)

(** [int(progress)]: the value that line 256 of model_trainer_api-v1.py and
    line 70 of trainer_test.py store in [job.progress]. *)
Definition reported_progress (global_step max_steps : Z) : Z :=
  Float.to_int (real_progress global_step max_steps).

(** The blocks that report progress, with the step and the number of steps
    they report: a turn of the inner loop of the simulated worker, and
    [on_log] on the main process under the trainer. *)
Definition progress_event (pc : PC) (ev : Event) (job : TrainingJob) : option (Z * Z) :=
  match pc, ev with
  | SimSleep epoch step, Tick => Some (epoch * 10 + step + 1, epochs job * 10)
  | RealTraining, OnLog true global_step max_steps _ _ => Some (global_step, max_steps)
  | _, _ => None
  end.

(** One part in [b52] is the relative error of one rounding to 53 bits. *)
Definition b52 : Z := 2 ^ 52.

(** ** The registry of models *)

(** A model as the simulated worker registers it (lines 268-282): under its
    own name, with the path of its file in the models directory, the fixed
    size and metrics of the simulation, and the identifier of a job of that
    model name which was [completed] when the model was registered, and can
    only have become [failed] since. *)
Definition registered_by_worker (s : State) (n : string) (m : ModelInfo) : Prop :=
  name m = n
  /\ mi_model_path m = Path.join (models_directory (config s)) (n ++ ".model")
  /\ (exists p, dataset_info m = [ ("path", JStr p); ("samples", JInt 1000) ])
  /\ performance_metrics m = [ ("accuracy", Float.lit_0_95); ("loss", Float.lit_0_05) ]
  /\ model_size m = 52428800
  /\ exists job,
       Dict.get (training_job_id m) (training_jobs s) = Some job
       /\ model_name job = n
       /\ (status job = status_completed \/ status job = status_failed).

Definition registry_ok (s : State) : Prop :=
  forall n m, Dict.get n (trained_models s) = Some m -> registered_by_worker s n m.

(** A list in the order of [sorted(..., key=key, reverse=True)]: no element
    comes before one with a larger key. *)
Definition descending {A} (key : A -> string) (l : list A) : Prop :=
  StronglySorted (fun a b => String.ltb (key a) (key b) = false) l.

(** The last character of a text. *)
Fixpoint last_char (s : string) : option ascii :=
  match s with
  | EmptyString => None
  | String c EmptyString => Some c
  | String _ r => last_char r
  end.

End Vocabulary.

(* ===================================================================== *)
(** * Concrete data *)
(* ===================================================================== *)

(** The inputs of the runs that are evaluated at the end of the file. *)

Definition fmt0 : Formatting :=
  {| format_1f := fun _ => "0.0"; format_4f := fun _ => "0.0000";
     format_2e := fun _ => "0.00e+00";
     dump_indent2 := fun _ => "[]";
     observe_text := fun text =>
       {| file_size := Z.of_nat (String.length text); size_error := None;
          csv_rows := None; json_items := None; text_lines := None |} |}.

Definition cfg2 : Config :=
  {| max_file_size := 100 * 1024 * 1024;
     supported_formats := [".json"; ".jsonl"; ".csv"; ".txt"; ".parquet"];
     max_concurrent_jobs := 2;
     models_directory := "./models";
     logs_directory := "./logs" |}.

Definition files0 : Dict.t DatasetFile :=
  [ ("data.csv",
     {| file_size := 4096; size_error := None; csv_rows := Some 120;
        json_items := None; text_lines := Some 121 |}) ].

Definition clk0 : Clock :=
  {| unix_time := 1700000000; isoformat := "2023-11-14T22:13:20.000000";
     strftime := "2023-11-14 22:13:20" |}.

Definition request (model : string) (n_epochs : Z) : Request :=
  {| rq_model_name := model; rq_base_model := "b"; rq_dataset_path := "data.csv";
     rq_learning_rate := Float.truediv 1 1000; rq_batch_size := 4;
     rq_epochs := n_epochs; rq_max_length := 2048; rq_description := EmptyString |}.

Definition at_clk0 (ls : list Label) : list (Clock * Label) :=
  map (fun l => (clk0, l)) ls.

Definition job0 : string := "job_1700000000_0".
Definition job1 : string := "job_1700000000_1".

(** The simulated worker of thread 0, from its start to the opening of the
    model file, for a job of one epoch: 1 block to start, 2 for each of the
    10 steps, 1 to leave the loops. *)
Definition sim_blocks : list Label := repeat (Work 0 Tick) 22.

(** The trainer-backed worker of thread 0, from its start to its return. *)
Definition trainer_blocks : list Label :=
  [ Work 0 Tick; Work 0 (SetupReturned 108 12); Work 0 OnTrainBegin;
    Work 0 OnStepBegin; Work 0 (OnLog true 10 20 None None); Work 0 OnStepBegin;
    Work 0 (OnLog true 20 20 None None); Work 0 Returned;
    Work 0 (EvaluateReturned "{'eval_loss': 1.0}"); Work 0 Returned ].

Definition started (k : WorkerKind) : State :=
  run fmt0 (at_clk0 [Admit k (request "m1" 1); Commit]) (fresh cfg2 files0).

(** A job cancelled under the trainer-backed worker, in [trainer.train()]. *)
Definition trainer_cancelled : State :=
  run fmt0
    (at_clk0 [Work 0 Tick; Work 0 (SetupReturned 108 12); Work 0 OnTrainBegin;
              Cancel job0])
    (started Trainer).

(** Two jobs in training, under a ceiling of two. *)
Definition two_training : State :=
  run fmt0
    (at_clk0 [Admit Simulated (request "m1" 1); Commit;
              Admit Simulated (request "m2" 1); Commit; Work 0 Tick; Work 1 Tick])
    (fresh cfg2 files0).

(** The first job, completed by the simulated worker. *)
Definition sim_completed : State :=
  run fmt0 (at_clk0 (sim_blocks ++ [Work 0 Returned])) (started Simulated).

(** A job of ten epochs under the simulated worker, in the [time.sleep] of
    step 9 of its third epoch: the 29th of 100 steps. *)
Definition ten_epochs_step_29 : State :=
  run fmt0 (at_clk0 (repeat (Work 0 Tick) 58))
    (run fmt0 (at_clk0 [Admit Simulated (request "m1" 10); Commit]) (fresh cfg2 files0)).

(** A job in [trainer.train()], after [on_train_begin]. *)
Definition trainer_training : State :=
  run fmt0
    (at_clk0 [Work 0 Tick; Work 0 (SetupReturned 108 12); Work 0 OnTrainBegin;
              Work 0 OnStepBegin])
    (started Trainer).

(** The runtime's rendering of percentages and of JSON text, fixed for the
    runs below. *)
Definition rnd0 : Rendering :=
  {| format_2pct := fun _ => "95.00%"; dumps_indent2 := fun _ => "{}" |}.

(** The first job, failed by an error on the model file. *)
Definition sim_failed : State :=
  run fmt0 (at_clk0 (sim_blocks ++ [Work 0 (Raised "No such file")])) (started Simulated).

(** The first job under the simulated worker, in the [time.sleep] of its
    last step, and at the head of the loops after that step. *)
Definition last_sleep : State :=
  run fmt0 (at_clk0 (repeat (Work 0 Tick) 20)) (started Simulated).

Definition loops_done : State :=
  run fmt0 (at_clk0 (repeat (Work 0 Tick) 21)) (started Simulated).


(** The metadata of the dataset of [files0]. *)
Definition metadata0 : option Metadata :=
  Some {| md_file_size := 4096; md_file_format := ".csv"; md_num_samples := 120 |}.

(** The first job under the trainer-backed worker, loading its model. *)
Definition trainer_setup : State :=
  run fmt0 (at_clk0 [Work 0 Tick]) (started Trainer).

(** A job of no epochs, just submitted. *)
Definition started_without_epochs : State :=
  run fmt0 (at_clk0 [Admit Simulated (request "m0" 0); Commit]) (fresh cfg2 files0).

(** Files whose jobs catalog holds a record without its required fields,
    after the record of a completed job and before the records of two other
    jobs, beside a good catalog of models. *)
Definition disk_with_bad_record : Disk :=
  {| jobs_file :=
       Some (JList (map job_asdict (Dict.values (training_jobs sim_completed))
                      ++ JObj [ ("id", JStr "job_1") ]
                      :: map job_asdict (Dict.values (training_jobs two_training))));
     models_file :=
       Some (JList (map model_asdict (Dict.values (trained_models sim_completed))));
     model_files := [];
     datasets := files0 |}.

(* ===================================================================== *)
(** * Properties *)
(* ===================================================================== *)

(** ** Dictionaries *)

Module DictFacts.

Section Facts.
Context {V : Type}.
Implicit Types (d : Dict.t V) (k : string).

Lemma get_set_same k (v : V) d : Dict.get k (Dict.set k v d) = Some v.
Proof.
  induction d as [|[k' v'] r IH]; simpl.
  - now rewrite String.eqb_refl.
  - destruct (String.eqb k' k) eqn:E; simpl.
    + now rewrite String.eqb_refl.
    + now rewrite E.
Qed.

Lemma get_set_other k k' (v : V) d :
  k' <> k -> Dict.get k (Dict.set k' v d) = Dict.get k d.
Proof.
  intros Hne. induction d as [|[k0 v0] r IH]; simpl.
  - destruct (String.eqb_spec k' k); congruence.
  - destruct (String.eqb_spec k0 k') as [->|Hk]; simpl.
    + destruct (String.eqb_spec k' k); congruence.
    + destruct (String.eqb_spec k0 k); congruence.
Qed.

Lemma get_none_notin k d : Dict.get k d = None <-> ~ In k (Dict.keys d).
Proof.
  induction d as [|[k0 v0] r IH]; simpl.
  - tauto.
  - destruct (String.eqb_spec k0 k) as [->|Hk].
    + split; [discriminate | tauto].
    + rewrite IH. tauto.
Qed.

Lemma set_fresh k (v : V) d : Dict.get k d = None -> Dict.set k v d = (d ++ [(k, v)])%list.
Proof.
  induction d as [|[k0 v0] r IH]; simpl; intros H.
  - reflexivity.
  - destruct (String.eqb k0 k); [discriminate|]. now rewrite IH.
Qed.

Lemma keys_modify k (f : V -> V) d : Dict.keys (Dict.modify k f d) = Dict.keys d.
Proof.
  induction d as [|[k0 v0] r IH]; simpl; [reflexivity|].
  destruct (String.eqb k0 k); simpl; [reflexivity|]. now rewrite IH.
Qed.

Lemma length_modify k (f : V -> V) d : List.length (Dict.modify k f d) = List.length d.
Proof.
  induction d as [|[k0 v0] r IH]; simpl; [reflexivity|].
  destruct (String.eqb k0 k); simpl; [reflexivity|]. now rewrite IH.
Qed.

Lemma get_modify_same k (f : V -> V) d :
  Dict.get k (Dict.modify k f d) = option_map f (Dict.get k d).
Proof.
  induction d as [|[k0 v0] r IH]; simpl; [reflexivity|].
  destruct (String.eqb k0 k) eqn:E; simpl; rewrite E; [reflexivity|exact IH].
Qed.

Lemma get_modify_other k k' (f : V -> V) d :
  k' <> k -> Dict.get k (Dict.modify k' f d) = Dict.get k d.
Proof.
  intros Hne. induction d as [|[k0 v0] r IH]; simpl; [reflexivity|].
  destruct (String.eqb_spec k0 k') as [->|Hk]; simpl.
  - destruct (String.eqb_spec k' k); congruence.
  - destruct (String.eqb_spec k0 k); congruence.
Qed.

Lemma get_modify k k' (f : V -> V) d :
  Dict.get k (Dict.modify k' f d)
  = if String.eqb k' k then option_map f (Dict.get k d) else Dict.get k d.
Proof.
  destruct (String.eqb_spec k' k) as [->|Hne].
  - apply get_modify_same.
  - now apply get_modify_other.
Qed.

Lemma keys_set_present k (v : V) d :
  Dict.get k d <> None -> Dict.keys (Dict.set k v d) = Dict.keys d.
Proof.
  induction d as [|[k0 v0] r IH]; simpl; intros H; [congruence|].
  destruct (String.eqb_spec k0 k) as [->|Hk]; simpl; [reflexivity|].
  now rewrite IH.
Qed.

Lemma get_del_other k k' d : k' <> k -> Dict.get k (Dict.del k' d) = Dict.get k d.
Proof.
  intros Hne. induction d as [|[k0 v0] r IH]; simpl; [reflexivity|].
  destruct (String.eqb_spec k0 k') as [->|Hk]; simpl.
  - destruct (String.eqb_spec k' k); congruence.
  - destruct (String.eqb_spec k0 k); congruence.
Qed.

Lemma in_keys_del k k' d : In k (Dict.keys (Dict.del k' d)) -> In k (Dict.keys d).
Proof.
  induction d as [|[k0 v0] r IH]; simpl; [tauto|].
  destruct (String.eqb k0 k'); simpl; tauto.
Qed.

Lemma nodup_del k d : NoDup (Dict.keys d) -> NoDup (Dict.keys (Dict.del k d)).
Proof.
  induction d as [|[k0 v0] r IH]; simpl; intros H; [constructor|].
  inversion H as [|? ? Hn Hr]; subst.
  destruct (String.eqb k0 k); simpl; [exact Hr|].
  constructor; [|now apply IH].
  intros Hin. apply Hn. eapply in_keys_del; eauto.
Qed.

Lemma in_keys_set k k' (v : V) d :
  In k (Dict.keys (Dict.set k' v d)) -> k = k' \/ In k (Dict.keys d).
Proof.
  induction d as [|[k0 v0] r IH]; simpl.
  - intros [H|[]]; auto.
  - destruct (String.eqb_spec k0 k') as [->|Hk]; simpl; intros [H|H]; auto.
    destruct (IH H); auto.
Qed.

Lemma nodup_set k (v : V) d : NoDup (Dict.keys d) -> NoDup (Dict.keys (Dict.set k v d)).
Proof.
  induction d as [|[k0 v0] r IH]; simpl; intros H.
  - constructor; [simpl; tauto | constructor].
  - inversion H as [|? ? Hn Hr]; subst.
    destruct (String.eqb_spec k0 k) as [->|Hk]; simpl.
    + constructor; assumption.
    + constructor; [|now apply IH].
      intros Hin. destruct (in_keys_set _ _ _ _ Hin); congruence.
Qed.

End Facts.

End DictFacts.

(** ** Binary64 arithmetic *)

(** What the two roundings of [(c / t) * 100] and the truncation of [int]
    leave of [100 * c / t]: each rounding is off by at most one part in
    [b52], which is too little to carry the product over an integer for
    fewer than [2 ^ 44] steps. *)

Module FloatFacts.

(** *** Digits and shifts *)

Lemma digits2_size (p : positive) : digits2_pos p = Pos.size p.
Proof. induction p; simpl; congruence. Qed.

(** A positive number of [d] binary digits lies in [[2 ^ (d - 1), 2 ^ d)],
    and that determines [d]. *)
Lemma digits_bounds (p : positive) :
  2 ^ (Zpos (digits2_pos p) - 1) <= Zpos p < 2 ^ Zpos (digits2_pos p).
Proof.
  rewrite digits2_size. split.
  - pose proof (Pos.size_le p) as H.
    assert (E : Zpos (2 ^ Pos.size p) = 2 ^ Zpos (Pos.size p)) by apply Pos2Z.inj_pow.
    assert (H' : 2 ^ Zpos (Pos.size p) <= 2 * Zpos p).
    { rewrite <- E. change (2 * Zpos p) with (Zpos p~0). now apply Pos2Z.pos_le_pos. }
    replace (Zpos (Pos.size p)) with (Z.succ (Zpos (Pos.size p) - 1)) in H' by lia.
    rewrite Z.pow_succ_r in H' by lia. lia.
  - pose proof (Pos.size_gt p) as H.
    rewrite <- Pos2Z.inj_pow. now apply Pos2Z.pos_lt_pos.
Qed.

Lemma digits_unique (p : positive) (k : Z) :
  2 ^ (k - 1) <= Zpos p < 2 ^ k -> Zpos (digits2_pos p) = k.
Proof.
  intros [Hlo Hhi]. pose proof (digits_bounds p) as [Dlo Dhi].
  set (D := Zpos (digits2_pos p)) in *.
  assert (0 < k). { destruct (Z.lt_ge_cases 0 k); [assumption|].
    assert (2 ^ k <= 2 ^ 0) by (apply Z.pow_le_mono_r; lia). simpl in *. lia. }
  destruct (Z.lt_trichotomy D k) as [L|[E|G]]; [|exact E|].
  - assert (2 ^ D <= 2 ^ (k - 1)) by (apply Z.pow_le_mono_r; lia). lia.
  - assert (2 ^ k <= 2 ^ (D - 1)) by (apply Z.pow_le_mono_r; lia). lia.
Qed.

(** Shifting a significand right by [n] places divides it by [2 ^ n]. *)
Lemma shr_m_shr_1 (mrs : shr_record) :
  0 <= shr_m mrs -> shr_m (shr_1 mrs) = shr_m mrs / 2.
Proof.
  destruct mrs as [m r s]. simpl. intros Hm.
  destruct m as [|p|p]; try lia; [reflexivity|].
  destruct p as [p|p|]; simpl.
  - rewrite Pos2Z.inj_xI. apply Z.div_unique with 1; lia.
  - rewrite Pos2Z.inj_xO. apply Z.div_unique with 0; lia.
  - reflexivity.
Qed.

Lemma shr_m_iter (n : positive) : forall mrs,
  0 <= shr_m mrs ->
  shr_m (iter_pos shr_1 n mrs) = shr_m mrs / 2 ^ Zpos n.
Proof.
  assert (Hpow : forall k, 0 < 2 ^ Zpos k) by (intros; apply Z.pow_pos_nonneg; lia).
  induction n as [n IH|n IH|]; intros mrs Hm; simpl iter_pos.
  - assert (H1 : 0 <= shr_m (shr_1 mrs))
      by (rewrite shr_m_shr_1 by assumption; apply Z.div_pos; lia).
    assert (H2 : 0 <= shr_m (iter_pos shr_1 n (shr_1 mrs)))
      by (rewrite IH by assumption; apply Z.div_pos; [assumption|apply Hpow]).
    rewrite IH, IH, shr_m_shr_1 by assumption.
    assert (E : 2 ^ Zpos n~1 = 2 * 2 ^ Zpos n * 2 ^ Zpos n).
    { rewrite <- Z.mul_assoc, <- Z.pow_add_r, <- Z.pow_succ_r by lia. f_equal. lia. }
    rewrite E. pose proof (Hpow n).
    rewrite !Z.div_div by lia. f_equal. ring.
  - assert (H2 : 0 <= shr_m (iter_pos shr_1 n mrs))
      by (rewrite IH by assumption; apply Z.div_pos; [assumption|apply Hpow]).
    rewrite IH, IH by assumption.
    assert (E : 2 ^ Zpos n~0 = 2 ^ Zpos n * 2 ^ Zpos n).
    { rewrite <- Z.pow_add_r by lia. f_equal. lia. }
    rewrite E. pose proof (Hpow n).
    rewrite !Z.div_div by lia. reflexivity.
  - now apply shr_m_shr_1.
Qed.

Lemma shr_spec (mrs : shr_record) (e n : Z) :
  0 <= shr_m mrs -> 0 <= n ->
  shr_m (fst (shr mrs e n)) = shr_m mrs / 2 ^ n /\ snd (shr mrs e n) = e + n.
Proof.
  intros Hm Hn. destruct n as [|p|p]; try lia; simpl.
  - rewrite Z.div_1_r. split; [reflexivity|lia].
  - split; [now apply shr_m_iter|reflexivity].
Qed.

Lemma shr_m_of_loc (m : Z) (l : location) : shr_m (shr_record_of_loc m l) = m.
Proof. destruct l as [|[| |]]; reflexivity. Qed.

(** Rounding to nearest keeps the truncated significand or adds one. *)
Lemma round_nearest_even_cases (m : Z) (l : location) :
  round_nearest_even m l = m \/ round_nearest_even m l = m + 1.
Proof.
  destruct l as [|[| |]]; simpl; auto. destruct (Z.even m); auto.
Qed.

(** *** One rounding to 53 bits *)

(** The exponent of a normal number. *)
Lemma fexp_normal (e : Z) : -1074 + 53 <= e -> fexp 53 1024 e = e - 53.
Proof. intros H. unfold fexp, emin. lia. Qed.

Lemma shr_fexp_spec (m : positive) (e : Z) (l : location) :
  let D := Zpos (digits2_pos m) in
  53 <= D -> -1074 <= e ->
  exists mrs,
    shr_fexp 53 1024 (Zpos m) e l = (mrs, e + (D - 53))
    /\ shr_m mrs = Zpos m / 2 ^ (D - 53).
Proof.
  intros D HD He. unfold shr_fexp. cbn [Zdigits2]. fold D.
  rewrite fexp_normal by lia.
  pose proof (shr_spec (shr_record_of_loc (Zpos m) l) e (D + e - 53 - e)) as H.
  rewrite shr_m_of_loc in H. destruct H as [H1 H2]; try lia.
  destruct (shr (shr_record_of_loc (Zpos m) l) e (D + e - 53 - e)) as [mrs e'].
  cbn [fst snd] in *. exists mrs. subst e'.
  replace (D + e - 53 - e) with (D - 53) in * by lia. auto.
Qed.

(** [binary_round_aux] on a significand of at least 53 digits, away from
    underflow and overflow: the result [m * 2 ^ e] is normal and differs
    from [mx * 2 ^ ex] by less than one unit of its last place. *)
Lemma bra_spec (mx : positive) (ex : Z) (lx : location) :
  let D := Zpos (digits2_pos mx) in
  53 <= D -> -1074 <= ex -> D + ex <= 1000 ->
  exists m e,
    binary_round_aux 53 1024 false (Zpos mx) ex lx = S754_finite false m e
    /\ 2 ^ 52 <= Zpos m < 2 ^ 53
    /\ ex <= e <= ex + (D - 53) + 1
    /\ Zpos mx - 2 ^ (D - 53) < Zpos m * 2 ^ (e - ex) <= Zpos mx + 2 ^ (D - 53)
    /\ 2 ^ 52 * 2 ^ (D - 53) <= Zpos mx.
Proof.
  intros D HD Hex Hov.
  pose proof (digits_bounds mx) as [Dlo Dhi]. fold D in Dlo, Dhi.
  set (n := D - 53) in *.
  assert (Hn : 0 <= n) by (unfold n; lia).
  assert (Pn : 0 < 2 ^ n) by (apply Z.pow_pos_nonneg; lia).
  assert (E52 : 2 ^ (D - 1) = 2 ^ 52 * 2 ^ n)
    by (rewrite <- Z.pow_add_r by lia; f_equal; unfold n; lia).
  assert (E53 : 2 ^ D = 2 ^ 53 * 2 ^ n)
    by (rewrite <- Z.pow_add_r by lia; f_equal; unfold n; lia).
  unfold binary_round_aux.
  destruct (shr_fexp_spec mx ex lx HD Hex) as (mrs1 & -> & Hm1). fold D n in Hm1 |- *.
  set (m1 := Zpos mx / 2 ^ n) in *.
  assert (Hm1lo : 2 ^ 52 <= m1)
    by (apply Z.div_le_lower_bound; lia).
  assert (Hm1hi : m1 < 2 ^ 53)
    by (apply Z.div_lt_upper_bound; lia).
  assert (Hm1n : Zpos mx - 2 ^ n < m1 * 2 ^ n <= Zpos mx).
  { pose proof (Z.div_mod (Zpos mx) (2 ^ n)) as Hdm.
    pose proof (Z.mod_pos_bound (Zpos mx) (2 ^ n) Pn) as Hmb.
    fold m1 in Hdm. lia. }
  set (m2 := round_nearest_even (shr_m mrs1) (loc_of_shr_record mrs1)).
  assert (Hm2 : m2 = m1 \/ m2 = m1 + 1)
    by (unfold m2; rewrite Hm1; apply round_nearest_even_cases).
  assert (Hm2pos : 0 < m2) by lia.
  destruct m2 as [|p2|p2] eqn:Ep2; try lia.
  destruct (Z.lt_ge_cases (Zpos p2) (2 ^ 53)) as [Hlt|Hge].
  - assert (Dp2 : Zpos (digits2_pos p2) = 53) by (apply digits_unique; simpl; lia).
    destruct (shr_fexp_spec p2 (ex + n) loc_Exact) as (mrs2 & -> & Hm2'); try lia.
    rewrite Dp2 in *. rewrite Z.div_1_r in Hm2'. rewrite Hm2'.
    destruct (Z.leb_spec (ex + n + (53 - 53)) (1024 - 53)); [|lia].
    exists p2, (ex + n + (53 - 53)). split; [reflexivity|].
    replace (ex + n + (53 - 53) - ex) with n by lia.
    repeat split; try lia; destruct Hm2 as [->| ->]; nia.
  - assert (E2 : Zpos p2 = 2 ^ 53) by lia.
    assert (Dp2 : Zpos (digits2_pos p2) = 54) by (apply digits_unique; simpl; lia).
    destruct (shr_fexp_spec p2 (ex + n) loc_Exact) as (mrs2 & -> & Hm2'); try lia.
    rewrite Dp2 in *. rewrite E2 in Hm2'.
    change (2 ^ 53 / 2 ^ (54 - 53)) with (Zpos (2 ^ 52)) in Hm2'. rewrite Hm2'.
    destruct (Z.leb_spec (ex + n + (54 - 53)) (1024 - 53)); [|lia].
    exists (2 ^ 52)%positive, (ex + n + (54 - 53)). split; [reflexivity|].
    replace (ex + n + (54 - 53) - ex) with (n + 1) by lia.
    rewrite Z.pow_add_r by lia.
    change (Zpos (2 ^ 52)) with (2 ^ 52). change (2 ^ 1) with 2.
    repeat split; try lia.
Qed.

(** The quotient [c / t] of two positive ints [c <= t]: a float
    [m * 2 ^ e] whose scaled significand [Y = m * 2 ^ (e + s)] is within one
    part in [b52] of [c * 2 ^ s / t]. *)
Lemma truediv_spec (c t : positive) :
  (c <= t)%positive -> Zpos t < 2 ^ 1000 ->
  exists m e s,
    Float.truediv (Zpos c) (Zpos t) = S754_finite false m e
    /\ 53 <= s <= 1053 /\ - s <= e <= 0
    /\ 2 ^ 52 <= Zpos m < 2 ^ 53
    /\ (b52 - 1) * (Zpos c * 2 ^ s) <= b52 * (Zpos m * 2 ^ (e + s)) * Zpos t
         <= (b52 + 1) * (Zpos c * 2 ^ s).
Proof.
  intros Hct Ht.
  unfold Float.truediv, Float.of_int, SFdiv, SFdiv_core_binary.
  cbn [Zdigits2 xorb].
  set (d1 := Zpos (digits2_pos c)). set (d2 := Zpos (digits2_pos t)).
  pose proof (digits_bounds c) as [C1 C2]. pose proof (digits_bounds t) as [T1 T2].
  fold d1 in C1, C2. fold d2 in T1, T2.
  assert (Hd1 : 1 <= d1) by (unfold d1; lia).
  assert (Hd12 : d1 <= d2).
  { destruct (Z.le_gt_cases d1 d2) as [|Hgt]; [assumption|].
    assert (2 ^ d2 <= 2 ^ (d1 - 1)) by (apply Z.pow_le_mono_r; lia). lia. }
  assert (Hd2 : d2 <= 1000).
  { destruct (Z.le_gt_cases d2 1000) as [|Hgt]; [assumption|].
    assert (2 ^ 1000 <= 2 ^ (d2 - 1)) by (apply Z.pow_le_mono_r; lia). lia. }
  rewrite !Z.add_0_r. change (0 - 0) with 0.
  rewrite fexp_normal by (unfold Float.prec, Float.emax; lia).
  unfold Float.prec, Float.emax.
  rewrite Z.min_l by lia.
  set (s := 53 + d2 - d1).
  replace (0 - (d1 - d2 - 53)) with s by (unfold s; lia).
  replace (d1 - d2 - 53) with (- s) by (unfold s; lia).
  assert (Hs : 53 <= s <= 1053) by (unfold s; lia).
  destruct s as [|ps|ps] eqn:Es; try lia. rewrite <- Es in *.
  rewrite Z.shiftl_mul_pow2 by lia.
  assert (P2s : 0 < 2 ^ s) by (apply Z.pow_pos_nonneg; lia).
  pose proof (Z.div_eucl_eq (Zpos c * 2 ^ s) (Zpos t)) as Hde.
  pose proof (Z.mod_pos_bound (Zpos c * 2 ^ s) (Zpos t)) as Hmb.
  unfold Z.modulo in Hmb.
  destruct (Z.div_eucl (Zpos c * 2 ^ s) (Zpos t)) as [q r].
  specialize (Hde ltac:(lia)). specialize (Hmb ltac:(lia)).
  (* size of the quotient *)
  assert (E1 : 2 ^ (d1 - 1) * 2 ^ s = 2 ^ 52 * 2 ^ d2)
    by (rewrite <- !Z.pow_add_r by lia; f_equal; unfold s; lia).
  assert (E2 : 2 ^ d1 * 2 ^ s = 2 ^ 53 * 2 ^ d2)
    by (rewrite <- !Z.pow_add_r by lia; f_equal; unfold s; lia).
  assert (P2d : 0 < 2 ^ d2) by (apply Z.pow_pos_nonneg; lia).
  assert (Hq1 : 2 ^ 52 <= q) by nia.
  assert (Hq2 : q < 2 ^ 54).
  { assert (2 ^ d2 = 2 * 2 ^ (d2 - 1))
      by (rewrite <- Z.pow_succ_r by lia; f_equal; lia).
    change (2 ^ 54) with (2 * 2 ^ 53). nia. }
  destruct q as [|pq|pq]; try lia.
  set (D := Zpos (digits2_pos pq)).
  assert (HD : D = 53 \/ D = 54).
  { destruct (Z.lt_ge_cases (Zpos pq) (2 ^ 53)).
    - left. apply digits_unique. simpl; lia.
    - right. apply digits_unique. simpl; lia. }
  destruct (bra_spec pq (- s) (new_location (Zpos t) r)) as (m & e & -> & Hm & He & Hr & Hlo);
    fold D; try lia.
  fold D in He, Hr, Hlo.
  exists m, e, s. split; [reflexivity|].
  split; [lia|]. split; [lia|]. split; [exact Hm|].
  replace (e - - s) with (e + s) in Hr by lia.
  set (Y := Zpos m * 2 ^ (e + s)) in *.
  assert (Pn : 0 < 2 ^ (D - 53)) by (apply Z.pow_pos_nonneg; lia).
  set (n2 := 2 ^ (D - 53)) in *.
  unfold b52. nia.
Qed.

(** *** The product and its truncation *)

(** [int] of a positive float, on a common scale [2 ^ s]. *)
Lemma to_int_scaled (m : positive) (e s : Z) :
  0 <= s -> 0 <= e + s ->
  Float.to_int (S754_finite false m e) = (Zpos m * 2 ^ (e + s)) / 2 ^ s.
Proof.
  intros Hs Hes. unfold Float.to_int.
  destruct (Z.leb_spec 0 e) as [He|He].
  - rewrite Z.shiftl_mul_pow2 by lia.
    rewrite Z.pow_add_r by lia. rewrite Z.mul_assoc.
    rewrite Z.div_mul; [reflexivity|]. apply Z.pow_nonzero; lia.
  - rewrite Z.shiftr_div_pow2 by lia.
    replace (2 ^ s) with (2 ^ (- e) * 2 ^ (e + s))
      by (rewrite <- Z.pow_add_r by lia; f_equal; lia).
    rewrite Z.div_mul_cancel_r; [reflexivity| |]; apply Z.pow_nonzero; lia.
Qed.

Lemma times_100_digits (m : positive) :
  2 ^ 52 <= Zpos m < 2 ^ 53 ->
  59 <= Zpos (digits2_pos (m * 100)) <= 60.
Proof.
  intros Hm. pose proof (digits_bounds (m * 100)) as [L H].
  set (D := Zpos (digits2_pos (m * 100))) in *.
  rewrite Pos2Z.inj_mul in L, H.
  split.
  - destruct (Z.le_gt_cases 59 D) as [|Hgt]; [assumption|].
    assert (2 ^ D <= 2 ^ 58) by (apply Z.pow_le_mono_r; lia).
    change (2 ^ 58) with (2 ^ 52 * 64) in *. lia.
  - destruct (Z.le_gt_cases D 60) as [|Hgt]; [assumption|].
    assert (2 ^ 60 <= 2 ^ (D - 1)) by (apply Z.pow_le_mono_r; lia).
    change (2 ^ 60) with (2 ^ 53 * 128) in *. lia.
Qed.

(** [int((c / t) * 100)] is [W / 2 ^ s] for an integer [W] within two parts
    in [b52] of [100 * c * 2 ^ s / t]. *)
Lemma progress_bounds (c t : positive) :
  (c <= t)%positive -> Zpos t < 2 ^ 1000 ->
  exists W s,
    Float.to_int (real_progress (Zpos c) (Zpos t)) = W / 2 ^ s
    /\ 0 <= s /\ 0 <= W
    /\ (b52 - 1) * (b52 - 1) * (100 * Zpos c * 2 ^ s) <= b52 * b52 * (W * Zpos t)
    /\ b52 * b52 * (W * Zpos t) <= (b52 + 1) * (b52 + 1) * (100 * Zpos c * 2 ^ s).
Proof.
  intros Hct Ht.
  destruct (truediv_spec c t Hct Ht) as (m & e & s & Hy & Hs & He & Hm & Hlo & Hhi).
  unfold real_progress. rewrite Hy.
  unfold Float.mul, Float.of_int, SFmul, Float.prec, Float.emax. cbn [xorb].
  pose proof (times_100_digits m Hm) as HD.
  destruct (bra_spec (m * 100) (e + 0) loc_Exact) as (mz & ez & -> & Hmz & Hez & Hr & Hn);
    try lia.
  set (D := Zpos (digits2_pos (m * 100))) in *.
  rewrite Pos2Z.inj_mul in Hr, Hn.
  change (Zpos 100) with 100 in *.
  assert (Pn : 0 < 2 ^ (D - 53)) by (apply Z.pow_pos_nonneg; lia).
  set (n2 := 2 ^ (D - 53)) in *.
  assert (PP : 0 < 2 ^ (e + s)) by (apply Z.pow_pos_nonneg; lia).
  set (P := 2 ^ (e + s)) in *.
  assert (PQ : 0 < 2 ^ (ez - (e + 0))) by (apply Z.pow_pos_nonneg; lia).
  set (Zr := Zpos mz * 2 ^ (ez - (e + 0))) in *.
  exists (Zr * P), s.
  split.
  { rewrite (to_int_scaled mz ez s) by lia. f_equal.
    unfold Zr, P. rewrite <- Z.mul_assoc. rewrite <- Z.pow_add_r by lia.
    do 2 f_equal. lia. }
  split; [lia|].
  assert (HZr : 0 < Zr) by (unfold Zr; lia).
  split; [nia|].
  set (Y := Zpos m * P) in *.
  set (C := Zpos c * 2 ^ s) in *.
  assert (PC : 0 < C) by (unfold C; apply Z.mul_pos_pos; [lia|apply Z.pow_pos_nonneg; lia]).
  fold b52 in Hn.
  assert (B : b52 = 2 ^ 52) by reflexivity.
  assert (Pb : 1 < b52) by (rewrite B; lia).
  (* one rounding on the product *)
  assert (Z1 : (b52 - 1) * (100 * Zpos m) <= b52 * Zr) by nia.
  assert (Z2 : b52 * Zr <= (b52 + 1) * (100 * Zpos m)) by nia.
  assert (W1 : (b52 - 1) * (100 * Y) <= b52 * (Zr * P)) by (unfold Y; nia).
  assert (W2 : b52 * (Zr * P) <= (b52 + 1) * (100 * Y)) by (unfold Y; nia).
  replace (100 * Zpos c * 2 ^ s) with (100 * C) by (unfold C; ring).
  clearbody Y C Zr P n2. clear - W1 W2 Hlo Hhi Pb PC.
  split.
  - apply Z.le_trans with ((b52 - 1) * 100 * (b52 * Y * Zpos t)).
    + replace ((b52 - 1) * (b52 - 1) * (100 * C))
        with ((b52 - 1) * 100 * ((b52 - 1) * C)) by ring.
      apply Z.mul_le_mono_nonneg_l; lia.
    + replace ((b52 - 1) * 100 * (b52 * Y * Zpos t))
        with (((b52 - 1) * (100 * Y)) * (b52 * Zpos t)) by ring.
      replace (b52 * b52 * (Zr * P * Zpos t))
        with ((b52 * (Zr * P)) * (b52 * Zpos t)) by ring.
      apply Z.mul_le_mono_nonneg_r; nia.
  - apply Z.le_trans with ((b52 + 1) * 100 * (b52 * Y * Zpos t)).
    + replace (b52 * b52 * (Zr * P * Zpos t))
        with ((b52 * (Zr * P)) * (b52 * Zpos t)) by ring.
      replace ((b52 + 1) * 100 * (b52 * Y * Zpos t))
        with (((b52 + 1) * (100 * Y)) * (b52 * Zpos t)) by ring.
      apply Z.mul_le_mono_nonneg_r; nia.
    + replace ((b52 + 1) * (b52 + 1) * (100 * C))
        with ((b52 + 1) * 100 * ((b52 + 1) * C)) by ring.
      apply Z.mul_le_mono_nonneg_l; lia.
Qed.

(** *** Bounds on the stored progress *)

Lemma reported_nonneg (c t : positive) :
  (c <= t)%positive -> Zpos t < 2 ^ 1000 -> 0 <= reported_progress (Zpos c) (Zpos t).
Proof.
  intros Hct Ht. unfold reported_progress.
  destruct (progress_bounds c t Hct Ht) as (W & s & -> & Hs & HW & _).
  apply Z.div_pos; [assumption|apply Z.pow_pos_nonneg; lia].
Qed.

(** Comparisons of [int((c / t) * 100)] with an integer [g], from the
    error bounds. *)
Lemma reported_le (c t : positive) (g : Z) :
  (c <= t)%positive -> Zpos t < 2 ^ 1000 ->
  (b52 + 1) * (b52 + 1) * (100 * Zpos c) < b52 * b52 * ((g + 1) * Zpos t) ->
  reported_progress (Zpos c) (Zpos t) <= g.
Proof.
  intros Hct Ht Hg. unfold reported_progress.
  destruct (progress_bounds c t Hct Ht) as (W & s & -> & Hs & HW & _ & Hhi).
  assert (P : 0 < 2 ^ s) by (apply Z.pow_pos_nonneg; lia).
  apply Z.lt_succ_r. apply Z.div_lt_upper_bound; [assumption|].
  set (Q := 2 ^ s) in *. clearbody Q.
  assert (H1 : (b52 + 1) * (b52 + 1) * (100 * Zpos c * Q)
               < b52 * b52 * ((g + 1) * Zpos t) * Q).
  { replace ((b52 + 1) * (b52 + 1) * (100 * Zpos c * Q))
      with ((b52 + 1) * (b52 + 1) * (100 * Zpos c) * Q) by ring.
    apply Z.mul_lt_mono_pos_r; assumption. }
  assert (H2 : (W) * (b52 * b52 * Zpos t) < (Q * Z.succ g) * (b52 * b52 * Zpos t)).
  { replace (W * (b52 * b52 * Zpos t)) with (b52 * b52 * (W * Zpos t)) by ring.
    replace (Q * Z.succ g * (b52 * b52 * Zpos t))
      with (b52 * b52 * ((g + 1) * Zpos t) * Q) by ring.
    lia. }
  apply Z.mul_lt_mono_pos_r in H2; [exact H2|].
  unfold b52. lia.
Qed.

Lemma reported_ge (c t : positive) (g : Z) :
  (c <= t)%positive -> Zpos t < 2 ^ 1000 ->
  b52 * b52 * (g * Zpos t) <= (b52 - 1) * (b52 - 1) * (100 * Zpos c) ->
  g <= reported_progress (Zpos c) (Zpos t).
Proof.
  intros Hct Ht Hg. unfold reported_progress.
  destruct (progress_bounds c t Hct Ht) as (W & s & -> & Hs & HW & Hlo & _).
  assert (P : 0 < 2 ^ s) by (apply Z.pow_pos_nonneg; lia).
  apply Z.div_le_lower_bound; [assumption|].
  set (Q := 2 ^ s) in *. clearbody Q.
  assert (H1 : b52 * b52 * (g * Zpos t) * Q
               <= (b52 - 1) * (b52 - 1) * (100 * Zpos c * Q)).
  { replace ((b52 - 1) * (b52 - 1) * (100 * Zpos c * Q))
      with ((b52 - 1) * (b52 - 1) * (100 * Zpos c) * Q) by ring.
    apply Z.mul_le_mono_nonneg_r; lia. }
  assert (H2 : (Q * g) * (b52 * b52 * Zpos t) <= W * (b52 * b52 * Zpos t)).
  { replace (W * (b52 * b52 * Zpos t)) with (b52 * b52 * (W * Zpos t)) by ring.
    replace (Q * g * (b52 * b52 * Zpos t))
      with (b52 * b52 * (g * Zpos t) * Q) by ring.
    lia. }
  apply Z.mul_le_mono_pos_r in H2; [exact H2|].
  unfold b52. lia.
Qed.

(** Below [2 ^ 44] steps the two roundings cannot carry the product over
    the next integer. *)
Lemma reported_le_floor (c t : positive) :
  (c <= t)%positive -> Zpos t < 2 ^ 44 ->
  reported_progress (Zpos c) (Zpos t) <= 100 * Zpos c / Zpos t.
Proof.
  intros Hct Ht. apply reported_le; [assumption|lia|].
  pose proof (Z.div_mod (100 * Zpos c) (Zpos t) ltac:(lia)) as Hdm.
  pose proof (Z.mod_pos_bound (100 * Zpos c) (Zpos t) ltac:(lia)) as Hmb.
  set (f := 100 * Zpos c / Zpos t) in *.
  replace ((f + 1) * Zpos t) with (Zpos t * f + Zpos t) by ring.
  set (u := Zpos t * f) in *. clearbody u.
  assert (Hc : Zpos c <= Zpos t) by lia.
  unfold b52. lia.
Qed.

(** ... and can fall below an integer only from that integer itself. *)
Lemma reported_ge_strict (c t : positive) (g : Z) :
  (c <= t)%positive -> Zpos t < 2 ^ 44 ->
  g * Zpos t + 1 <= 100 * Zpos c ->
  g <= reported_progress (Zpos c) (Zpos t).
Proof.
  intros Hct Ht Hg. apply reported_ge; [assumption|lia|].
  set (u := g * Zpos t) in *. clearbody u.
  assert (Hc : Zpos c <= Zpos t) by lia.
  unfold b52. lia.
Qed.

Lemma reported_ge_floor (c t : positive) :
  (c <= t)%positive -> Zpos t < 2 ^ 44 ->
  100 * Zpos c / Zpos t - 1 <= reported_progress (Zpos c) (Zpos t).
Proof.
  intros Hct Ht. apply reported_ge_strict; [assumption|assumption|].
  pose proof (Z.div_mod (100 * Zpos c) (Zpos t) ltac:(lia)) as Hdm.
  pose proof (Z.mod_pos_bound (100 * Zpos c) (Zpos t) ltac:(lia)) as Hmb.
  set (f := 100 * Zpos c / Zpos t) in *.
  replace ((f - 1) * Zpos t) with (Zpos t * f - Zpos t) by ring.
  lia.
Qed.

Lemma div_eucl_div_mod (a b : Z) : Z.div_eucl a b = (a / b, a mod b).
Proof. unfold Z.div, Z.modulo. destruct (Z.div_eucl a b); reflexivity. Qed.

Lemma new_location_exact (n : Z) : new_location n 0 = loc_Exact.
Proof. unfold new_location. destruct (Z.even n); reflexivity. Qed.

(** The last step: [t / t] is exactly [1.0]. *)
Lemma reported_final (t : positive) :
  Zpos t < 2 ^ 1000 -> reported_progress (Zpos t) (Zpos t) = 100.
Proof.
  intros Ht. unfold reported_progress, real_progress.
  assert (E : Float.truediv (Zpos t) (Zpos t) = S754_finite false (2 ^ 52) (-52)).
  { unfold Float.truediv, Float.of_int, SFdiv, SFdiv_core_binary.
    cbn [Zdigits2 xorb].
    set (d := Zpos (digits2_pos t)).
    pose proof (digits_bounds t) as [T1 T2]. fold d in T1, T2.
    assert (Hd1 : 1 <= d) by (unfold d; lia).
    assert (Hd2 : d <= 1000).
    { destruct (Z.le_gt_cases d 1000) as [|Hgt]; [assumption|].
      assert (2 ^ 1000 <= 2 ^ (d - 1)) by (apply Z.pow_le_mono_r; lia). lia. }
    rewrite !Z.add_0_r. change (0 - 0) with 0.
    rewrite fexp_normal by (unfold Float.prec, Float.emax; lia).
    unfold Float.prec, Float.emax.
    replace (d - d - 53) with (-53) by lia.
    change (Z.min (-53) 0) with (-53). change (0 - -53) with 53.
    cbv iota beta.
    rewrite Z.shiftl_mul_pow2 by lia.
    rewrite div_eucl_div_mod.
    rewrite (Z.mul_comm (Zpos t)), Z.div_mul, Z.mod_mul by lia.
    rewrite new_location_exact.
    vm_compute. reflexivity. }
  rewrite E. vm_compute. reflexivity.
Qed.

(** The stored progress, for fewer than [2 ^ 44] steps. *)
Lemma reported_progress_spec (c t c' : Z) :
  1 <= c <= t -> t < 2 ^ 44 ->
  let p := reported_progress c t in
  (100 * c / t - 1 <= p <= 100 * c / t)
  /\ (c < t -> 0 <= p <= 99)
  /\ (c = t -> p = 100)
  /\ (c <= c' <= t -> p <= reported_progress c' t).
Proof.
  intros Hc Ht p.
  destruct c as [|c|c]; try lia. destruct t as [|t|t]; try lia.
  assert (Hct : (c <= t)%positive) by lia.
  assert (Hhi := reported_le_floor c t Hct Ht).
  assert (Hlo := reported_ge_floor c t Hct Ht).
  fold p in Hhi, Hlo.
  split; [lia|]. split; [|split].
  - intros Hlt. split.
    + apply reported_nonneg; [assumption|lia].
    + assert (100 * Zpos c / Zpos t < 100)
        by (apply Z.div_lt_upper_bound; lia).
      lia.
  - intros E. inversion E; subst. apply reported_final. lia.
  - intros [Hcc Hc't].
    destruct c' as [|c'|c']; try lia.
    assert (Hc't' : (c' <= t)%positive) by lia.
    assert (Hlo' := reported_ge_floor c' t Hc't' Ht).
    set (f := 100 * Zpos c / Zpos t) in *.
    set (f' := 100 * Zpos c' / Zpos t) in *.
    assert (Hff : f <= f') by (apply Z.div_le_mono; lia).
    destruct (Z.eq_dec f f') as [Ef|Nf]; [|lia].
    pose proof (Z.div_mod (100 * Zpos c) (Zpos t) ltac:(lia)) as Hdm.
    pose proof (Z.mod_pos_bound (100 * Zpos c) (Zpos t) ltac:(lia)) as Hmb.
    pose proof (Z.div_mod (100 * Zpos c') (Zpos t) ltac:(lia)) as Hdm'.
    pose proof (Z.mod_pos_bound (100 * Zpos c') (Zpos t) ltac:(lia)) as Hmb'.
    fold f in Hdm. fold f' in Hdm'. rewrite <- Ef in Hdm'.
    destruct (Z.eq_dec (100 * Zpos c' mod Zpos t) 0) as [E0|N0].
    + assert (Zpos c = Zpos c') by lia.
      assert (Ec : c = c') by congruence. subst c'. unfold p. lia.
    + assert (f <= reported_progress (Zpos c') (Zpos t)).
      { apply reported_ge_strict; [assumption|assumption|].
        rewrite (Z.mul_comm f). lia. }
      lia.
Qed.

End FloatFacts.

(** ** The catalogs: writing and reading back *)

Lemma as_str_list_map (l : list string) : Json.as_str_list (map JStr l) = Some l.
Proof. induction l as [|x r IH]; simpl; [reflexivity | now rewrite IH]. Qed.

Lemma as_float_fields_metrics (m : Dict.t float) :
  Json.as_float_fields (map (fun kv => (fst kv, JFloat (snd kv))) m) = Some m.
Proof.
  induction m as [|[k x] r IH]; simpl; [reflexivity | now rewrite IH].
Qed.

Lemma as_opt_str_of_opt_str (o : option string) :
  Json.as_opt_str (Json.of_opt_str o) = Some o.
Proof. now destruct o. Qed.

Lemma job_of_json_asdict (j : TrainingJob) : job_of_json (job_asdict j) = Some j.
Proof.
  destruct j as [a1 a2 a3 a4 a5 a6 a7 a8 a9 a10 a11 a12 a13 a14 a15 a16].
  unfold job_of_json, job_asdict.
  cbn -[Json.as_str_list Json.as_float_fields Json.of_opt_str Json.as_opt_str].
  unfold Json.of_metrics.
  rewrite !as_opt_str_of_opt_str, as_str_list_map, as_float_fields_metrics.
  reflexivity.
Qed.

Lemma model_of_json_asdict (m : ModelInfo) : model_of_json (model_asdict m) = Some m.
Proof.
  destruct m as [b1 b2 b3 b4 b5 b6 b7 b8 b9].
  unfold model_of_json, model_asdict.
  cbn -[Json.as_float_fields Json.of_opt_str Json.as_opt_str].
  unfold Json.of_metrics.
  rewrite as_opt_str_of_opt_str, as_float_fields_metrics.
  reflexivity.
Qed.

Lemma load_jobs_asdict (d acc : Dict.t TrainingJob) :
  Forall (fun kv => id (snd kv) = fst kv) d ->
  NoDup (Dict.keys acc ++ Dict.keys d) ->
  load_jobs (map job_asdict (Dict.values d)) acc = ((acc ++ d)%list, true).
Proof.
  revert acc. induction d as [|[k j] r IH]; intros acc Hid Hnd;
    cbn [load_jobs map Dict.values snd].
  - now rewrite app_nil_r.
  - inversion Hid as [|? ? Hk Hr]; subst. simpl in Hk.
    rewrite job_of_json_asdict, Hk.
    assert (Hfresh : Dict.get k acc = None).
    { apply DictFacts.get_none_notin. intros Hin.
      apply NoDup_remove_2 in Hnd. apply Hnd. apply in_or_app. now left. }
    rewrite (DictFacts.set_fresh _ _ _ Hfresh).
    rewrite IH; [now rewrite <- app_assoc | assumption |].
    unfold Dict.keys in *. rewrite map_app. simpl. now rewrite <- app_assoc.
Qed.

Lemma load_models_asdict (d acc : Dict.t ModelInfo) :
  Forall (fun kv => name (snd kv) = fst kv) d ->
  NoDup (Dict.keys acc ++ Dict.keys d) ->
  load_models (map model_asdict (Dict.values d)) acc = ((acc ++ d)%list, true).
Proof.
  revert acc. induction d as [|[k m] r IH]; intros acc Hid Hnd;
    cbn [load_models map Dict.values snd].
  - now rewrite app_nil_r.
  - inversion Hid as [|? ? Hk Hr]; subst. simpl in Hk.
    rewrite model_of_json_asdict, Hk.
    assert (Hfresh : Dict.get k acc = None).
    { apply DictFacts.get_none_notin. intros Hin.
      apply NoDup_remove_2 in Hnd. apply Hnd. apply in_or_app. now left. }
    rewrite (DictFacts.set_fresh _ _ _ Hfresh).
    rewrite IH; [now rewrite <- app_assoc | assumption |].
    unfold Dict.keys in *. rewrite map_app. simpl. now rewrite <- app_assoc.
Qed.

(** C10.  Writing both catalogs with [_save_state] and starting a new
    process on the files ([__init__] runs [_load_state]) gives back the
    registry of jobs and the registry of models, record for record and field
    for field, whenever each record is registered under its own identifier. *)
Theorem catalogs_round_trip (s : State) :
  keyed_by id (training_jobs s) ->
  keyed_by name (trained_models s) ->
  let s' := init (config s) (disk (_save_state s)) in
  training_jobs s' = training_jobs s /\ trained_models s' = trained_models s.
Proof.
  intros [Hnd Hid] [Hnd' Hid']. unfold init, _load_state, _save_state. simpl.
  rewrite (load_jobs_asdict (training_jobs s) []) by assumption.
  rewrite (load_models_asdict (trained_models s) []) by assumption.
  simpl. split; reflexivity.
Qed.

(** ** More on dictionaries *)

Lemma get_del_same {V} (k : string) (d : Dict.t V) :
  NoDup (Dict.keys d) -> Dict.get k (Dict.del k d) = None.
Proof.
  induction d as [|[k' v] r IH]; intros Hnd; [reflexivity|].
  simpl in *. inversion Hnd as [|? ? Hnot Hnd']; subst.
  destruct (String.eqb_spec k' k) as [->|Hne].
  - now apply DictFacts.get_none_notin.
  - simpl. destruct (String.eqb_spec k' k); [contradiction|]. now apply IH.
Qed.

Lemma get_in_nodup {V} (k : string) (v : V) (d : Dict.t V) :
  NoDup (Dict.keys d) -> In (k, v) d -> Dict.get k d = Some v.
Proof.
  induction d as [|[k' v'] r IH]; intros Hnd Hin; [destruct Hin|].
  simpl in *. inversion Hnd as [|? ? Hnot Hnd']; subst.
  destruct Hin as [E|Hin].
  - injection E as -> ->. now rewrite String.eqb_refl.
  - destruct (String.eqb_spec k' k) as [->|Hne]; [|now apply IH].
    exfalso. apply Hnot. unfold Dict.keys. change k with (fst (k, v)).
    now apply in_map.
Qed.

Lemma forall_del {V} (P : string * V -> Prop) (k : string) (d : Dict.t V) :
  Forall P d -> Forall P (Dict.del k d).
Proof.
  induction 1 as [|[k' v] r Hx Hr IH]; [constructor|].
  simpl. destruct (String.eqb k' k); [assumption|constructor; assumption].
Qed.

Lemma forall_set {V} (P : string * V -> Prop) (k : string) (v : V) (d : Dict.t V) :
  P (k, v) -> Forall P d -> Forall P (Dict.set k v d).
Proof.
  intros Hv. induction 1 as [|[k' v'] r Hx Hr IH]; [repeat constructor; assumption|].
  simpl. destruct (String.eqb k' k); constructor; assumption.
Qed.

Lemma forall_get {V} (P : string * V -> Prop) (k : string) (v : V) (d : Dict.t V) :
  Forall P d -> Dict.get k d = Some v -> P (k, v).
Proof.
  induction 1 as [|[k' v'] r Hx Hr IH]; [discriminate|].
  simpl. destruct (String.eqb_spec k' k) as [->|Hne]; [|exact IH].
  intros E. injection E as <-. exact Hx.
Qed.

Lemma required_mem {A} (conv : json -> option A) (k : string)
    (kw : list (string * json)) (a : A) :
  required conv k kw = Some a -> Dict.mem k kw = true.
Proof.
  unfold required, Dict.mem. destruct (Dict.get k kw); [reflexivity|discriminate].
Qed.

(** The typed constructor has no job for a record that the code refuses. *)
Lemma constructor_refuses_spec (d : json) :
  constructor_refuses d = true -> job_of_json d = None.
Proof.
  destruct d as [ | | | | |kw]; try reflexivity.
  unfold constructor_refuses, job_of_json.
  destruct (forallb (fun k => Str.mem k job_fields) (Dict.keys kw)); [|reflexivity].
  cbn [negb orb]. intros H. apply negb_true_iff in H.
  destruct (required Json.as_str "id" kw) eqn:E1; [|reflexivity].
  destruct (required Json.as_str "model_name" kw) eqn:E2; [|reflexivity].
  destruct (required Json.as_str "base_model" kw) eqn:E3; [|reflexivity].
  destruct (required Json.as_str "dataset_path" kw) eqn:E4; [|reflexivity].
  destruct (required Json.as_str "status" kw) eqn:E5; [|reflexivity].
  destruct (required Json.as_int "progress" kw) eqn:E6; [|reflexivity].
  destruct (required Json.as_float "learning_rate" kw) eqn:E7; [|reflexivity].
  destruct (required Json.as_int "batch_size" kw) eqn:E8; [|reflexivity].
  destruct (required Json.as_int "epochs" kw) eqn:E9; [|reflexivity].
  destruct (required Json.as_int "max_length" kw) eqn:E10; [|reflexivity].
  destruct (required Json.as_str "start_time" kw) eqn:E11; [|reflexivity].
  exfalso. cbn [forallb job_required] in H.
  rewrite (required_mem _ _ _ _ E1), (required_mem _ _ _ _ E2),
    (required_mem _ _ _ _ E3), (required_mem _ _ _ _ E4), (required_mem _ _ _ _ E5),
    (required_mem _ _ _ _ E6), (required_mem _ _ _ _ E7), (required_mem _ _ _ _ E8),
    (required_mem _ _ _ _ E9), (required_mem _ _ _ _ E10), (required_mem _ _ _ _ E11)
    in H.
  discriminate H.
Qed.

(** [_load_state] stops at the first record that the constructor refuses. *)
Lemma load_jobs_stops (good : list TrainingJob) (bad : json) (rest : list json) :
  job_of_json bad = None ->
  forall acc,
    load_jobs (map job_asdict good ++ bad :: rest) acc
    = (fold_left (fun d j => Dict.set (id j) j d) good acc, false).
Proof.
  intros Hbad. induction good as [|j r IH]; intros acc;
    cbn [map app load_jobs fold_left].
  - now rewrite Hbad.
  - rewrite job_of_json_asdict. apply IH.
Qed.

(** ** Cancellation *)

(** The three answers of [cancel_training] (lines 407-421), by the job found
    under the identifier. *)
Lemma cancel_training_cases (clk : Clock) (job_id : string) (s : State) :
  match Dict.get job_id (training_jobs s) with
  | None =>
      cancel_training clk job_id s = ((false, "Job " ++ job_id ++ " not found"), s)
  | Some job =>
      if String.eqb (status job) status_pending
         || String.eqb (status job) status_training
      then
        exists s',
          cancel_training clk job_id s
          = ((true, "Training job " ++ job_id ++ " cancelled successfully"), s')
          /\ Dict.get job_id (training_jobs s')
             = Some (append_log ("Training cancelled at " ++ strftime clk)
                       (set_status status_cancelled job))
          /\ (forall k, k <> job_id ->
                Dict.get k (training_jobs s') = Dict.get k (training_jobs s))
          /\ threads s' = threads s
          /\ active_jobs s' = active_jobs s
          /\ trained_models s' = trained_models s
      else
        cancel_training clk job_id s
        = ((false, "Cannot cancel job with status: " ++ status job), s)
  end.
Proof.
  unfold cancel_training.
  destruct (Dict.get job_id (training_jobs s)) as [job|] eqn:Hget; [|reflexivity].
  simpl Str.mem. rewrite orb_false_r.
  destruct (String.eqb (status job) status_pending
            || String.eqb (status job) status_training) eqn:E; simpl; [|reflexivity].
  eexists. split; [reflexivity|]. simpl.
  repeat split.
  - now rewrite DictFacts.get_modify_same, Hget.
  - intros k Hk. now apply DictFacts.get_modify_other.
Qed.

(** C3 (as the code has it).  [cancel_training] answers "not found" for an
    unknown identifier; it refuses, and changes nothing, for a job whose
    status is terminal and also for an [initializing] job; for a [pending]
    or [training] job it succeeds at once: the status becomes [cancelled]
    and exactly one line is appended to the log, while no thread, counter
    or other job is touched, and a second call is refused. *)
Theorem cancel_training_outcomes (clk : Clock) (job_id : string) (s : State) :
  (Dict.get job_id (training_jobs s) = None ->
   cancel_training clk job_id s = ((false, "Job " ++ job_id ++ " not found"), s))
  /\ (forall job,
        Dict.get job_id (training_jobs s) = Some job ->
        is_terminal (status job) = true \/ status job = status_initializing ->
        cancel_training clk job_id s
        = ((false, "Cannot cancel job with status: " ++ status job), s))
  /\ (forall job,
        Dict.get job_id (training_jobs s) = Some job ->
        status job = status_pending \/ status job = status_training ->
        exists s',
          cancel_training clk job_id s
          = ((true, "Training job " ++ job_id ++ " cancelled successfully"), s')
          /\ Dict.get job_id (training_jobs s')
             = Some (append_log ("Training cancelled at " ++ strftime clk)
                       (set_status status_cancelled job))
          /\ (forall k, k <> job_id ->
                Dict.get k (training_jobs s') = Dict.get k (training_jobs s))
          /\ threads s' = threads s
          /\ active_jobs s' = active_jobs s
          /\ trained_models s' = trained_models s
          /\ forall clk',
               cancel_training clk' job_id s'
               = ((false, "Cannot cancel job with status: cancelled"), s')).
Proof.
  pose proof (cancel_training_cases clk job_id s) as H.
  split; [intros E; rewrite E in H; exact H|]. split.
  - intros job E Hst. rewrite E in H.
    assert (Hno : String.eqb (status job) status_pending
                  || String.eqb (status job) status_training = false).
    { destruct Hst as [Ht| ->]; [|reflexivity].
      unfold is_terminal in Ht. rewrite !orb_true_iff, !String.eqb_eq in Ht.
      destruct Ht as [[-> | ->] | ->]; reflexivity. }
    rewrite Hno in H. exact H.
  - intros job E Hst. rewrite E in H.
    assert (Hyes : String.eqb (status job) status_pending
                   || String.eqb (status job) status_training = true)
      by (destruct Hst as [-> | ->]; reflexivity).
    rewrite Hyes in H. destruct H as (s' & H1 & H2 & H3 & H4 & H5 & H6).
    exists s'. do 6 (split; [assumption|]).
    intros clk'. pose proof (cancel_training_cases clk' job_id s') as H'.
    rewrite H2 in H'. exact H'.
Qed.

Section Properties.

Variable fmt : Formatting.

(** ** Admission *)

Lemma admission_rejected k clk rq s r s' :
  admission fmt k clk rq s = (r, s') -> fst r = false -> s' = s.
Proof.
  unfold admission.
  destruct (negb (Str.truthy (Str.strip (rq_model_name rq)))); [intros [= <- <-]; reflexivity|].
  destruct (Dict.mem (rq_model_name rq) (trained_models s)); [intros [= <- <-]; reflexivity|].
  destruct (max_concurrent_jobs (config s) <=? active_jobs s); [intros [= <- <-]; reflexivity|].
  destruct (validate_dataset fmt s (rq_dataset_path rq)) as [[v m] md].
  destruct (negb v); [intros [= <- <-]; reflexivity|].
  intros [= <- <-]. discriminate.
Qed.

Lemma start_training_with_rejected k clk rq s r s' :
  start_training_with fmt k clk rq s = (r, s') -> fst r = false -> s' = s.
Proof.
  unfold start_training_with.
  destruct (admission fmt k clk rq s) as [r0 s0] eqn:E.
  destruct (fst r0) eqn:F; intros [= <- <-] Hr; [congruence|].
  eapply admission_rejected; eauto.
Qed.

Lemma admission_rejection k clk rq s e :
  rejection fmt rq s = Some e ->
  admission fmt k clk rq s = ((false, rejection_message fmt rq s e), s).
Proof.
  unfold rejection, admission.
  destruct (negb (Str.truthy (Str.strip (rq_model_name rq)))); [intros [= <-]; reflexivity|].
  destruct (Dict.mem (rq_model_name rq) (trained_models s)); [intros [= <-]; reflexivity|].
  destruct (max_concurrent_jobs (config s) <=? active_jobs s); [intros [= <-]; reflexivity|].
  unfold rejection_message.
  destruct (validate_dataset fmt s (rq_dataset_path rq)) as [[v m] md]. simpl.
  destruct (negb v); [intros [= <-]; reflexivity|discriminate].
Qed.

Lemma admission_accepted k clk rq s :
  rejection fmt rq s = None ->
  exists s', admission fmt k clk rq s
             = ((true, "Training started successfully! Job ID: " ++ new_job_id clk s), s')
    /\ Dict.get (new_job_id clk s) (training_jobs s') <> None
    /\ active_jobs s' = active_jobs s + 1
    /\ trained_models s' = trained_models s
    /\ disk s' = disk s.
Proof.
  unfold rejection, admission.
  destruct (negb (Str.truthy (Str.strip (rq_model_name rq)))); [discriminate|].
  destruct (Dict.mem (rq_model_name rq) (trained_models s)); [discriminate|].
  destruct (max_concurrent_jobs (config s) <=? active_jobs s); [discriminate|].
  destruct (validate_dataset fmt s (rq_dataset_path rq)) as [[v m] md]. simpl.
  destruct (negb v); [discriminate|]. intros _.
  eexists. split; [reflexivity|]. simpl.
  rewrite DictFacts.get_set_same. repeat split. discriminate.
Qed.

(** [os.path.exists] holds exactly for the paths under which [file_view]
    finds a file. *)
Lemma file_view_exists s p :
  path_exists s p
  = match file_view fmt s p with Some _ => true | None => false end.
Proof.
  unfold path_exists, file_view, Dict.mem.
  destruct (String.eqb p (Path.join (logs_directory (config s)) "training_jobs.json"));
    destruct (String.eqb p (Path.join (models_directory (config s)) "trained_models.json"));
    destruct (jobs_file (disk s)); destruct (models_file (disk s));
    destruct (Dict.get p (model_files (disk s)));
    destruct (Dict.get p (datasets (disk s))); reflexivity.
Qed.

Lemma file_view_missing s p : path_exists s p = false -> file_view fmt s p = None.
Proof.
  rewrite file_view_exists. now destruct (file_view fmt s p).
Qed.

Lemma validate_missing_file s path :
  path_exists s path = false ->
  validate_dataset fmt s path = (false, "File does not exist", None).
Proof.
  intros H. unfold validate_dataset. rewrite (file_view_missing s path H).
  now destruct (Str.truthy path).
Qed.

(** C9.  Every rejected submission leaves the whole state as it was: the
    registries, the live-job counter, the threads and the files.  Each of
    the four grounds (blank name, name of a registered model, ceiling
    reached, dataset refused, as for a path with no file) is such a
    rejection, answered by the call itself. *)
Theorem rejected_submission_changes_nothing
    (k : WorkerKind) (clk : Clock) (rq : Request) (s : State) :
  (forall r s', start_training_with fmt k clk rq s = (r, s') ->
                fst r = false -> s' = s)
  /\ (forall e, rejection fmt rq s = Some e ->
        start_training_with fmt k clk rq s = ((false, rejection_message fmt rq s e), s))
  /\ (rejection fmt rq s = None ->
        fst (fst (start_training_with fmt k clk rq s)) = true)
  /\ (Str.truthy (Str.strip (rq_model_name rq)) = true ->
      Dict.mem (rq_model_name rq) (trained_models s) = false ->
      active_jobs s < max_concurrent_jobs (config s) ->
      path_exists s (rq_dataset_path rq) = false ->
      start_training_with fmt k clk rq s
      = ((false, "Dataset validation failed: File does not exist"), s)).
Proof.
  split; [|split; [|split]].
  - intros r s'. apply start_training_with_rejected.
  - intros e He. unfold start_training_with.
    now rewrite (admission_rejection k clk rq s e He).
  - intros Hn. unfold start_training_with.
    destruct (admission_accepted k clk rq s Hn) as (s' & -> & _). reflexivity.
  - intros Hname Hdup Hcap Hfile. unfold start_training_with, admission.
    rewrite Hname, Hdup. simpl.
    destruct (Z.leb_spec (max_concurrent_jobs (config s)) (active_jobs s)); [lia|].
    now rewrite (validate_missing_file s _ Hfile).
Qed.

(** ** Job identifiers *)

Lemma string_of_uint_digits (d : Decimal.uint) :
  Str.all_chars is_digit (NilEmpty.string_of_uint d) = true.
Proof. induction d; simpl; auto. Qed.

Lemma of_Z_digits (z : Z) : 0 <= z -> Str.all_chars is_digit (Str.of_Z z) = true.
Proof.
  intros Hz. unfold Str.of_Z. destruct z as [|p|p]; try lia.
  - reflexivity.
  - simpl. unfold NilZero.string_of_uint.
    destruct (Pos.to_uint p); try reflexivity; apply string_of_uint_digits.
Qed.

Lemma of_Z_inj (a b : Z) : Str.of_Z a = Str.of_Z b -> a = b.
Proof.
  unfold Str.of_Z. intros H.
  assert (Hn : forall z, Z.to_int z <> Decimal.Pos Decimal.Nil
                         /\ Z.to_int z <> Decimal.Neg Decimal.Nil).
  { intros z. destruct z as [|p|p]; simpl; split; try discriminate;
      intros [= E]; exact (DecimalPos.Unsigned.to_uint_nonnil p E). }
  apply (f_equal NilZero.int_of_string) in H.
  rewrite !NilZero.isi in H by apply Hn.
  injection H as H. apply (f_equal Z.of_int) in H.
  now rewrite !DecimalZ.of_to in H.
Qed.

Lemma after_last_none (sep : ascii) (s : string) :
  Str.all_chars (fun c => negb (Ascii.eqb c sep)) s = true ->
  Str.after_last sep s = None.
Proof.
  induction s as [|c r IH]; simpl; [reflexivity|].
  intros H. apply andb_prop in H as [Hc Hr]. rewrite (IH Hr).
  now destruct (Ascii.eqb c sep).
Qed.

Lemma after_last_app (sep : ascii) (a b : string) :
  Str.all_chars (fun c => negb (Ascii.eqb c sep)) b = true ->
  Str.after_last sep (a ++ String sep b) = Some b.
Proof.
  intros Hb. induction a as [|c r IH]; simpl.
  - now rewrite (after_last_none _ _ Hb), Ascii.eqb_refl.
  - now rewrite IH.
Qed.

Lemma all_chars_weaken (p q : ascii -> bool) (s : string) :
  (forall c, p c = true -> q c = true) ->
  Str.all_chars p s = true -> Str.all_chars q s = true.
Proof.
  intros Hpq. induction s as [|c r IH]; simpl; [reflexivity|].
  intros H. apply andb_prop in H as [Hc Hr]. now rewrite (Hpq _ Hc), IH.
Qed.

Lemma digit_not_underscore (c : ascii) : is_digit c = true -> negb (Ascii.eqb c "_") = true.
Proof.
  destruct (Ascii.eqb_spec c "_") as [->|]; [discriminate|reflexivity].
Qed.

Lemma job_key_suffix (t : Z) (i : nat) :
  Str.after_last "_" (job_key t i) = Some (Str.of_Z (Z.of_nat i)).
Proof.
  unfold job_key.
  change ("job_" ++ Str.of_Z t ++ "_" ++ Str.of_Z (Z.of_nat i))
    with (("job_" ++ Str.of_Z t) ++ String "_" (Str.of_Z (Z.of_nat i))) .
  - apply after_last_app. eapply all_chars_weaken; [apply digit_not_underscore|].
    apply of_Z_digits. lia.
Qed.

Lemma job_key_index_inj (t t' : Z) (i i' : nat) :
  job_key t i = job_key t' i' -> i = i'.
Proof.
  intros H. apply (f_equal (Str.after_last "_")) in H.
  rewrite !job_key_suffix in H. injection H as H.
  apply of_Z_inj in H. lia.
Qed.

(** ** Field lemmas *)

Lemma append_logs_fields (l : list string) (j : TrainingJob) :
  id (append_logs l j) = id j
  /\ model_name (append_logs l j) = model_name j
  /\ status (append_logs l j) = status j
  /\ progress (append_logs l j) = progress j
  /\ end_time (append_logs l j) = end_time j
  /\ error_message (append_logs l j) = error_message j
  /\ epochs (append_logs l j) = epochs j.
Proof.
  unfold append_logs. revert j.
  induction l as [|x r IH]; intros j; simpl; [repeat split|].
  destruct (IH (append_log x j)) as (H1 & H2 & H3 & H4 & H5 & H6 & H7).
  repeat split; assumption.
Qed.

Lemma set_nth_pc_ids (tid : nat) (pc : PC) (l : list Thread) :
  map th_job_id (set_nth_pc tid pc l) = map th_job_id l.
Proof.
  revert tid. induction l as [|t r IH]; intros [|n]; simpl; try reflexivity.
  now rewrite IH.
Qed.

Lemma set_nth_pc_same (tid : nat) (pc : PC) (l : list Thread) (t : Thread) :
  nth_error l tid = Some t ->
  nth_error (set_nth_pc tid pc l) tid
  = Some {| th_job_id := th_job_id t; th_pc := pc |}.
Proof.
  revert tid. induction l as [|t0 r IH]; intros [|n]; simpl; try discriminate.
  - now intros [= ->].
  - apply IH.
Qed.

Lemma set_nth_pc_other (tid i : nat) (pc : PC) (l : list Thread) :
  i <> tid -> nth_error (set_nth_pc tid pc l) i = nth_error l i.
Proof.
  revert tid i. induction l as [|t0 r IH]; intros [|n] [|m] H; simpl;
    try reflexivity; try congruence.
  apply IH. congruence.
Qed.

Lemma set_nth_pc_id (tid : nat) (l : list Thread) (t : Thread) :
  nth_error l tid = Some t -> set_nth_pc tid (th_pc t) l = l.
Proof.
  revert tid. induction l as [|t0 r IH]; intros [|n]; simpl; try discriminate.
  - intros [= ->]. now destruct t.
  - intros H. now rewrite IH.
Qed.

Lemma live_count_set (tid : nat) (pc : PC) (l : list Thread) (t : Thread) :
  nth_error l tid = Some t ->
  live_count (set_nth_pc tid pc l)
  = live_count l - (if live (th_pc t) then 1 else 0) + (if live pc then 1 else 0).
Proof.
  unfold live_count. revert tid.
  induction l as [|t0 r IH]; intros [|n]; cbn [nth_error set_nth_pc filter th_pc];
    try discriminate.
  - intros [= ->]. destruct (live (th_pc t)), (live pc); cbn [List.length]; lia.
  - intros H. specialize (IH n H).
    destruct (live (th_pc t0)); cbn [List.length]; lia.
Qed.

Lemma live_count_app (l r : list Thread) :
  live_count (l ++ r) = live_count l + live_count r.
Proof.
  unfold live_count. rewrite filter_app, length_app. lia.
Qed.

Lemma keyed_by_set_model (d : Dict.t ModelInfo) (m : ModelInfo) :
  keyed_by name d -> keyed_by name (Dict.set (name m) m d).
Proof.
  intros [Hnd Hid]. split; [now apply DictFacts.nodup_set|].
  clear Hnd. induction d as [|[k0 v0] r IH]; simpl.
  - constructor; [reflexivity|constructor].
  - inversion Hid as [|? ? Hk Hr]; subst.
    destruct (String.eqb k0 (name m)); constructor; auto.
Qed.

Lemma mem_set_mono {V} (d : Dict.t V) k k' (v : V) :
  Dict.mem k d = true -> Dict.mem k (Dict.set k' v d) = true.
Proof.
  unfold Dict.mem. destruct (String.eqb_spec k' k) as [->|Hne].
  - now rewrite DictFacts.get_set_same.
  - now rewrite DictFacts.get_set_other.
Qed.

Ltac state_simpl :=
  cbn [training_jobs trained_models active_jobs threads config callers disk
       with_training_jobs with_trained_models with_active_jobs with_threads
       with_callers with_disk goto update_job sim_finally real_finally
       _save_state sim_complete sim_except real_except TrainingManager_save_state
       sim_next th_pc th_job_id] in *.

Ltac job_simpl :=
  cbn [local_ok th_pc th_job_id] in *;
  unfold not_started, setting_up, running, finishing, finished in *;
  cbn [status end_time error_message progress id model_name epochs
       set_status set_progress set_end_time set_error_message append_log
       local_ok live pc_kind is_sim_pc andb negb name sim_model_info
       th_pc th_job_id] in *.

Lemma status_neq :
  status_pending <> status_initializing /\ status_pending <> status_training
  /\ status_pending <> status_completed /\ status_pending <> status_failed
  /\ status_pending <> status_cancelled /\ status_initializing <> status_training
  /\ status_initializing <> status_completed /\ status_initializing <> status_failed
  /\ status_initializing <> status_cancelled /\ status_training <> status_completed
  /\ status_training <> status_failed /\ status_training <> status_cancelled
  /\ status_completed <> status_failed /\ status_completed <> status_cancelled
  /\ status_failed <> status_cancelled.
Proof. repeat split; discriminate. Qed.

Ltac status_facts :=
  pose proof status_neq as
    (? & ? & ? & ? & ? & ? & ? & ? & ? & ? & ? & ? & ? & ? & ?).

Ltac split_hyps :=
  repeat match goal with
         | H : _ /\ _ |- _ => destruct H
         | H : _ \/ _ |- _ => destruct H
         end.

Ltac status_step :=
  unfold step_status;
  repeat match goal with H : status _ = _ |- _ => rewrite H in * end;
  first [ left; reflexivity
        | right; left; constructor
        | right; right; constructor ].

Lemma truthy_opt_some (e : option string) : truthy_opt e = true -> e <> None.
Proof. now destruct e. Qed.

Ltac finish_job :=
  split_hyps; status_facts;
  try match goal with
      | H : end_time ?j = None, H' : truthy_opt (end_time ?j) = true |- _ =>
          rewrite H in H'; discriminate H'
      end;
  repeat match goal with
         | |- _ /\ _ => split
         | |- _ <-> _ => split; intros
         | |- _ -> _ => intros
         end;
  try solve [ reflexivity | assumption | congruence | discriminate | lia
            | status_step | (left; congruence) | (right; congruence)
            | (right; left; congruence) | (right; right; congruence)
            | (exfalso; congruence)
            | (apply truthy_opt_some; assumption) ].

Ltac effect_frame Hget :=
  split;
  [ | intros k' Hk'; cbn [th_job_id] in Hk'; state_simpl;
       rewrite ?DictFacts.get_modify_other by congruence; reflexivity
     | state_simpl; rewrite ?DictFacts.keys_modify; reflexivity
     | reflexivity
     | reflexivity
     | state_simpl; try (intros Hm; exact Hm)
     | state_simpl; try (intros n Hn; exact Hn) ].

Ltac effect_job Hget pc' :=
  eexists; exists pc'; state_simpl;
  rewrite ?DictFacts.get_modify_same, ?Hget;
  split; [cbn [option_map]; reflexivity|];
  split; [reflexivity|];
  split; [reflexivity|];
  split; [cbn [live]; try discriminate|];
  job_simpl; finish_job.

Lemma work_effect_refl s tid t job :
  nth_error (threads s) tid = Some t ->
  Dict.get (th_job_id t) (training_jobs s) = Some job ->
  local_ok (th_pc t) job ->
  WorkEffect s s tid t job.
Proof.
  intros Hth Hget Hloc. split; auto.
  exists job, (th_pc t). rewrite (set_nth_pc_id _ _ _ Hth).
  repeat split; auto.
  - now left.
  - destruct (live (th_pc t)); simpl; lia.
Qed.

Lemma work_effect_sim clk ev tid t job s :
  nth_error (threads s) tid = Some t ->
  Dict.get (th_job_id t) (training_jobs s) = Some job ->
  is_sim_pc (th_pc t) = true ->
  local_ok (th_pc t) job ->
  WorkEffect s (sim_worker fmt clk ev tid (th_job_id t) (th_pc t) s) tid t job.
Proof.
  intros Hth Hget Hsim Hloc.
  pose proof (work_effect_refl s tid t job Hth Hget Hloc) as Hrefl.
  destruct t as [k pc]. cbn [th_job_id th_pc] in *.
  destruct pc; try discriminate; destruct ev; unfold sim_worker; rewrite ?Hget;
    try exact Hrefl; clear Hrefl.
  - effect_frame Hget. effect_job Hget (SimLoop 0 0).
  - destruct (epochs job <=? epoch).
    + effect_frame Hget.
      * effect_job Hget SimWrite.
      * intros Hm. apply (keyed_by_set_model _ (sim_model_info (config s) k job (isoformat clk)) Hm).
      * intros n Hn. now apply mem_set_mono.
    + destruct (String.eqb_spec (status job) status_cancelled) as [Hc|Hc].
      * effect_frame Hget. effect_job Hget SimDone.
      * effect_frame Hget. effect_job Hget (SimSleep epoch step0).
  - unfold sim_next.
    destruct (step0 mod 3 =? 0), (step0 <? 9); effect_frame Hget.
    + effect_job Hget (SimLoop epoch (step0 + 1)).
    + effect_job Hget (SimLoop (epoch + 1) 0).
    + effect_job Hget (SimLoop epoch (step0 + 1)).
    + effect_job Hget (SimLoop (epoch + 1) 0).
  - effect_frame Hget. effect_job Hget SimDone.
  - effect_frame Hget. effect_job Hget SimDone.
Qed.

Lemma status_append_logs l j : status (append_logs l j) = status j.
Proof. apply (append_logs_fields l j). Qed.
Lemma id_append_logs l j : id (append_logs l j) = id j.
Proof. apply (append_logs_fields l j). Qed.
Lemma model_name_append_logs l j : model_name (append_logs l j) = model_name j.
Proof. apply (append_logs_fields l j). Qed.
Lemma end_time_append_logs l j : end_time (append_logs l j) = end_time j.
Proof. apply (append_logs_fields l j). Qed.
Lemma error_message_append_logs l j : error_message (append_logs l j) = error_message j.
Proof. apply (append_logs_fields l j). Qed.
Lemma progress_append_logs l j : progress (append_logs l j) = progress j.
Proof. apply (append_logs_fields l j). Qed.

Ltac logs_simpl :=
  rewrite ?status_append_logs, ?id_append_logs, ?model_name_append_logs,
    ?end_time_append_logs, ?error_message_append_logs, ?progress_append_logs in *.

Ltac effect_job_with Hget pc' tac :=
  eexists; exists pc'; state_simpl;
  rewrite ?DictFacts.get_modify_same, ?Hget;
  split; [cbn [option_map]; reflexivity|];
  split; [first [reflexivity
                | match goal with
                  | H : nth_error _ _ = Some _ |- _ =>
                      exact (eq_sym (set_nth_pc_id _ _ _ H))
                  end]|];
  split; [reflexivity|];
  split; [cbn [live]; try discriminate|];
  cbv beta; tac; job_simpl; logs_simpl; job_simpl; finish_job.

Ltac fail_cases :=
  logs_simpl;
  match goal with
  | |- context [String.eqb (status ?j) status_cancelled] =>
      destruct (String.eqb_spec (status j) status_cancelled)
  end;
  job_simpl; logs_simpl;
  match goal with
  | |- context [truthy_opt ?e] => destruct (truthy_opt e) eqn:?
  end.

Ltac finally_cases :=
  job_simpl; logs_simpl;
  match goal with
  | |- context [truthy_opt ?e] => destruct (truthy_opt e) eqn:?
  end.

Lemma work_effect_real clk ev tid t job s :
  nth_error (threads s) tid = Some t ->
  Dict.get (th_job_id t) (training_jobs s) = Some job ->
  is_sim_pc (th_pc t) = false ->
  local_ok (th_pc t) job ->
  WorkEffect s (real_worker fmt clk ev tid (th_job_id t) (th_pc t) s) tid t job.
Proof.
  intros Hth Hget Hsim Hloc.
  pose proof (work_effect_refl s tid t job Hth Hget Hloc) as Hrefl.
  destruct t as [k pc]. cbn [th_job_id th_pc] in *.
  destruct pc; try discriminate; destruct ev; unfold real_worker; cbv zeta;
    rewrite ?Hget; try exact Hrefl; clear Hrefl.
  - effect_frame Hget. effect_job_with Hget RealSetup idtac.
  - effect_frame Hget. effect_job_with Hget RealTrainBegin idtac.
  - effect_frame Hget. effect_job_with Hget RealDone fail_cases.
  - effect_frame Hget. effect_job_with Hget RealDone fail_cases.
  - effect_frame Hget. effect_job_with Hget RealTraining idtac.
  - effect_frame Hget. effect_job_with Hget RealEvaluate idtac.
  - effect_frame Hget. effect_job_with Hget RealDone fail_cases.
  - destruct (String.eqb_spec (status job) status_cancelled).
    + effect_frame Hget. effect_job_with Hget RealTraining idtac.
    + exact (work_effect_refl s tid _ job Hth Hget Hloc).
  - destruct is_local_process_zero; [|exact (work_effect_refl s tid _ job Hth Hget Hloc)].
    destruct (max_steps =? 0).
    + effect_frame Hget. effect_job_with Hget RealDone fail_cases.
    + effect_frame Hget. effect_job_with Hget RealTraining idtac.
  - effect_frame Hget. effect_job_with Hget RealDone fail_cases.
  - effect_frame Hget. effect_job_with Hget RealSave idtac.
  - effect_frame Hget. effect_job_with Hget RealDone finally_cases.
  - effect_frame Hget. effect_job_with Hget RealDone fail_cases.
Qed.

(** ** The invariant holds in every reachable state *)

Lemma inv_nodup s : Inv s -> NoDup (Dict.keys (training_jobs s)).
Proof.
  intros HI. apply NoDup_nth_error. intros i j Hi Hij.
  destruct (nth_error (Dict.keys (training_jobs s)) i) as [k|] eqn:Ei.
  - symmetry in Hij.
    destruct (inv_keys s HI i k Ei) as [t ->].
    destruct (inv_keys s HI j _ Hij) as [t' E].
    now apply job_key_index_inj in E.
  - apply nth_error_None in Ei. lia.
Qed.

Lemma inv_thread_key s tid t :
  Inv s -> nth_error (threads s) tid = Some t ->
  nth_error (Dict.keys (training_jobs s)) tid = Some (th_job_id t).
Proof.
  intros HI Hth. rewrite <- (inv_ids s HI).
  now rewrite nth_error_map, Hth.
Qed.

Lemma inv_thread_job s tid t :
  Inv s -> nth_error (threads s) tid = Some t ->
  exists job, Dict.get (th_job_id t) (training_jobs s) = Some job
              /\ id job = th_job_id t /\ local_ok (th_pc t) job.
Proof.
  intros HI Hth.
  destruct (Dict.get (th_job_id t) (training_jobs s)) as [job|] eqn:Hget.
  - exists job. split; [reflexivity|]. now apply (inv_local s HI tid).
  - exfalso. apply DictFacts.get_none_notin in Hget. apply Hget.
    eapply nth_error_In. eapply inv_thread_key; eauto.
Qed.

Lemma inv_distinct s i j t t' :
  Inv s -> nth_error (threads s) i = Some t -> nth_error (threads s) j = Some t' ->
  th_job_id t = th_job_id t' -> i = j.
Proof.
  intros HI Hi Hj E.
  pose proof (inv_thread_key s i t HI Hi) as Ki.
  pose proof (inv_thread_key s j t' HI Hj) as Kj.
  destruct (inv_keys s HI i _ Ki) as [a Ea].
  destruct (inv_keys s HI j _ Kj) as [b Eb].
  rewrite E, Eb in Ea. now apply job_key_index_inj in Ea.
Qed.

(** The thread registered for a job identifier, when there is one. *)
Lemma inv_job_thread s k job :
  Inv s -> Dict.get k (training_jobs s) = Some job ->
  exists tid t, nth_error (threads s) tid = Some t /\ th_job_id t = k.
Proof.
  intros HI Hget.
  assert (Hin : In k (Dict.keys (training_jobs s))).
  { destruct (in_dec string_dec k (Dict.keys (training_jobs s))) as [H|H]; [exact H|].
    apply DictFacts.get_none_notin in H. congruence. }
  rewrite <- (inv_ids s HI) in Hin.
  apply In_nth_error in Hin as [tid Htid].
  rewrite nth_error_map in Htid.
  destruct (nth_error (threads s) tid) as [t|] eqn:E; [|discriminate].
  exists tid, t. split; [exact E|]. now injection Htid.
Qed.

Lemma work_effect clk tid ev t s :
  Inv s -> nth_error (threads s) tid = Some t ->
  exists job, Dict.get (th_job_id t) (training_jobs s) = Some job
              /\ WorkEffect s (step fmt clk (Work tid ev) s) tid t job.
Proof.
  intros HI Hth.
  destruct (inv_thread_job s tid t HI Hth) as (job & Hget & _ & Hloc).
  exists job. split; [exact Hget|].
  unfold step. rewrite Hth.
  destruct (is_sim_pc (th_pc t)) eqn:E.
  - now apply work_effect_sim.
  - now apply work_effect_real.
Qed.

Lemma inv_work clk tid ev s : Inv s -> Inv (step fmt clk (Work tid ev) s).
Proof.
  intros HI.
  destruct (nth_error (threads s) tid) as [t|] eqn:Hth;
    [|unfold step; now rewrite Hth].
  destruct (work_effect clk tid ev t s HI Hth) as (job & Hget & HE).
  destruct HE as [(job' & pc' & Hget' & Hthr & Hkind & Hfrozen & Hloc & Hid & Hname
                   & Hst & Hact) Hoth Hkeys Hcfg Hcal Hmod Hmono].
  set (s' := step fmt clk (Work tid ev) s) in *.
  split.
  - rewrite Hthr, set_nth_pc_ids, Hkeys. apply (inv_ids s HI).
  - rewrite Hkeys. apply (inv_keys s HI).
  - intros i ti jobi Hi Hgi. rewrite Hthr in Hi.
    destruct (Nat.eq_dec i tid) as [->|Hne].
    + rewrite (set_nth_pc_same _ _ _ _ Hth) in Hi. injection Hi as <-.
      cbn [th_job_id th_pc] in *. rewrite Hget' in Hgi. injection Hgi as <-.
      split; [|exact Hloc].
      rewrite Hid. destruct (inv_local s HI tid t job Hth Hget) as [E _]. exact E.
    + rewrite (set_nth_pc_other _ _ _ _ Hne) in Hi.
      assert (Hk : th_job_id ti <> th_job_id t).
      { intros E. apply Hne. eapply inv_distinct; eauto. }
      rewrite (Hoth _ Hk) in Hgi. now apply (inv_local s HI i).
  - rewrite Hact, Hthr, (live_count_set _ _ _ _ Hth), (inv_active s HI).
    destruct (live (th_pc t)) eqn:L, (live pc') eqn:L'; cbn [andb negb]; try lia.
    exfalso. specialize (Hfrozen eq_refl).
    assert (E : threads s' = threads s) by now rewrite Hfrozen.
    rewrite Hthr in E. apply (f_equal (fun l => nth_error l tid)) in E.
    rewrite (set_nth_pc_same _ _ _ _ Hth), Hth in E. injection E as E.
    rewrite <- E in L. cbn [th_pc] in L. congruence.
  - apply Hmod, (inv_models s HI).
Qed.

Lemma admission_cases k clk rq s :
  (snd (admission fmt k clk rq s) = s /\ fst (fst (admission fmt k clk rq s)) = false)
  \/ exists job,
      admission fmt k clk rq s
      = ((true, "Training started successfully! Job ID: " ++ new_job_id clk s),
         {| config := config s;
            training_jobs := Dict.set (new_job_id clk s) job (training_jobs s);
            trained_models := trained_models s;
            active_jobs := active_jobs s + 1;
            threads := threads s
                       ++ [ {| th_job_id := new_job_id clk s; th_pc := first_pc k |} ];
            callers := S (callers s);
            disk := disk s |})
      /\ id job = new_job_id clk s
      /\ model_name job = rq_model_name rq
      /\ epochs job = rq_epochs rq
      /\ status job = status_pending
      /\ progress job = 0
      /\ end_time job = None
      /\ error_message job = None.
Proof.
  unfold admission.
  destruct (negb (Str.truthy (Str.strip (rq_model_name rq)))); [now left|].
  destruct (Dict.mem (rq_model_name rq) (trained_models s)); [now left|].
  destruct (max_concurrent_jobs (config s) <=? active_jobs s); [now left|].
  destruct (validate_dataset fmt s (rq_dataset_path rq)) as [[v m] md].
  destruct (negb v); [now left|].
  right. eexists. split; [reflexivity|]. repeat split.
Qed.

Lemma new_job_id_fresh clk s :
  Inv s -> Dict.get (new_job_id clk s) (training_jobs s) = None.
Proof.
  intros HI. apply DictFacts.get_none_notin. intros Hin.
  apply In_nth_error in Hin as [i Hi].
  destruct (inv_keys s HI i _ Hi) as [t E].
  change (new_job_id clk s)
    with (job_key (unix_time clk) (List.length (training_jobs s))) in E.
  apply job_key_index_inj in E.
  assert (i < List.length (Dict.keys (training_jobs s)))%nat
    by (apply nth_error_Some; congruence).
  unfold Dict.keys in *. rewrite length_map in *. lia.
Qed.

Lemma inv_admission k clk rq s : Inv s -> Inv (step fmt clk (Admit k rq) s).
Proof.
  intros HI. unfold step.
  destruct (admission_cases k clk rq s)
    as [[-> _]|(job & -> & Hid & Hname & Hep & Hst & Hpr & Het & Hem)];
    [exact HI|].
  cbn [snd].
  pose proof (new_job_id_fresh clk s HI) as Hfresh.
  assert (Hlen : List.length (threads s) = List.length (training_jobs s)).
  { rewrite <- (length_map th_job_id), (inv_ids s HI). unfold Dict.keys.
    now rewrite length_map. }
  split; cbn [training_jobs threads active_jobs trained_models].
  - rewrite (DictFacts.set_fresh _ _ _ Hfresh). unfold Dict.keys.
    rewrite !map_app. cbn [map fst th_job_id]. f_equal. apply (inv_ids s HI).
  - intros i key Hi. rewrite (DictFacts.set_fresh _ _ _ Hfresh) in Hi.
    unfold Dict.keys in Hi. rewrite map_app in Hi. cbn [map fst] in Hi.
    destruct (Nat.lt_ge_cases i (List.length (map fst (training_jobs s)))) as [Hlt|Hge].
    + rewrite nth_error_app1 in Hi by exact Hlt. now apply (inv_keys s HI).
    + rewrite nth_error_app2 in Hi by exact Hge.
      rewrite length_map in *.
      destruct (i - List.length (training_jobs s))%nat as [|n] eqn:En;
        cbn [nth_error] in Hi; [|destruct n; discriminate].
      injection Hi as <-. exists (unix_time clk).
      replace i with (List.length (training_jobs s)) by lia. reflexivity.
  - intros i ti jobi Hi Hgi.
    destruct (Nat.lt_ge_cases i (List.length (threads s))) as [Hlt|Hge].
    + rewrite nth_error_app1 in Hi by exact Hlt.
      assert (Hk : new_job_id clk s <> th_job_id ti).
      { intros E. destruct (inv_thread_job s i ti HI Hi) as (j0 & Hj0 & _).
        rewrite <- E in Hj0. congruence. }
      rewrite (DictFacts.get_set_other _ _ _ _ Hk) in Hgi.
      now apply (inv_local s HI i).
    + rewrite nth_error_app2 in Hi by exact Hge.
      destruct (i - List.length (threads s))%nat as [|n];
        cbn [nth_error] in Hi; [|destruct n; discriminate].
      injection Hi as <-. cbn [th_job_id th_pc] in *.
      rewrite DictFacts.get_set_same in Hgi. injection Hgi as <-.
      split; [exact Hid|].
      destruct k; cbn [first_pc local_ok]; unfold not_started; auto.
  - rewrite live_count_app, (inv_active s HI).
    assert (E : forall x, live_count [ {| th_job_id := x; th_pc := first_pc k |} ] = 1)
      by (intros x; destruct k; reflexivity).
    rewrite E. lia.
  - apply (inv_models s HI).
Qed.

Lemma inv_frame s s' :
  Inv s ->
  training_jobs s' = training_jobs s -> threads s' = threads s ->
  active_jobs s' = active_jobs s -> keyed_by name (trained_models s') ->
  Inv s'.
Proof.
  intros HI Hj Ht Ha Hm. split.
  - rewrite Hj, Ht. apply (inv_ids s HI).
  - rewrite Hj. apply (inv_keys s HI).
  - rewrite Hj, Ht. apply (inv_local s HI).
  - rewrite Ha, Ht. apply (inv_active s HI).
  - exact Hm.
Qed.

Lemma inv_commit clk s : Inv s -> Inv (step fmt clk Commit s).
Proof.
  intros HI. unfold step, commit. destruct (callers s); [exact HI|].
  apply (inv_frame s); auto. apply (inv_models s HI).
Qed.

Lemma keyed_by_del {V} (key : V -> string) (n : string) (d : Dict.t V) :
  keyed_by key d -> keyed_by key (Dict.del n d).
Proof.
  intros [Hnd Hid]. split; [now apply DictFacts.nodup_del|now apply forall_del].
Qed.

Lemma inv_delete clk n raised s :
  Inv s -> Inv (step fmt clk (DeleteModel n raised) s).
Proof.
  intros HI. unfold step, delete_model.
  destruct (Dict.get n (trained_models s)) as [m|]; [|exact HI].
  pose proof (keyed_by_del name n _ (inv_models s HI)) as Hk.
  destruct (path_exists s (mi_model_path m)); [destruct raised; [exact HI|]|];
    apply (inv_frame s); auto.
Qed.

Lemma cancel_preserves_local pc (job : TrainingJob) line :
  local_ok pc job ->
  Str.mem (status job) [status_pending; status_training] = true ->
  local_ok pc (append_log line (set_status status_cancelled job)).
Proof.
  intros Hloc Hst. cbn [Str.mem] in Hst. rewrite orb_false_r in Hst.
  apply orb_prop in Hst.
  assert (Hs : status job = status_pending \/ status job = status_training).
  { destruct Hst as [H|H]; apply String.eqb_eq in H; auto. }
  clear Hst. status_facts.
  destruct pc; job_simpl; split_hyps;
    repeat match goal with
           | |- _ /\ _ => split
           end;
    try solve [ assumption | congruence | (right; reflexivity) | (exfalso; congruence) ].
Qed.

Lemma inv_cancel clk job_id s : Inv s -> Inv (step fmt clk (Cancel job_id) s).
Proof.
  intros HI. unfold step, cancel_training.
  destruct (Dict.get job_id (training_jobs s)) as [job|] eqn:Hget; [|exact HI].
  destruct (negb (Str.mem (status job) [status_pending; status_training])) eqn:Hg;
    [exact HI|].
  apply negb_false_iff in Hg. cbn [snd].
  split; state_simpl.
  - rewrite DictFacts.keys_modify. apply (inv_ids s HI).
  - rewrite DictFacts.keys_modify. apply (inv_keys s HI).
  - intros i ti jobi Hi Hgi. rewrite DictFacts.get_modify in Hgi.
    destruct (String.eqb_spec job_id (th_job_id ti)) as [E|E].
    + subst job_id. rewrite Hget in Hgi. cbn [option_map] in Hgi. injection Hgi as <-.
      destruct (inv_local s HI i ti job Hi Hget) as [Hid Hloc].
      split; [exact Hid|]. now apply cancel_preserves_local.
    + now apply (inv_local s HI i).
  - apply (inv_active s HI).
  - apply (inv_models s HI).
Qed.

Lemma inv_step clk l s : Inv s -> Inv (step fmt clk l s).
Proof.
  destruct l.
  - apply inv_admission.
  - apply inv_commit.
  - apply inv_cancel.
  - apply inv_delete.
  - apply inv_work.
Qed.

Lemma inv_run tr s : Inv s -> Inv (run fmt tr s).
Proof.
  revert s. induction tr as [|[clk l] r IH]; intros s HI; cbn [run]; [exact HI|].
  apply IH. now apply inv_step.
Qed.

Lemma inv_fresh cfg files : Inv (fresh cfg files).
Proof.
  split; cbn.
  - reflexivity.
  - intros [|i] k H; discriminate.
  - intros [|i] t job H; discriminate.
  - reflexivity.
  - split; constructor.
Qed.

Lemma reachable_inv cfg files s : reachable fmt cfg files s -> Inv s.
Proof. intros [tr ->]. apply inv_run, inv_fresh. Qed.

(** ** End times *)

Lemma is_terminal_true (st : string) :
  is_terminal st = true
  <-> st = status_completed \/ st = status_failed \/ st = status_cancelled.
Proof.
  unfold is_terminal. rewrite !orb_true_iff, !String.eqb_eq. tauto.
Qed.

Lemma local_ok_end_time pc job :
  local_ok pc job ->
  (end_time job <> None -> is_terminal (status job) = true)
  /\ (status job = status_completed \/ status job = status_failed ->
      end_time job <> None)
  /\ (pc = RealDone -> is_terminal (status job) = true /\ end_time job <> None)
  /\ (status job = status_completed -> progress job = 100)
  /\ (live pc = false -> is_terminal (status job) = true)
  /\ (status job = status_failed <-> error_message job <> None).
Proof.
  intros Hloc. status_facts. rewrite is_terminal_true.
  destruct pc; job_simpl; split_hyps;
    repeat match goal with
           | |- _ /\ _ => split
           | |- _ <-> _ => split
           | |- _ -> _ => intros
           end;
    split_hyps;
    try solve [ assumption | congruence | discriminate | tauto
              | (exfalso; congruence) | (left; congruence)
              | (right; left; congruence) | (right; right; congruence)
              | intuition congruence ].
Qed.

(** C2 (as the code has it).  In every reachable state, a job whose
    [end_time] is set has a terminal status, and a [completed] or [failed]
    job has its [end_time] set; a job whose trainer-backed worker has
    returned (whatever the exit path, cancellation included) has a terminal
    status and its [end_time] set.  [cancel_training] itself sets no
    [end_time]. *)
Theorem end_time_and_terminal_status
    (cfg : Config) (files : Dict.t DatasetFile) (s : State)
    (job_id : string) (job : TrainingJob) :
  reachable fmt cfg files s ->
  Dict.get job_id (training_jobs s) = Some job ->
  (end_time job <> None -> is_terminal (status job) = true)
  /\ (status job = status_completed \/ status job = status_failed ->
      end_time job <> None)
  /\ (forall tid t, nth_error (threads s) tid = Some t ->
        th_job_id t = job_id -> th_pc t = RealDone ->
        is_terminal (status job) = true /\ end_time job <> None).
Proof.
  intros Hr Hget. pose proof (reachable_inv _ _ _ Hr) as HI.
  destruct (inv_job_thread s job_id job HI Hget) as (tid & t & Hth & <-).
  destruct (inv_local s HI tid t job Hth Hget) as [_ Hloc].
  destruct (local_ok_end_time _ _ Hloc) as (H1 & H2 & _).
  split; [exact H1|]. split; [exact H2|].
  intros tid' t' Hth' E Hpc.
  rewrite <- E in Hget.
  destruct (inv_local s HI tid' t' job Hth' Hget) as [_ Hloc'].
  now apply (local_ok_end_time _ _ Hloc').
Qed.

(** ** The live-job counter *)

Lemma live_returned (l : list Thread) :
  live_count l = Z.of_nat (List.length l) - returned_count l.
Proof.
  unfold live_count, returned_count.
  induction l as [|t r IH]; cbn [filter List.length]; [reflexivity|].
  destruct (live (th_pc t)); cbn [negb List.length]; lia.
Qed.

Lemma live_count_ge_two (l : list Thread) (i j : nat) (t t' : Thread) :
  i <> j -> nth_error l i = Some t -> nth_error l j = Some t' ->
  live (th_pc t) = true -> live (th_pc t') = true -> 2 <= live_count l.
Proof.
  assert (Hnn : forall l, 0 <= live_count l) by (intros; unfold live_count; lia).
  assert (H1 : forall l i t, nth_error l i = Some t -> live (th_pc t) = true ->
                             1 <= live_count l).
  { clear. induction l as [|t0 r IH]; intros [|n] t; cbn [nth_error]; try discriminate.
    - intros [= ->] L. unfold live_count. cbn [filter]. rewrite L. cbn [List.length]. lia.
    - intros H L. specialize (IH n t H L). unfold live_count in *. cbn [filter].
      destruct (live (th_pc t0)); cbn [List.length]; lia. }
  revert i j. induction l as [|t0 r IH]; intros [|n] [|m] Hne Hi Hj L L';
    cbn [nth_error] in *; try discriminate; try congruence.
  - injection Hi as ->. pose proof (H1 r m t' Hj L') as Hr.
    unfold live_count in *. cbn [filter]. rewrite L. cbn [List.length]. lia.
  - injection Hj as ->. pose proof (H1 r n t Hi L) as Hr.
    unfold live_count in *. cbn [filter]. rewrite L'. cbn [List.length]. lia.
  - assert (Hnm : n <> m) by congruence.
    specialize (IH n m Hnm Hi Hj L L').
    unfold live_count in *. cbn [filter].
    destruct (live (th_pc t0)); cbn [List.length]; lia.
Qed.

(** C5 (as the code has it).  In every reachable state the live-job counter
    is the number of admitted jobs minus the number of workers that have
    returned: one increment per admission, one decrement per worker, on
    whichever path it returns.  So, with a ceiling of 2, a submission made
    while two admitted jobs are not terminal is refused for capacity; and
    once fewer than 2 workers are still running (a worker returns after its
    job has become completed, failed or cancelled) an otherwise valid
    submission is accepted. *)
Theorem live_job_counter
    (cfg : Config) (files : Dict.t DatasetFile) (s : State) :
  reachable fmt cfg files s ->
  active_jobs s = Z.of_nat (List.length (training_jobs s)) - returned_count (threads s)
  /\ (forall k clk rq j1 j2 job1 job2,
        max_concurrent_jobs (config s) = 2 ->
        j1 <> j2 ->
        Dict.get j1 (training_jobs s) = Some job1 ->
        Dict.get j2 (training_jobs s) = Some job2 ->
        is_terminal (status job1) = false ->
        is_terminal (status job2) = false ->
        Str.truthy (Str.strip (rq_model_name rq)) = true ->
        Dict.mem (rq_model_name rq) (trained_models s) = false ->
        start_training_with fmt k clk rq s
        = ((false, "Maximum concurrent jobs (2) reached"), s))
  /\ (forall k clk rq,
        live_count (threads s) < max_concurrent_jobs (config s) ->
        Str.truthy (Str.strip (rq_model_name rq)) = true ->
        Dict.mem (rq_model_name rq) (trained_models s) = false ->
        fst (fst (validate_dataset fmt s (rq_dataset_path rq))) = true ->
        fst (start_training_with fmt k clk rq s)
        = (true, "Training started successfully! Job ID: " ++ new_job_id clk s)).
Proof.
  intros Hr. pose proof (reachable_inv _ _ _ Hr) as HI.
  split; [|split].
  - rewrite (inv_active s HI), live_returned. f_equal. f_equal.
    rewrite <- (length_map th_job_id), (inv_ids s HI). unfold Dict.keys.
    now rewrite length_map.
  - intros k clk rq j1 j2 job1 job2 Hmax Hne H1 H2 T1 T2 Hname Hdup.
    destruct (inv_job_thread s j1 job1 HI H1) as (i1 & t1 & Hth1 & E1).
    destruct (inv_job_thread s j2 job2 HI H2) as (i2 & t2 & Hth2 & E2).
    assert (L1 : live (th_pc t1) = true).
    { destruct (live (th_pc t1)) eqn:L; [reflexivity|]. rewrite <- E1 in H1.
      destruct (inv_local s HI i1 t1 job1 Hth1 H1) as [_ Hloc].
      destruct (local_ok_end_time _ _ Hloc) as (_ & _ & _ & _ & Hd & _).
      rewrite (Hd L) in T1. discriminate. }
    assert (L2 : live (th_pc t2) = true).
    { destruct (live (th_pc t2)) eqn:L; [reflexivity|]. rewrite <- E2 in H2.
      destruct (inv_local s HI i2 t2 job2 Hth2 H2) as [_ Hloc].
      destruct (local_ok_end_time _ _ Hloc) as (_ & _ & _ & _ & Hd & _).
      rewrite (Hd L) in T2. discriminate. }
    assert (Hi : i1 <> i2) by (intros ->; congruence).
    pose proof (live_count_ge_two _ _ _ _ _ Hi Hth1 Hth2 L1 L2) as Hge.
    rewrite <- (inv_active s HI) in Hge.
    unfold start_training_with, admission. rewrite Hname, Hdup, Hmax. cbn [negb].
    destruct (Z.leb_spec 2 (active_jobs s)); [reflexivity|lia].
  - intros k clk rq Hlive Hname Hdup Hvalid.
    rewrite <- (inv_active s HI) in Hlive.
    unfold start_training_with, admission. rewrite Hname, Hdup. cbn [negb].
    destruct (Z.leb_spec (max_concurrent_jobs (config s)) (active_jobs s)); [lia|].
    destruct (validate_dataset fmt s (rq_dataset_path rq)) as [[v m] md].
    cbn [fst] in Hvalid. subst v. reflexivity.
Qed.

(** ** A worker that has returned leaves its job alone *)

Lemma commit_frame s :
  training_jobs (commit s) = training_jobs s /\ threads (commit s) = threads s
  /\ trained_models (commit s) = trained_models s
  /\ active_jobs (commit s) = active_jobs s /\ config (commit s) = config s.
Proof. unfold commit. destruct (callers s); repeat split. Qed.

Lemma delete_frame raised n s :
  training_jobs (snd (delete_model raised n s)) = training_jobs s
  /\ threads (snd (delete_model raised n s)) = threads s
  /\ active_jobs (snd (delete_model raised n s)) = active_jobs s
  /\ config (snd (delete_model raised n s)) = config s.
Proof.
  unfold delete_model. destruct (Dict.get n (trained_models s)) as [m|]; [|repeat split].
  destruct (path_exists s (mi_model_path m)); [destruct raised|]; repeat split.
Qed.

(** The three answers of [delete_model] (lines 423-442). *)
Lemma delete_model_cases raised n s :
  match Dict.get n (trained_models s) with
  | None => delete_model raised n s = ((false, "Model '" ++ n ++ "' not found"), s)
  | Some m =>
      match (if path_exists s (mi_model_path m) then raised else None) with
      | Some msg =>
          delete_model raised n s = ((false, "Error deleting model: " ++ msg), s)
      | None =>
          fst (delete_model raised n s)
          = (true, "Model '" ++ n ++ "' deleted successfully")
          /\ trained_models (snd (delete_model raised n s))
             = Dict.del n (trained_models s)
      end
  end.
Proof.
  unfold delete_model. destruct (Dict.get n (trained_models s)) as [m|]; [|reflexivity].
  destruct (path_exists s (mi_model_path m)); [destruct raised|]; try reflexivity;
    split; reflexivity.
Qed.

Lemma cancel_frame clk k s :
  threads (snd (cancel_training clk k s)) = threads s
  /\ active_jobs (snd (cancel_training clk k s)) = active_jobs s
  /\ trained_models (snd (cancel_training clk k s)) = trained_models s
  /\ config (snd (cancel_training clk k s)) = config s
  /\ Dict.keys (training_jobs (snd (cancel_training clk k s)))
     = Dict.keys (training_jobs s)
  /\ (forall k', k' <> k ->
        Dict.get k' (training_jobs (snd (cancel_training clk k s)))
        = Dict.get k' (training_jobs s)).
Proof.
  pose proof (cancel_training_cases clk k s) as H.
  destruct (Dict.get k (training_jobs s)) as [job|] eqn:Hget.
  - destruct (String.eqb (status job) status_pending
              || String.eqb (status job) status_training).
    + unfold cancel_training. rewrite Hget.
      destruct (negb (Str.mem (status job) [status_pending; status_training]));
        cbn [snd]; state_simpl; rewrite ?DictFacts.keys_modify; repeat split; auto.
      intros k' Hk. apply DictFacts.get_modify_other. congruence.
    + rewrite H. repeat split.
  - rewrite H. repeat split.
Qed.

Lemma step_keeps_thread clk l s tid t :
  Inv s -> nth_error (threads s) tid = Some t ->
  exists t', nth_error (threads (step fmt clk l s)) tid = Some t'
             /\ th_job_id t' = th_job_id t
             /\ pc_kind (th_pc t') = pc_kind (th_pc t)
             /\ (live (th_pc t) = false -> t' = t).
Proof.
  intros HI Hth. destruct l as [k rq| |k|n raised|tid' ev]; unfold step.
  - destruct (admission_cases k clk rq s) as [[-> _]|(job & -> & _)]; cbn [snd threads].
    + exists t. auto.
    + exists t. rewrite nth_error_app1; auto. apply nth_error_Some. congruence.
  - destruct (commit_frame s) as (_ & -> & _). exists t. auto.
  - destruct (cancel_frame clk k s) as (-> & _). exists t. auto.
  - destruct (delete_frame raised n s) as (_ & -> & _). exists t. auto.
  - destruct (nth_error (threads s) tid') as [t0|] eqn:Hth0; [|exists t; auto].
    destruct (work_effect clk tid' ev t0 s HI Hth0) as (job & Hget & HE).
    unfold step in HE. rewrite Hth0 in HE.
    destruct HE as [(job' & pc' & _ & Hthr & Hkind & Hfrozen & _) _ _ _ _ _ _].
    rewrite Hthr. destruct (Nat.eq_dec tid tid') as [->|Hne].
    + rewrite (set_nth_pc_same _ _ _ _ Hth0). rewrite Hth in Hth0. injection Hth0 as <-.
      eexists. split; [reflexivity|]. cbn [th_job_id th_pc].
      split; [reflexivity|]. split; [exact Hkind|].
      intros L. specialize (Hfrozen L).
      assert (E : nth_error (set_nth_pc tid' pc' (threads s)) tid' = Some t)
        by (rewrite <- Hthr, Hfrozen; exact Hth).
      rewrite (set_nth_pc_same _ _ _ _ Hth) in E. now injection E.
    + rewrite (set_nth_pc_other _ _ _ _ Hne). exists t. auto.
Qed.



(** ** Exceptions *)


(** ** The life cycle *)

(** Every change of a job's status in one step of the system. *)
Lemma step_status_change clk l s k job job' :
  Inv s ->
  Dict.get k (training_jobs s) = Some job ->
  Dict.get k (training_jobs (step fmt clk l s)) = Some job' ->
  status job' = status job
  \/ (l = Cancel k /\ cancel_edge (status job) (status job'))
  \/ (exists tid ev t,
        l = Work tid ev /\ nth_error (threads s) tid = Some t /\ th_job_id t = k
        /\ (worker_edge (pc_kind (th_pc t)) (status job) (status job')
            \/ worker_overwrite (pc_kind (th_pc t)) (status job) (status job'))).
Proof.
  intros HI Hget Hget'.
  destruct l as [wk rq| |k0|n raised|tid ev]; unfold step in Hget'.
  - left. destruct (admission_cases wk clk rq s) as [[E _]|(job0 & E & _)];
      rewrite E in Hget'; cbn [snd training_jobs] in Hget'; [congruence|].
    rewrite DictFacts.get_set_other in Hget'; [congruence|].
    intros E'. pose proof (new_job_id_fresh clk s HI) as F. congruence.
  - left. destruct (commit_frame s) as (E & _). rewrite E in Hget'. congruence.
  - destruct (String.eqb_spec k0 k) as [->|Hne].
    + pose proof (cancel_training_cases clk k s) as H. rewrite Hget in H.
      destruct (String.eqb_spec (status job) status_pending) as [E|_];
        [|destruct (String.eqb_spec (status job) status_training) as [E|_]];
        cbn [orb] in H.
      * destruct H as (s1 & E1 & G1 & _). rewrite E1 in Hget'. cbn [snd] in Hget'.
        rewrite G1 in Hget'. injection Hget' as <-. right; left.
        split; [reflexivity|]. job_simpl. rewrite E. constructor.
      * destruct H as (s1 & E1 & G1 & _). rewrite E1 in Hget'. cbn [snd] in Hget'.
        rewrite G1 in Hget'. injection Hget' as <-. right; left.
        split; [reflexivity|]. job_simpl. rewrite E. constructor.
      * rewrite H in Hget'. cbn [snd] in Hget'. left. congruence.
    + left. destruct (cancel_frame clk k0 s) as (_ & _ & _ & _ & _ & Ho).
      rewrite Ho in Hget' by congruence. congruence.
  - left. destruct (delete_frame raised n s) as (E & _). rewrite E in Hget'. congruence.
  - destruct (nth_error (threads s) tid) as [t|] eqn:Hth; [|left; congruence].
    destruct (work_effect clk tid ev t s HI Hth) as (job0 & Hget0 & HE).
    unfold step in HE. rewrite Hth in HE.
    destruct HE as [(job1 & pc' & Hget1 & _ & _ & _ & _ & _ & _ & Hst & _) Hoth _ _ _ _ _].
    destruct (String.eqb_spec (th_job_id t) k) as [E|Hne].
    + rewrite E in *. rewrite Hget in Hget0. injection Hget0 as <-.
      rewrite Hget1 in Hget'. injection Hget' as <-.
      destruct Hst as [H|H]; [now left|].
      right; right. exists tid, ev, t. auto.
    + left. rewrite Hoth in Hget' by congruence. congruence.
Qed.

Lemma worker_overwrite_terminal wk st st' :
  worker_overwrite wk st st' -> is_terminal st = true.
Proof. intros H; inversion H; reflexivity. Qed.

Lemma worker_edge_not_terminal wk st st' :
  worker_edge wk st st' -> is_terminal st = false.
Proof. intros H; inversion H; reflexivity. Qed.

Lemma cancel_edge_not_terminal st st' : cancel_edge st st' -> is_terminal st = false.
Proof. intros H; inversion H; reflexivity. Qed.

Lemma has_worker_step clk l s k wk :
  Inv s -> has_worker s k wk -> has_worker (step fmt clk l s) k wk.
Proof.
  intros HI (tid & t & Hth & Hk & Hwk).
  destruct (step_keeps_thread clk l s tid t HI Hth) as (t' & Hth' & Hk' & Hwk' & _).
  exists tid, t'. repeat split; congruence.
Qed.

Lemma compress_head (l : list string) (x : string) :
  exists c, compress (x :: l) = x :: c
            /\ (forall y, compress (y :: x :: l)
                          = if String.eqb y x then x :: c else y :: x :: c).
Proof.
  revert x. induction l as [|z r IH]; intros x.
  - exists []. split; [reflexivity|]. intros y. reflexivity.
  - destruct (IH z) as (c & Hc & Hn).
    cbn [compress] in *. rewrite Hc in *.
    destruct (String.eqb_spec x z) as [->|Hne].
    + exists c. split; [reflexivity|]. intros y. reflexivity.
    + exists (z :: c). split; [reflexivity|]. intros y. reflexivity.
Qed.

Lemma history_head tr s k : exists r, history fmt tr s k = status_at s k :: r.
Proof. destruct tr as [|[clk l] r]; eexists; reflexivity. Qed.

Lemma path_step wk st st' p :
  st <> status_cancelled ->
  worker_edge wk st st' \/ worker_overwrite wk st st' ->
  path_to_completed wk st' = Some p ->
  st <> st' /\ path_to_completed wk st = Some (st :: p).
Proof.
  intros Hc [H|H] Hp; inversion H; subst; try congruence;
    (split; [discriminate|]); revert Hp; cbv; intros [= <-]; reflexivity.
Qed.

Lemma run_path tr : forall s k wk,
  Inv s -> has_worker s k wk -> cancels k tr = false ->
  Dict.get k (training_jobs s) <> None ->
  status_at s k <> status_cancelled ->
  status_at (run fmt tr s) k = status_completed ->
  path_to_completed wk (status_at s k) = Some (compress (history fmt tr s k)).
Proof.
  induction tr as [|[clk l] r IH]; intros s k wk HI Hw Hcan Hex Hnc Hfin.
  - cbn [run] in Hfin. cbn [history compress]. rewrite Hfin. reflexivity.
  - cbn [run] in Hfin. cbn [cancels existsb snd] in Hcan.
    apply orb_false_iff in Hcan as [Hl Hcan].
    set (s1 := step fmt clk l s) in *.
    destruct (Dict.get k (training_jobs s)) as [job|] eqn:Hget; [|congruence].
    assert (Hex1 : exists job1, Dict.get k (training_jobs s1) = Some job1).
    { destruct Hw as (tid & t & Hth & Hk & _).
      destruct (step_keeps_thread clk l s tid t HI Hth) as (t' & Hth' & Hk' & _).
      destruct (inv_thread_job s1 tid t' (inv_step clk l s HI) Hth') as (j1 & Hj1 & _).
      exists j1. congruence. }
    destruct Hex1 as (job1 & Hget1).
    assert (Hs : status_at s k = status job) by (unfold status_at; now rewrite Hget).
    assert (Hs1 : status_at s1 k = status job1)
      by (unfold status_at; now rewrite Hget1).
    cbn [history]. fold s1.
    destruct (history_head r s1 k) as (h & Hh). rewrite Hh.
    destruct (compress_head h (status_at s1 k)) as (c & Hc & Hn).
    rewrite Hn.
    pose proof (has_worker_step clk l s k wk HI Hw) as Hw1. fold s1 in Hw1.
    pose proof (inv_step clk l s HI) as HI1. fold s1 in HI1.
    destruct (step_status_change clk l s k job job1 HI Hget Hget1)
      as [E|[[E _]|(tid & ev & t & El & Hth & Hk & Hedge)]].
    + assert (Est : status_at s k = status_at s1 k) by congruence.
      rewrite Est, String.eqb_refl, <- Hc.
      specialize (IH s1 k wk HI1 Hw1 Hcan).
      rewrite Hh in IH. apply IH; congruence.
    + subst l. cbn in Hl. rewrite String.eqb_refl in Hl. discriminate.
    + assert (Hwk : pc_kind (th_pc t) = wk).
      { destruct Hw as (tid0 & t0 & Hth0 & Hk0 & Hwk0).
        assert (tid = tid0)
          by exact (inv_distinct s tid tid0 t t0 HI Hth Hth0 (eq_trans Hk (eq_sym Hk0))).
        subst tid0. congruence. }
      rewrite Hwk in Hedge.
      assert (Hnc1 : status_at s1 k <> status_cancelled).
      { rewrite Hs1. status_facts. destruct Hedge as [He|He]; inversion He; congruence. }
      specialize (IH s1 k wk HI1 Hw1 Hcan).
      rewrite Hh in IH.
      assert (Hp : path_to_completed wk (status_at s1 k) = Some (status_at s1 k :: c)).
      { rewrite <- Hc. apply IH; congruence. }
      rewrite Hs in Hnc. rewrite Hs1 in Hp.
      destruct (path_step wk _ _ _ Hnc Hedge Hp) as [Hne Hpath].
      rewrite Hs, Hs1. destruct (String.eqb_spec (status job) (status job1)); congruence.
Qed.

(** C1 (as the code has it).  In every reachable state:
    - one step changes the status of a job that is not yet terminal only
      along [pending -> cancelled] or [training -> cancelled] (a call of
      [cancel_training]; an [initializing] job is not cancellable), or along
      an edge of its worker: [pending -> training -> completed] for the
      simulated worker, which has no [initializing] state, and
      [pending -> initializing -> training -> completed], or [failed] from
      [initializing] or [training], for the trainer-backed worker;
    - no call of the interface (submission, cancellation, deletion of a
      model) changes a terminal status;
    - a job that goes from [pending] to [completed] in a run without a
      cancellation passes exactly through [pending, training, completed]
      under the simulated worker and through
      [pending, initializing, training, completed] under the trainer-backed
      one. *)
Theorem status_follows_lifecycle
    (cfg : Config) (files : Dict.t DatasetFile) (s : State) :
  reachable fmt cfg files s ->
  (forall clk l k job job',
      Dict.get k (training_jobs s) = Some job ->
      Dict.get k (training_jobs (step fmt clk l s)) = Some job' ->
      is_terminal (status job) = false ->
      status job' = status job
      \/ (l = Cancel k /\ cancel_edge (status job) (status job'))
      \/ (exists tid ev t,
            l = Work tid ev /\ nth_error (threads s) tid = Some t
            /\ th_job_id t = k
            /\ worker_edge (pc_kind (th_pc t)) (status job) (status job')))
  /\ (forall clk l k job job',
        Dict.get k (training_jobs s) = Some job ->
        Dict.get k (training_jobs (step fmt clk l s)) = Some job' ->
        is_terminal (status job) = true ->
        (forall tid ev, l <> Work tid ev) ->
        status job' = status job)
  /\ (forall tr k wk,
        has_worker s k wk ->
        status_at s k = status_pending ->
        cancels k tr = false ->
        status_at (run fmt tr s) k = status_completed ->
        compress (history fmt tr s k)
        = match wk with
          | Simulated => [status_pending; status_training; status_completed]
          | Trainer => [status_pending; status_initializing; status_training;
                        status_completed]
          end).
Proof.
  intros Hr. pose proof (reachable_inv _ _ _ Hr) as HI.
  split; [|split].
  - intros clk l k job job' Hget Hget' Hnt.
    destruct (step_status_change clk l s k job job' HI Hget Hget')
      as [E|[E|(tid & ev & t & El & Hth & Hk & [He|He])]]; auto.
    + right; right. exists tid, ev, t. auto.
    + apply worker_overwrite_terminal in He. congruence.
  - intros clk l k job job' Hget Hget' Ht Hl.
    destruct (step_status_change clk l s k job job' HI Hget Hget')
      as [E|[[_ E]|(tid & ev & t & El & _)]]; auto.
    + apply cancel_edge_not_terminal in E. congruence.
    + exfalso. apply (Hl tid ev El).
  - intros tr k wk Hw Hp Hc Hfin.
    assert (Hex : Dict.get k (training_jobs s) <> None).
    { destruct Hw as (tid & t & Hth & Hk & _).
      destruct (inv_thread_job s tid t HI Hth) as (j & Hj & _). congruence. }
    assert (Hnc : status_at s k <> status_cancelled) by (rewrite Hp; discriminate).
    pose proof (run_path tr s k wk HI Hw Hc Hex Hnc Hfin) as H.
    rewrite Hp in H.
    destruct wk;
      [ change (path_to_completed Simulated status_pending)
          with (Some [status_pending; status_training; status_completed]) in H
      | change (path_to_completed Trainer status_pending)
          with (Some [status_pending; status_initializing; status_training;
                      status_completed]) in H ];
      now injection H.
Qed.

(** ** Persistence of an admitted job *)

Lemma get_in_values {V} (d : Dict.t V) k v :
  Dict.get k d = Some v -> In v (Dict.values d).
Proof.
  induction d as [|[k0 v0] r IH]; simpl; [discriminate|].
  destruct (String.eqb k0 k); [intros [= ->]; now left|]. intros H. right. auto.
Qed.

Lemma step_keeps_job clk l s k :
  Inv s -> Dict.get k (training_jobs s) <> None ->
  Dict.get k (training_jobs (step fmt clk l s)) <> None.
Proof.
  intros HI Hex.
  destruct (Dict.get k (training_jobs s)) as [job|] eqn:Hget; [|congruence].
  destruct (inv_job_thread s k job HI Hget) as (tid & t & Hth & Hk).
  destruct (step_keeps_thread clk l s tid t HI Hth) as (t' & Hth' & Hk' & _).
  destruct (inv_thread_job _ tid t' (inv_step clk l s HI) Hth') as (j1 & Hj1 & _).
  congruence.
Qed.

Lemma run_keeps_job tr s k :
  Inv s -> Dict.get k (training_jobs s) <> None ->
  Dict.get k (training_jobs (run fmt tr s)) <> None.
Proof.
  revert s. induction tr as [|[clk l] r IH]; intros s HI Hex; cbn [run]; [exact Hex|].
  apply IH; [now apply inv_step|now apply step_keeps_job].
Qed.

(** C6 (as the code has it).  A successful [start_training] has written the
    jobs catalog before it returns, and the catalog then holds the record of
    the new job.  Run without interruption, that record is the [pending]
    one.  The write comes after the worker thread has been started, so in
    general the record that is written is the job as it stands when the
    write happens, whatever ran in between. *)
Theorem admitted_job_is_written_before_return
    (cfg : Config) (files : Dict.t DatasetFile) (s : State)
    (k : WorkerKind) (clk : Clock) (rq : Request) :
  reachable fmt cfg files s ->
  fst (fst (admission fmt k clk rq s)) = true ->
  let job_id := new_job_id clk s in
  let s1 := snd (admission fmt k clk rq s) in
  start_training_with fmt k clk rq s = (fst (admission fmt k clk rq s), commit s1)
  /\ (exists job,
        Dict.get job_id (training_jobs (commit s1)) = Some job
        /\ status job = status_pending
        /\ In (job_asdict job) (persisted_jobs (disk (commit s1))))
  /\ (forall tr,
        let s2 := run fmt tr s1 in
        callers s2 <> O ->
        exists job,
          Dict.get job_id (training_jobs s2) = Some job
          /\ Dict.get job_id (training_jobs (commit s2)) = Some job
          /\ In (job_asdict job) (persisted_jobs (disk (commit s2)))).
Proof.
  intros Hr Hok job_id s1.
  pose proof (reachable_inv _ _ _ Hr) as HI.
  assert (HI1 : Inv s1) by apply (inv_admission k clk rq s HI).
  assert (Hsave : forall s0 j, callers s0 <> O ->
            Dict.get job_id (training_jobs s0) = Some j ->
            Dict.get job_id (training_jobs (commit s0)) = Some j
            /\ In (job_asdict j) (persisted_jobs (disk (commit s0)))).
  { intros s0 j Hc Hj. unfold commit. destruct (callers s0); [congruence|].
    split; [exact Hj|]. unfold persisted_jobs.
    cbn [disk with_callers _save_state with_disk jobs_file].
    apply in_map. now apply get_in_values in Hj. }
  destruct (admission_cases k clk rq s) as [[_ E]|(job & E & Hid & _ & _ & Hst & _)];
    [congruence|].
  assert (Hget1 : Dict.get job_id (training_jobs s1) = Some job).
  { unfold s1. rewrite E. cbn [snd training_jobs]. apply DictFacts.get_set_same. }
  assert (Hc1 : callers s1 <> O) by (unfold s1; rewrite E; discriminate).
  split; [|split].
  - unfold start_training_with. fold s1.
    destruct (admission fmt k clk rq s) as [r0 s0] eqn:Ea. cbn [fst snd] in *.
    now rewrite Hok.
  - exists job. destruct (Hsave s1 job Hc1 Hget1). auto.
  - intros tr s2 Hc2.
    assert (Hex : Dict.get job_id (training_jobs s2) <> None).
    { apply run_keeps_job; [exact HI1|congruence]. }
    destruct (Dict.get job_id (training_jobs s2)) as [j2|] eqn:Hj2; [|congruence].
    exists j2. destruct (Hsave s2 j2 Hc2 Hj2). auto.
Qed.

(** ** Model names *)

(** C8.  Admission looks a model name up in the registry of finished
    models only.  A name that is registered there is refused as a duplicate;
    a name that is not registered is accepted whatever jobs exist (the jobs
    registry is not consulted), provided the ceiling is not reached and the
    dataset is valid; and the block in which the simulated worker marks a
    job [completed] registers a [ModelInfo] under the job's model name. *)
Theorem model_name_checked_against_registry
    (k : WorkerKind) (clk : Clock) (rq : Request) (s : State) :
  Str.truthy (Str.strip (rq_model_name rq)) = true ->
  (Dict.mem (rq_model_name rq) (trained_models s) = true ->
   start_training_with fmt k clk rq s
   = ((false, "Model '" ++ rq_model_name rq ++ "' already exists"), s))
  /\ (Dict.mem (rq_model_name rq) (trained_models s) = false ->
      active_jobs s < max_concurrent_jobs (config s) ->
      fst (fst (validate_dataset fmt s (rq_dataset_path rq))) = true ->
      forall jobs,
        fst (start_training_with fmt k clk rq (with_training_jobs jobs s))
        = (true, "Training started successfully! Job ID: "
                   ++ new_job_id clk (with_training_jobs jobs s)))
  /\ (forall clk' tid t job epoch step_no,
        nth_error (threads s) tid = Some t ->
        th_pc t = SimLoop epoch step_no ->
        Dict.get (th_job_id t) (training_jobs s) = Some job ->
        model_name job = rq_model_name rq ->
        epochs job <= epoch ->
        let s' := step fmt clk' (Work tid Tick) s in
        status_at s' (th_job_id t) = status_completed
        /\ option_map training_job_id (Dict.get (rq_model_name rq) (trained_models s'))
           = Some (th_job_id t)
        /\ start_training_with fmt k clk rq s'
           = ((false, "Model '" ++ rq_model_name rq ++ "' already exists"), s')).
Proof.
  intros Hname.
  assert (Hdup : forall s0, Dict.mem (rq_model_name rq) (trained_models s0) = true ->
            start_training_with fmt k clk rq s0
            = ((false, "Model '" ++ rq_model_name rq ++ "' already exists"), s0)).
  { intros s0 Hm. unfold start_training_with, admission. now rewrite Hname, Hm. }
  split; [apply Hdup|split].
  - intros Hm Hcap Hvalid jobs. unfold start_training_with, admission.
    cbn [trained_models with_training_jobs config active_jobs].
    rewrite Hname, Hm. cbn [negb].
    destruct (Z.leb_spec (max_concurrent_jobs (config s)) (active_jobs s)); [lia|].
    assert (Hv : validate_dataset fmt (with_training_jobs jobs s) (rq_dataset_path rq)
                 = validate_dataset fmt s (rq_dataset_path rq)) by reflexivity.
    rewrite Hv.
    destruct (validate_dataset fmt s (rq_dataset_path rq)) as [[v m] md].
    cbn [fst] in Hvalid. subst v. reflexivity.
  - intros clk' tid t job epoch step_no Hth Hpc Hget Hmn Hep s'.
    assert (Hs' : s' = goto tid SimWrite (sim_complete clk' (th_job_id t) job s)).
    { unfold s', step. rewrite Hth, Hpc. cbn [is_sim_pc]. unfold sim_worker.
      rewrite Hget. destruct (Z.leb_spec (epochs job) epoch); [reflexivity|lia]. }
    assert (Hreg : Dict.get (rq_model_name rq) (trained_models s')
                   = Some (sim_model_info (config s) (th_job_id t) job (isoformat clk'))).
    { rewrite Hs'. state_simpl. rewrite Hmn. apply DictFacts.get_set_same. }
    split; [|split].
    + unfold status_at. rewrite Hs'. state_simpl.
      rewrite DictFacts.get_modify_same, Hget. reflexivity.
    + now rewrite Hreg.
    + apply Hdup. unfold Dict.mem. now rewrite Hreg.
Qed.

(** ** Progress *)

(** A block that reports progress stores [int((step / steps) * 100)] in the
    job. *)
Lemma progress_event_sets_progress clk tid t job ev c m s :
  nth_error (threads s) tid = Some t ->
  Dict.get (th_job_id t) (training_jobs s) = Some job ->
  progress_event (th_pc t) ev job = Some (c, m) ->
  m <> 0 ->
  exists job',
    Dict.get (th_job_id t) (training_jobs (step fmt clk (Work tid ev) s)) = Some job'
    /\ progress job' = reported_progress c m.
Proof.
  intros Hth Hget Hev Hm. destruct t as [k pc]. cbn [th_job_id th_pc] in *.
  unfold step. rewrite Hth. cbn [th_job_id th_pc].
  destruct pc as [ |e st|e st| | | | | | | | | ]; try discriminate Hev;
    destruct ev as [ | | ? | ? ? | ? ? ? ? | | |zero g mx loss lr| ? ];
    try discriminate Hev; cbn [progress_event] in Hev.
  - injection Hev as <- <-. cbn [is_sim_pc]. unfold sim_worker. rewrite Hget.
    match goal with |- context [?x mod 3 =? 0] => destruct (x mod 3 =? 0) end;
      state_simpl;
      rewrite ?DictFacts.get_modify_same, Hget; cbn [option_map];
      eexists; (split; [reflexivity|]); reflexivity.
  - destruct zero; [|discriminate Hev]. injection Hev as <- <-.
    cbn [is_sim_pc]. unfold real_worker. rewrite Hget.
    destruct (Z.eqb_spec mx 0) as [E|_]; [contradiction|].
    state_simpl. rewrite DictFacts.get_modify_same, Hget. cbn [option_map].
    eexists. split; reflexivity.
Qed.

(** C7 (as the code has it).  A block that reports step [c] of [m], with
    [1 <= c <= m < 2 ^ 44], sets the progress of its job to
    [p = int((c / m) * 100)], computed in binary64.  This [p] is
    [floor(100 * c / m)] or one less, and it is the floor whenever
    [100 * c / m] is not a whole number; it lies in [[0, 99]] before the
    last step and is exactly 100 at the last step; it does not decrease
    when the step grows.  In every reachable state a [completed] job has
    progress 100. *)
Theorem progress_follows_step_ratio
    (cfg : Config) (files : Dict.t DatasetFile) (s : State) (clk : Clock)
    (tid : nat) (t : Thread) (job : TrainingJob) (ev : Event) (c m c' : Z) :
  reachable fmt cfg files s ->
  nth_error (threads s) tid = Some t ->
  Dict.get (th_job_id t) (training_jobs s) = Some job ->
  progress_event (th_pc t) ev job = Some (c, m) ->
  1 <= c <= m -> m < 2 ^ 44 ->
  let p := reported_progress c m in
  (exists job',
     Dict.get (th_job_id t) (training_jobs (step fmt clk (Work tid ev) s)) = Some job'
     /\ progress job' = p)
  /\ 100 * c / m - 1 <= p <= 100 * c / m
  /\ ((100 * c) mod m <> 0 -> p = 100 * c / m)
  /\ (c < m -> 0 <= p <= 99)
  /\ (c = m -> p = 100)
  /\ (c <= c' <= m -> p <= reported_progress c' m)
  /\ (forall k j, Dict.get k (training_jobs s) = Some j ->
                  status j = status_completed -> progress j = 100).
Proof.
  intros Hr Hth Hget Hev Hc Hm p.
  destruct (FloatFacts.reported_progress_spec c m c' Hc Hm) as (H1 & H2 & H3 & H4).
  fold p in H1, H2, H3, H4.
  split; [apply (progress_event_sets_progress clk tid t job ev c m s); auto; lia|].
  split; [exact H1|]. split.
  { intros Hmod.
    assert (100 * c / m <= p); [|lia].
    destruct c as [|pc|pc]; try lia. destruct m as [|pm|pm]; try lia.
    apply FloatFacts.reported_ge_strict; [lia|assumption|].
    pose proof (Z.div_mod (100 * Zpos pc) (Zpos pm) ltac:(lia)) as Hdm.
    pose proof (Z.mod_pos_bound (100 * Zpos pc) (Zpos pm) ltac:(lia)) as Hmb.
    rewrite (Z.mul_comm (100 * Zpos pc / Zpos pm)). lia. }
  split; [exact H2|]. split; [exact H3|]. split; [exact H4|].
  intros k j Hk Hst.
  pose proof (reachable_inv _ _ _ Hr) as HI.
  destruct (inv_job_thread s k j HI Hk) as (tid' & t' & Hth' & <-).
  destruct (inv_local s HI tid' t' j Hth' Hk) as [_ Hloc].
  now apply (local_ok_end_time _ _ Hloc).
Qed.

(** ** Further properties of the orchestrator *)

(** X1.  In every reachable state a job has an [error_message] exactly
    when its status is [failed]. *)
Theorem error_message_iff_failed
    (cfg : Config) (files : Dict.t DatasetFile) (s : State)
    (job_id : string) (job : TrainingJob) :
  reachable fmt cfg files s ->
  Dict.get job_id (training_jobs s) = Some job ->
  (status job = status_failed <-> error_message job <> None).
Proof.
  intros Hr Hget. pose proof (reachable_inv _ _ _ Hr) as HI.
  destruct (inv_job_thread s job_id job HI Hget) as (tid & t & Hth & <-).
  destruct (inv_local s HI tid t job Hth Hget) as [_ Hloc].
  now apply (local_ok_end_time _ _ Hloc).
Qed.

(** *** The ceiling *)

Lemma admission_success_below_ceiling k clk rq s :
  fst (fst (admission fmt k clk rq s)) = true ->
  active_jobs s < max_concurrent_jobs (config s).
Proof.
  unfold admission.
  destruct (negb (Str.truthy (Str.strip (rq_model_name rq)))); [discriminate|].
  destruct (Dict.mem (rq_model_name rq) (trained_models s)); [discriminate|].
  destruct (Z.leb_spec (max_concurrent_jobs (config s)) (active_jobs s));
    [discriminate|]. intros _. assumption.
Qed.

Lemma step_config_active clk l s :
  Inv s ->
  config (step fmt clk l s) = config s
  /\ (active_jobs (step fmt clk l s) <= active_jobs s
      \/ (active_jobs s < max_concurrent_jobs (config s)
          /\ active_jobs (step fmt clk l s) = active_jobs s + 1)).
Proof.
  intros HI. destruct l as [k rq| |job_id|n raised|tid ev]; cbn [step].
  - pose proof (admission_success_below_ceiling k clk rq s) as Hlt.
    destruct (admission_cases k clk rq s) as [[-> _]|(job & E & _)].
    + split; [reflexivity|left; lia].
    + rewrite E in *. cbn [fst snd config active_jobs] in *.
      split; [reflexivity|right]. split; [now apply Hlt|reflexivity].
  - destruct (commit_frame s) as (_ & _ & _ & -> & ->). split; [reflexivity|left; lia].
  - destruct (cancel_frame clk job_id s) as (_ & -> & _ & -> & _).
    split; [reflexivity|left; lia].
  - destruct (delete_frame raised n s) as (_ & _ & -> & ->). split; [reflexivity|left; lia].
  - destruct (nth_error (threads s) tid) as [t|] eqn:Hth.
    + destruct (work_effect clk tid ev t s HI Hth) as (job & Hget & HW).
      unfold step in HW. rewrite Hth in HW.
      split; [exact (we_config _ _ _ _ _ HW)|left].
      destruct (we_job _ _ _ _ _ HW) as (job' & pc' & _ & _ & _ & _ & _ & _ & _ & _ & ->).
      destruct (live (th_pc t) && negb (live pc')); lia.
    + split; [reflexivity|left; lia].
Qed.

Lemma ceiling_run cfg tr : forall s,
  Inv s -> config s = cfg -> active_jobs s <= Z.max 0 (max_concurrent_jobs cfg) ->
  config (run fmt tr s) = cfg
  /\ active_jobs (run fmt tr s) <= Z.max 0 (max_concurrent_jobs cfg).
Proof.
  induction tr as [|[clk l] r IH]; intros s HI Hc Ha; [split; assumption|].
  cbn [run]. destruct (step_config_active clk l s HI) as [Hc' Ha'].
  apply IH; [now apply inv_step|congruence|]. rewrite Hc in Ha'. lia.
Qed.

Lemma reachable_config cfg files s : reachable fmt cfg files s -> config s = cfg.
Proof.
  intros [tr ->].
  now destruct (ceiling_run cfg tr (fresh cfg files) (inv_fresh cfg files) eq_refl
                  ltac:(cbn; lia)).
Qed.

Lemma admission_phases k clk rq s :
  admission fmt k clk rq s
  = match admission_tests fmt rq s with
    | inl message => ((false, message), s)
    | inr dataset_metadata => admission_register k clk rq dataset_metadata s
    end.
Proof.
  unfold admission, admission_tests, admission_register.
  destruct (negb (Str.truthy (Str.strip (rq_model_name rq)))); [reflexivity|].
  destruct (Dict.mem (rq_model_name rq) (trained_models s)); [reflexivity|].
  destruct (max_concurrent_jobs (config s) <=? active_jobs s); [reflexivity|].
  destruct (validate_dataset fmt s (rq_dataset_path rq)) as [[v m] md].
  destruct (negb v); reflexivity.
Qed.

(** X2.  As long as the calls of [start_training] do not overlap (each
    one runs from its tests to the start of its worker before the next one
    begins, which is how the steps of the system take them), the
    configuration is the one the process was started with, and the live-job
    counter is the number of worker threads that have not returned: it is
    never negative and never above the ceiling.  The ceiling is not kept
    between overlapping calls: the test of line 199 and the increment of
    line 228 are apart, so two callers that both pass the tests in one state
    both register, and the counter goes up by two, above the ceiling when
    one place was left. *)
Theorem active_jobs_within_ceiling
    (cfg : Config) (files : Dict.t DatasetFile) (s : State) :
  reachable fmt cfg files s ->
  (config s = cfg
   /\ active_jobs s = live_count (threads s)
   /\ 0 <= active_jobs s <= Z.max 0 (max_concurrent_jobs cfg))
  /\ (forall k clk rq,
        admission fmt k clk rq s
        = match admission_tests fmt rq s with
          | inl message => ((false, message), s)
          | inr dataset_metadata => admission_register k clk rq dataset_metadata s
          end)
  /\ (forall k1 k2 clk1 clk2 rq1 rq2 md1 md2,
        admission_tests fmt rq1 s = inr md1 ->
        admission_tests fmt rq2 s = inr md2 ->
        let r1 := admission_register k1 clk1 rq1 md1 s in
        let r2 := admission_register k2 clk2 rq2 md2 (snd r1) in
        fst (fst r1) = true /\ fst (fst r2) = true
        /\ active_jobs (snd r2) = active_jobs s + 2
        /\ List.length (threads (snd r2)) = S (S (List.length (threads s)))
        /\ (active_jobs s = max_concurrent_jobs cfg - 1 ->
            active_jobs (snd r2) = max_concurrent_jobs cfg + 1)).
Proof.
  intros Hr. pose proof (reachable_inv _ _ _ Hr) as HI.
  destruct Hr as [tr ->].
  destruct (ceiling_run cfg tr (fresh cfg files) (inv_fresh cfg files) eq_refl)
    as [Hc Ha]; [cbn; lia|].
  split; [|split].
  - split; [exact Hc|]. split; [exact (inv_active _ HI)|].
    split; [|exact Ha]. rewrite (inv_active _ HI). unfold live_count. lia.
  - intros k clk rq. apply admission_phases.
  - intros k1 k2 clk1 clk2 rq1 rq2 md1 md2 _ _ r1 r2.
    unfold r2, r1, admission_register, spawn.
    cbn [fst snd active_jobs threads with_callers with_threads with_active_jobs
         with_training_jobs].
    split; [reflexivity|]. split; [reflexivity|]. split; [lia|].
    split; [rewrite !length_app; cbn [List.length]; lia|]. intros E. lia.
Qed.

(** *** Submissions *)

Lemma start_training_with_commit k clk rq s :
  fst (fst (start_training_with fmt k clk rq s)) = true ->
  fst (fst (admission fmt k clk rq s)) = true
  /\ fst (start_training_with fmt k clk rq s) = fst (admission fmt k clk rq s)
  /\ snd (start_training_with fmt k clk rq s) = commit (snd (admission fmt k clk rq s)).
Proof.
  unfold start_training_with. destruct (admission fmt k clk rq s) as [r s1].
  cbn [fst snd]. destruct (fst r) eqn:E; cbn [fst snd]; rewrite ?E; intros H;
    [repeat split|discriminate H].
Qed.

(** X3.  In every reachable state an accepted submission registers its
    job under an identifier that no job has yet, leaves every other job as
    it was, and adds exactly one job, one worker thread and one unit to the
    live-job counter; the registry of models is not touched. *)
Theorem accepted_submission_adds_one_job
    (cfg : Config) (files : Dict.t DatasetFile) (s : State)
    (k : WorkerKind) (clk : Clock) (rq : Request) :
  reachable fmt cfg files s ->
  fst (fst (start_training_with fmt k clk rq s)) = true ->
  let s' := snd (start_training_with fmt k clk rq s) in
  Dict.get (new_job_id clk s) (training_jobs s) = None
  /\ (exists job,
        Dict.get (new_job_id clk s) (training_jobs s') = Some job
        /\ id job = new_job_id clk s /\ model_name job = rq_model_name rq
        /\ status job = status_pending /\ progress job = 0)
  /\ (forall k' job, Dict.get k' (training_jobs s) = Some job ->
                     Dict.get k' (training_jobs s') = Some job)
  /\ List.length (training_jobs s') = S (List.length (training_jobs s))
  /\ threads s'
     = (threads s ++ [ {| th_job_id := new_job_id clk s; th_pc := first_pc k |} ])%list
  /\ active_jobs s' = active_jobs s + 1
  /\ trained_models s' = trained_models s.
Proof.
  intros Hr Hok s'. pose proof (reachable_inv _ _ _ Hr) as HI.
  pose proof (new_job_id_fresh clk s HI) as Hfresh.
  destruct (start_training_with_commit k clk rq s Hok) as (Hadm & _ & Hs').
  subst s'. rewrite Hs'. clear Hs' Hok.
  destruct (admission_cases k clk rq s) as [[Hs Hf]|(job & E & Hid & Hmn & _ & Hst & Hp & _)].
  - rewrite Hf in Hadm. discriminate Hadm.
  - rewrite E. cbn [fst snd].
    match goal with |- context [commit ?x] => set (s1 := x) in * end.
    destruct (commit_frame s1) as (Hj & Ht & Hm & Ha & _).
    rewrite Hj, Ht, Hm, Ha. subst s1. cbn [training_jobs threads trained_models active_jobs].
    split; [exact Hfresh|]. split.
    { exists job. rewrite DictFacts.get_set_same. repeat split; assumption. }
    split.
    { intros k' job0 Hk'. rewrite DictFacts.get_set_other; [exact Hk'|].
      intros E'. congruence. }
    split.
    { rewrite (DictFacts.set_fresh _ _ _ Hfresh). rewrite length_app. simpl. lia. }
    repeat split.
Qed.

(** *** Restart *)

Lemma reachable_jobs_keyed s : Inv s -> keyed_by id (training_jobs s).
Proof.
  intros HI. pose proof (inv_nodup s HI) as Hnd. split; [exact Hnd|].
  apply Forall_forall. intros [k job] Hin. cbn [fst snd].
  pose proof (get_in_nodup k job _ Hnd Hin) as Hget.
  destruct (inv_job_thread s k job HI Hget) as (tid & t & Hth & <-).
  now destruct (inv_local s HI tid t job Hth Hget).
Qed.

(** X4.  From every reachable state, writing the catalogs and starting
    a new process on them gives back both registries as they were; the new
    process has no worker thread and a live-job counter of 0, whatever the
    jobs were doing, so that no worker event changes anything any more. *)
Theorem restart_of_reachable_state
    (cfg : Config) (files : Dict.t DatasetFile) (s : State) :
  reachable fmt cfg files s ->
  let s' := init (config s) (disk (_save_state s)) in
  training_jobs s' = training_jobs s
  /\ trained_models s' = trained_models s
  /\ threads s' = [] /\ active_jobs s' = 0
  /\ forall clk tid ev, step fmt clk (Work tid ev) s' = s'.
Proof.
  intros Hr. pose proof (reachable_inv _ _ _ Hr) as HI.
  destruct (reachable_jobs_keyed s HI) as [Hnd Hid].
  destruct (inv_models s HI) as [Hnd' Hid'].
  unfold init, _load_state, _save_state. simpl.
  rewrite (load_jobs_asdict (training_jobs s) []) by assumption.
  rewrite (load_models_asdict (trained_models s) []) by assumption.
  simpl. repeat split.
  intros clk tid ev. unfold step. cbn [threads with_trained_models with_training_jobs].
  now destruct tid.
Qed.

(** X5.  A record on which the constructor of [TrainingJob] raises (it
    is not an object, or has a key that is no field, or lacks a required
    field) ends the loading: the jobs before it are registered, the jobs
    after it and the whole catalog of models are not read, and the start
    goes on without them, with no worker and a live-job counter of 0. *)
Theorem bad_record_stops_loading
    (cfg : Config) (d : Disk) (good : list TrainingJob) (bad : json)
    (rest : list json) :
  jobs_file d = Some (JList (map job_asdict good ++ bad :: rest)) ->
  constructor_refuses bad = true ->
  let s := init cfg d in
  training_jobs s = fold_left (fun acc j => Dict.set (id j) j acc) good []
  /\ trained_models s = []
  /\ active_jobs s = 0
  /\ threads s = []
  /\ config s = cfg.
Proof.
  intros Hfile Hbad. unfold init, _load_state. cbn [disk training_jobs].
  rewrite Hfile, (load_jobs_stops good bad rest (constructor_refuses_spec bad Hbad)).
  simpl. repeat split.
Qed.

(** *** Deleting a model *)

Lemma del_absent {V} (k : string) (d : Dict.t V) :
  Dict.get k d = None -> Dict.del k d = d.
Proof.
  induction d as [|[k' v] r IH]; [reflexivity|]. simpl.
  destruct (String.eqb k' k); [discriminate|]. intros H. now rewrite (IH H).
Qed.

Lemma path_exists_parts s p :
  path_exists s p = false ->
  Dict.get p (model_files (disk s)) = None /\ Dict.get p (datasets (disk s)) = None.
Proof.
  unfold path_exists, Dict.mem.
  destruct (Dict.get p (model_files (disk s))); [discriminate|].
  destruct (Dict.get p (datasets (disk s))); [discriminate|]. now split.
Qed.

(** X6.  [delete_model] answers "not found" for a name that is not
    registered and changes nothing.  For a registered name whose file
    exists and cannot be removed it answers with the error of [os.remove]
    and changes nothing either: the model stays registered.  Otherwise it
    removes the model and its file, rewrites both catalogs, and leaves the
    jobs, the threads, the counter and the other models alone; the name is
    then free: a second deletion is "not found", and a submission under
    that name is no longer refused as a duplicate. *)
Theorem delete_model_outcomes (raised : option string) (n : string) (s : State) :
  (Dict.get n (trained_models s) = None ->
   delete_model raised n s = ((false, "Model '" ++ n ++ "' not found"), s))
  /\ (forall m msg,
        Dict.get n (trained_models s) = Some m ->
        path_exists s (mi_model_path m) = true ->
        raised = Some msg ->
        delete_model raised n s = ((false, "Error deleting model: " ++ msg), s))
  /\ (forall m,
        Dict.get n (trained_models s) = Some m ->
        path_exists s (mi_model_path m) = false \/ raised = None ->
        exists s',
          delete_model raised n s = ((true, "Model '" ++ n ++ "' deleted successfully"), s')
          /\ trained_models s' = Dict.del n (trained_models s)
          /\ model_files (disk s') = Dict.del (mi_model_path m) (model_files (disk s))
          /\ datasets (disk s') = Dict.del (mi_model_path m) (datasets (disk s))
          /\ jobs_file (disk s')
             = Some (JList (map job_asdict (Dict.values (training_jobs s))))
          /\ models_file (disk s')
             = Some (JList (map model_asdict (Dict.values (trained_models s'))))
          /\ training_jobs s' = training_jobs s /\ threads s' = threads s
          /\ active_jobs s' = active_jobs s
          /\ (forall n', n' <> n ->
                Dict.get n' (trained_models s') = Dict.get n' (trained_models s))
          /\ (NoDup (Dict.keys (trained_models s)) ->
              (forall raised',
                 delete_model raised' n s' = ((false, "Model '" ++ n ++ "' not found"), s'))
              /\ forall rq, rq_model_name rq = n ->
                            rejection fmt rq s' <> Some DuplicateModel)).
Proof.
  unfold delete_model. split; [|split].
  - intros ->. reflexivity.
  - intros m msg -> -> ->. reflexivity.
  - intros m -> Hcase.
    assert (Hnone : (if path_exists s (mi_model_path m) then raised else None) = None)
      by (destruct Hcase as [-> | ->]; [reflexivity|now destruct (path_exists _ _)]).
    rewrite Hnone. eexists. split; [reflexivity|].
    assert (Hfiles :
      model_files (disk (if path_exists s (mi_model_path m)
                         then with_disk (remove_file (config s) (mi_model_path m) (disk s)) s
                         else s))
      = Dict.del (mi_model_path m) (model_files (disk s))
      /\ datasets (disk (if path_exists s (mi_model_path m)
                         then with_disk (remove_file (config s) (mi_model_path m) (disk s)) s
                         else s))
         = Dict.del (mi_model_path m) (datasets (disk s))).
    { destruct (path_exists s (mi_model_path m)) eqn:E; [split; reflexivity|].
      destruct (path_exists_parts s _ E) as [H1 H2].
      now rewrite (del_absent _ _ H1), (del_absent _ _ H2). }
    destruct Hfiles as [Hmf Hds].
    cbn [trained_models training_jobs threads active_jobs disk model_files datasets
         jobs_file models_file _save_state with_disk with_trained_models].
    split; [now destruct (path_exists s (mi_model_path m))|].
    split; [exact Hmf|]. split; [exact Hds|].
    split; [now destruct (path_exists s (mi_model_path m))|].
    split; [now destruct (path_exists s (mi_model_path m))|].
    split; [now destruct (path_exists s (mi_model_path m))|].
    split; [now destruct (path_exists s (mi_model_path m))|].
    split; [now destruct (path_exists s (mi_model_path m))|].
    assert (Htm : trained_models
                    (if path_exists s (mi_model_path m)
                     then with_disk (remove_file (config s) (mi_model_path m) (disk s)) s
                     else s) = trained_models s)
      by now destruct (path_exists s (mi_model_path m)).
    rewrite Htm.
    split; [intros n' Hn'; now apply DictFacts.get_del_other|].
    intros Hnd. split.
    + intros raised'. rewrite (get_del_same n _ Hnd). reflexivity.
    + intros rq Hn E. unfold rejection in E. subst n.
      destruct (negb (Str.truthy (Str.strip (rq_model_name rq)))); [discriminate|].
      unfold Dict.mem in E.
      cbn [trained_models _save_state with_disk with_trained_models] in E.
      rewrite (get_del_same _ _ Hnd) in E.
      destruct (max_concurrent_jobs _ <=? _); [discriminate|].
      destruct (negb _); discriminate.
Qed.

(** *** Validation of a dataset *)

Lemma validate_dataset_cases (s : State) (p : string) (f : DatasetFile) :
  p <> EmptyString -> file_view fmt s p = Some f ->
  validate_dataset fmt s p
  = match size_error f with
    | Some msg => (false, "Validation error: " ++ msg, None)
    | None =>
        if max_file_size (config s) <? file_size f then
          (false,
           "File too large. Max size: "
             ++ format_1f fmt (Float.div (Float.truediv (max_file_size (config s)) 1024)
                                         (Float.of_int 1024))
             ++ "MB", None)
        else if negb (Str.mem (Str.lower (Path.splitext_ext p))
                        (supported_formats (config s))) then
          (false, "Unsupported format. Supported: "
                    ++ join_comma (supported_formats (config s)), None)
        else (true, "Dataset validated successfully",
              Some (_analyze_dataset f (Str.lower (Path.splitext_ext p))))
    end.
Proof.
  intros Hp Hf. unfold validate_dataset.
  destruct p; [contradiction|]. cbn [Str.truthy]. rewrite Hf. reflexivity.
Qed.

(** X7.  [validate_dataset] accepts a path exactly when it is not empty,
    a file exists under it, the size of the file can be read and is not
    larger than [max_file_size], and its extension, put in lower case, is
    one of the supported formats.  The file may be any file that
    [os.path.exists] sees, a catalog of the orchestrator as well as an
    uploaded dataset: the jobs catalog is a JSON file with one item for each
    job.  The tests are made in that order: a missing file is reported as
    such whatever its name, an error of [os.path.getsize] as a validation
    error, and a file that is too large as too large whatever its format.
    Only an accepted file is analysed. *)
Theorem validate_dataset_decision (s : State) (p : string) :
  (fst (fst (validate_dataset fmt s p)) = true
   <-> p <> EmptyString
       /\ exists f, file_view fmt s p = Some f
                    /\ size_error f = None
                    /\ file_size f <= max_file_size (config s)
                    /\ Str.mem (Str.lower (Path.splitext_ext p))
                         (supported_formats (config s)) = true)
  /\ (path_exists s p = true <-> exists f, file_view fmt s p = Some f)
  /\ (forall l,
        p = Path.join (logs_directory (config s)) "training_jobs.json" ->
        jobs_file (disk s) = Some (JList l) ->
        exists f, file_view fmt s p = Some f
                  /\ json_items f = Some (Z.of_nat (List.length l)))
  /\ (p = EmptyString \/ path_exists s p = false ->
      validate_dataset fmt s p = (false, "File does not exist", None))
  /\ (forall f, p <> EmptyString -> file_view fmt s p = Some f ->
        (forall msg, size_error f = Some msg ->
           validate_dataset fmt s p = (false, "Validation error: " ++ msg, None))
        /\ (size_error f = None -> max_file_size (config s) < file_size f ->
            fst (fst (validate_dataset fmt s p)) = false
            /\ snd (validate_dataset fmt s p) = None
            /\ exists size, snd (fst (validate_dataset fmt s p))
                            = "File too large. Max size: " ++ size ++ "MB")
        /\ (size_error f = None -> file_size f <= max_file_size (config s) ->
            Str.mem (Str.lower (Path.splitext_ext p)) (supported_formats (config s))
            = false ->
            validate_dataset fmt s p
            = (false,
               "Unsupported format. Supported: "
                 ++ join_comma (supported_formats (config s)), None))
        /\ (size_error f = None -> file_size f <= max_file_size (config s) ->
            Str.mem (Str.lower (Path.splitext_ext p)) (supported_formats (config s))
            = true ->
            validate_dataset fmt s p
            = (true, "Dataset validated successfully",
               Some (_analyze_dataset f (Str.lower (Path.splitext_ext p)))))).
Proof.
  pose proof (validate_dataset_cases s p) as Hcases.
  assert (Hmiss : p = EmptyString \/ path_exists s p = false ->
                  validate_dataset fmt s p = (false, "File does not exist", None)).
  { intros [->|Hn]; [reflexivity|]. now apply validate_missing_file. }
  split; [|split; [|split; [|split; [exact Hmiss|]]]].
  - split.
    + intros Hok.
      destruct p as [|c r]; [discriminate Hok|]. split; [discriminate|].
      destruct (file_view fmt s (String c r)) as [f|] eqn:Hf.
      2:{ rewrite Hmiss in Hok; [discriminate Hok|right].
          rewrite file_view_exists, Hf. reflexivity. }
      exists f. split; [reflexivity|].
      rewrite (Hcases f ltac:(discriminate) eq_refl) in Hok.
      destruct (size_error f); [discriminate Hok|]. split; [reflexivity|].
      destruct (Z.ltb_spec (max_file_size (config s)) (file_size f));
        [discriminate Hok|].
      destruct (Str.mem _ _); [split; [lia|reflexivity]|discriminate Hok].
    + intros (Hp & f & Hf & Herr & Hsz & Hext). rewrite (Hcases f Hp Hf), Herr.
      destruct (Z.ltb_spec (max_file_size (config s)) (file_size f)); [lia|].
      rewrite Hext. reflexivity.
  - rewrite file_view_exists. destruct (file_view fmt s p) as [f|].
    + split; [intros _; now exists f|reflexivity].
    + split; [discriminate|intros [f Hf]; discriminate Hf].
  - intros l Hp Hjobs. unfold file_view. rewrite <- Hp, String.eqb_refl, Hjobs.
    eexists. split; [reflexivity|reflexivity].
  - intros f Hp Hf. rewrite (Hcases f Hp Hf). split; [|split; [|split]].
    + intros msg ->. reflexivity.
    + intros -> Hsz.
      destruct (Z.ltb_spec (max_file_size (config s)) (file_size f)); [|lia].
      split; [reflexivity|]. split; [reflexivity|]. eexists. reflexivity.
    + intros -> Hsz Hext.
      destruct (Z.ltb_spec (max_file_size (config s)) (file_size f)); [lia|].
      rewrite Hext. reflexivity.
    + intros -> Hsz Hext.
      destruct (Z.ltb_spec (max_file_size (config s)) (file_size f)); [lia|].
      rewrite Hext. reflexivity.
Qed.

(** X8.  The metadata of an accepted dataset carries the size of the
    file and its lower-case extension, which is a supported format.  The
    sample count is at most 1000 for [.csv] and [.jsonl] files, which are
    sampled, and it is 0 for a format that has no reader (as [.parquet])
    and whenever the reader of the format fails. *)
Theorem accepted_dataset_metadata (s : State) (p : string) (md : Metadata) :
  validate_dataset fmt s p = (true, "Dataset validated successfully", Some md) ->
  exists f,
    file_view fmt s p = Some f
    /\ size_error f = None
    /\ md_file_size md = file_size f
    /\ md_file_format md = Str.lower (Path.splitext_ext p)
    /\ Str.mem (md_file_format md) (supported_formats (config s)) = true
    /\ (md_file_format md = ".csv" \/ md_file_format md = ".jsonl" ->
        md_num_samples md <= 1000)
    /\ (md_file_format md <> ".csv" -> md_file_format md <> ".json" ->
        md_file_format md <> ".jsonl" -> md_file_format md <> ".txt" ->
        md_num_samples md = 0)
    /\ (md_file_format md = ".csv" -> csv_rows f = None -> md_num_samples md = 0)
    /\ (md_file_format md = ".json" -> json_items f = None -> md_num_samples md = 0)
    /\ (md_file_format md = ".jsonl" \/ md_file_format md = ".txt" ->
        text_lines f = None -> md_num_samples md = 0).
Proof.
  unfold validate_dataset.
  destruct (if Str.truthy p then file_view fmt s p else None)
    as [f|] eqn:Hf; [|discriminate].
  destruct (size_error f) eqn:Herr; [discriminate|].
  destruct (max_file_size (config s) <? file_size f); [discriminate|].
  destruct (Str.mem (Str.lower (Path.splitext_ext p)) (supported_formats (config s)))
    eqn:Hext; [|discriminate].
  cbn [negb]. intros E. injection E as <-.
  exists f. split; [destruct (Str.truthy p); [exact Hf|discriminate Hf]|].
  split; [exact Herr|].
  cbn [md_file_size md_file_format md_num_samples _analyze_dataset].
  set (ext := Str.lower (Path.splitext_ext p)) in *.
  split; [reflexivity|]. split; [reflexivity|]. split; [exact Hext|].
  repeat split.
  - intros [->| ->]; cbn.
    + destruct (csv_rows f); lia.
    + destruct (text_lines f); lia.
  - intros H1 H2 H3 H4.
    destruct (String.eqb_spec ext ".csv"); [contradiction|].
    destruct (String.eqb_spec ext ".json"); [contradiction|].
    destruct (String.eqb_spec ext ".jsonl"); [contradiction|].
    destruct (String.eqb_spec ext ".txt"); [contradiction|]. reflexivity.
  - intros -> ->. reflexivity.
  - intros -> ->. reflexivity.
  - intros [->| ->] ->; reflexivity.
Qed.

(** *** Single blocks of a worker *)

Lemma step_work clk tid ev t s :
  nth_error (threads s) tid = Some t ->
  step fmt clk (Work tid ev) s
  = if is_sim_pc (th_pc t) then sim_worker fmt clk ev tid (th_job_id t) (th_pc t) s
    else real_worker fmt clk ev tid (th_job_id t) (th_pc t) s.
Proof. intros Hth. unfold step. now rewrite Hth. Qed.

Lemma goto_thread tid pc t s :
  nth_error (threads s) tid = Some t ->
  nth_error (threads (goto tid pc s)) tid
  = Some {| th_job_id := th_job_id t; th_pc := pc |}.
Proof. intros Hth. cbn [goto threads with_threads]. now apply set_nth_pc_same. Qed.

Lemma update_job_get k f job s :
  Dict.get k (training_jobs s) = Some job ->
  Dict.get k (training_jobs (update_job k f s)) = Some (f job).
Proof.
  intros Hget. cbn [update_job training_jobs with_training_jobs].
  now rewrite DictFacts.get_modify_same, Hget.
Qed.

(** *** Cancellations that come too late *)

(** X9.  Under the simulated worker the cancellation flag is read at the
    head of each step only.  A cancellation that is accepted during the
    last step of the last epoch is therefore lost: the worker finishes the
    step, leaves the loops and marks the job [completed], with progress 100
    and its model registered. *)
Theorem late_cancellation_is_overwritten
    (s : State) (tid : nat) (k : string) (job : TrainingJob) (epoch : Z)
    (clk1 clk2 clk3 : Clock) :
  nth_error (threads s) tid = Some {| th_job_id := k; th_pc := SimSleep epoch 9 |} ->
  Dict.get k (training_jobs s) = Some job ->
  status job = status_training ->
  epochs job <= epoch + 1 ->
  let s1 := snd (cancel_training clk1 k s) in
  let s3 := run fmt [(clk2, Work tid Tick); (clk3, Work tid Tick)] s1 in
  fst (cancel_training clk1 k s)
  = (true, "Training job " ++ k ++ " cancelled successfully")
  /\ status_at s1 k = status_cancelled
  /\ (exists job3,
        Dict.get k (training_jobs s3) = Some job3
        /\ status job3 = status_completed /\ progress job3 = 100
        /\ end_time job3 = Some (isoformat clk3))
  /\ Dict.mem (model_name job) (trained_models s3) = true.
Proof.
  intros Hth Hget Hst Hep s1 s3.
  set (job1 := append_log ("Training cancelled at " ++ strftime clk1)
                 (set_status status_cancelled job)).
  assert (Hc : cancel_training clk1 k s
               = ((true, "Training job " ++ k ++ " cancelled successfully"),
                  _save_state (update_job k (fun j =>
                     append_log ("Training cancelled at " ++ strftime clk1)
                       (set_status status_cancelled j)) s))).
  { unfold cancel_training. rewrite Hget, Hst. reflexivity. }
  assert (Hth1 : nth_error (threads s1) tid
                 = Some {| th_job_id := k; th_pc := SimSleep epoch 9 |})
    by (unfold s1; rewrite Hc; exact Hth).
  assert (Hget1 : Dict.get k (training_jobs s1) = Some job1).
  { unfold s1. rewrite Hc. cbn [snd _save_state training_jobs with_disk].
    exact (update_job_get _ _ _ _ Hget). }
  split; [now rewrite Hc|]. split; [unfold status_at; now rewrite Hget1|].
  set (s2 := step fmt clk2 (Work tid Tick) s1).
  assert (Hs2 : exists job2,
             nth_error (threads s2) tid
             = Some {| th_job_id := k; th_pc := SimLoop (epoch + 1) 0 |}
             /\ Dict.get k (training_jobs s2) = Some job2
             /\ epochs job2 = epochs job /\ model_name job2 = model_name job).
  { unfold s2. rewrite (step_work _ _ _ _ _ Hth1). cbn [is_sim_pc th_pc th_job_id].
    unfold sim_worker. rewrite Hget1. cbn [sim_next Z.ltb Z.compare Z.eqb Z.modulo].
    change (9 <? 9) with false. change (9 mod 3 =? 0) with true. cbv iota.
    eexists. split; [apply (goto_thread _ _ _ _ Hth1)|].
    cbn [goto training_jobs with_threads].
    split.
    - exact (update_job_get _ _ _ _ (update_job_get _ _ _ _ Hget1)).
    - split; reflexivity. }
  destruct Hs2 as (job2 & Hth2 & Hget2 & Hep2 & Hmn2).
  assert (Hs3 : s3 = goto tid SimWrite (sim_complete clk3 k job2 s2)).
  { unfold s3. cbn [run]. fold s2. rewrite (step_work _ _ _ _ _ Hth2).
    cbn [is_sim_pc th_pc th_job_id]. unfold sim_worker. rewrite Hget2.
    destruct (Z.leb_spec (epochs job2) (epoch + 1)); [reflexivity|lia]. }
  split.
  - eexists. rewrite Hs3. state_simpl. rewrite DictFacts.get_modify_same, Hget2.
    cbn [option_map]. split; [reflexivity|]. repeat split.
  - rewrite Hs3. state_simpl. unfold Dict.mem. rewrite Hmn2.
    now rewrite DictFacts.get_set_same.
Qed.

(** X10.  Under the trainer-backed worker a cancellation only asks the
    trainer to stop.  When [trainer.train()] then returns instead of
    raising, the worker goes on: it evaluates the model and marks the
    cancelled job [completed], with progress 100 and an end time. *)
Theorem cancelled_trainer_run_completes
    (s : State) (tid : nat) (k : string) (job : TrainingJob)
    (clk1 clk2 clk3 clk4 : Clock) (final_metrics : string) :
  nth_error (threads s) tid = Some {| th_job_id := k; th_pc := RealTraining |} ->
  Dict.get k (training_jobs s) = Some job ->
  status job = status_training ->
  let s1 := snd (cancel_training clk1 k s) in
  let s4 := run fmt [(clk2, Work tid OnStepBegin); (clk3, Work tid Returned);
                     (clk4, Work tid (EvaluateReturned final_metrics))] s1 in
  fst (cancel_training clk1 k s)
  = (true, "Training job " ++ k ++ " cancelled successfully")
  /\ status_at s1 k = status_cancelled
  /\ exists job4,
       Dict.get k (training_jobs s4) = Some job4
       /\ status job4 = status_completed /\ progress job4 = 100
       /\ end_time job4 = Some (isoformat clk4)
       /\ In "Cancellation signal received. Stopping training." (logs job4).
Proof.
  intros Hth Hget Hst s1 s4.
  set (job1 := append_log ("Training cancelled at " ++ strftime clk1)
                 (set_status status_cancelled job)).
  assert (Hc : cancel_training clk1 k s
               = ((true, "Training job " ++ k ++ " cancelled successfully"),
                  _save_state (update_job k (fun j =>
                     append_log ("Training cancelled at " ++ strftime clk1)
                       (set_status status_cancelled j)) s))).
  { unfold cancel_training. rewrite Hget, Hst. reflexivity. }
  assert (Hth1 : nth_error (threads s1) tid
                 = Some {| th_job_id := k; th_pc := RealTraining |})
    by (unfold s1; rewrite Hc; exact Hth).
  assert (Hget1 : Dict.get k (training_jobs s1) = Some job1).
  { unfold s1. rewrite Hc. cbn [snd _save_state training_jobs with_disk].
    exact (update_job_get _ _ _ _ Hget). }
  split; [now rewrite Hc|]. split; [unfold status_at; now rewrite Hget1|].
  set (job2 := append_log "Cancellation signal received. Stopping training." job1).
  set (s2 := step fmt clk2 (Work tid OnStepBegin) s1).
  assert (Hs2 : s2 = update_job k
                       (append_log "Cancellation signal received. Stopping training.") s1).
  { unfold s2. rewrite (step_work _ _ _ _ _ Hth1). cbn [is_sim_pc th_pc th_job_id].
    unfold real_worker. rewrite Hget1. reflexivity. }
  assert (Hth2 : nth_error (threads s2) tid
                 = Some {| th_job_id := k; th_pc := RealTraining |})
    by (rewrite Hs2; exact Hth1).
  assert (Hget2 : Dict.get k (training_jobs s2) = Some job2)
    by (rewrite Hs2; exact (update_job_get _ _ _ _ Hget1)).
  set (job3 := append_log "Training process finished. Evaluating final model..." job2).
  set (s3 := step fmt clk3 (Work tid Returned) s2).
  assert (Hs3 : s3 = goto tid RealEvaluate
                       (update_job k
                          (append_log "Training process finished. Evaluating final model...")
                          s2)).
  { unfold s3. rewrite (step_work _ _ _ _ _ Hth2). cbn [is_sim_pc th_pc th_job_id].
    unfold real_worker. rewrite Hget2. reflexivity. }
  assert (Hth3 : nth_error (threads s3) tid
                 = Some {| th_job_id := k; th_pc := RealEvaluate |})
    by (rewrite Hs3; apply (goto_thread _ _ _ _ Hth2)).
  assert (Hget3 : Dict.get k (training_jobs s3) = Some job3)
    by (rewrite Hs3; cbn [goto training_jobs with_threads];
        exact (update_job_get _ _ _ _ Hget2)).
  eexists. split.
  - unfold s4. cbn [run]. fold s2. fold s3.
    rewrite (step_work _ _ _ _ _ Hth3). cbn [is_sim_pc th_pc th_job_id].
    unfold real_worker. rewrite Hget3. cbn [goto training_jobs with_threads].
    exact (update_job_get _ _ _ _ Hget3).
  - cbn [status progress end_time logs set_progress set_end_time set_status append_log].
    do 3 (split; [reflexivity|]).
    unfold job3, job2. cbn [logs append_log].
    rewrite !in_app_iff. left. left. right. now left.
Qed.

(** *** Failures before and after training *)

(** X11.  In every reachable state, an exception while the trainer-backed
    worker loads the tokenizer, the model or the dataset makes the job
    [failed], with the text of the exception as [error_message] and the end
    time stamped; the worker returns and gives its slot back. *)
Theorem setup_failure_fails_job
    (cfg : Config) (files : Dict.t DatasetFile) (s : State) (clk : Clock)
    (tid : nat) (k : string) (job : TrainingJob)
    (stage : nat) (n_train n_val : Z) (msg : string) :
  reachable fmt cfg files s ->
  nth_error (threads s) tid = Some {| th_job_id := k; th_pc := RealSetup |} ->
  Dict.get k (training_jobs s) = Some job ->
  let s' := step fmt clk (Work tid (SetupRaised stage n_train n_val msg)) s in
  status job = status_initializing
  /\ (exists job',
        Dict.get k (training_jobs s') = Some job'
        /\ status job' = status_failed
        /\ error_message job' = Some msg
        /\ end_time job' = Some (isoformat clk)
        /\ logs job'
           = (logs job ++ firstn stage (setup_logs job n_train n_val)
                ++ [("Training failed unexpectedly: " ++ msg)%string])%list)
  /\ nth_error (threads s') tid = Some {| th_job_id := k; th_pc := RealDone |}
  /\ active_jobs s' = active_jobs s - 1
  /\ trained_models s' = trained_models s.
Proof.
  intros Hr Hth Hget s'. pose proof (reachable_inv _ _ _ Hr) as HI.
  destruct (inv_local s HI tid _ job Hth Hget) as [_ Hloc].
  cbn [th_pc local_ok] in Hloc. destruct Hloc as (Hst & Het & Hem).
  split; [exact Hst|].
  assert (Hs' : s' = goto tid RealDone
                       (real_finally clk k
                          (real_except msg k
                             (update_job k
                                (append_logs (firstn stage (setup_logs job n_train n_val)))
                                s)))).
  { unfold s'. rewrite (step_work _ _ _ _ _ Hth). cbn [is_sim_pc th_pc th_job_id].
    unfold real_worker. rewrite Hget. reflexivity. }
  rewrite Hs'. split; [|split; [apply (goto_thread _ _ _ _ Hth)|split; reflexivity]].
  eexists. split.
  - state_simpl. rewrite !DictFacts.get_modify_same, Hget. cbn [option_map]. reflexivity.
  - set (l := firstn stage (setup_logs job n_train n_val)).
    destruct (append_logs_fields l job) as (_ & _ & Hs1 & _ & He1 & Hm1).
    rewrite Hs1, Hst. change (String.eqb status_initializing status_cancelled) with false.
    cbv iota.
    cbn [end_time set_error_message set_status append_log]. rewrite He1, Het.
    cbn [truthy_opt]. cbv iota.
    cbn [status error_message end_time logs set_end_time set_error_message set_status
         append_log].
    do 3 (split; [reflexivity|]).
    assert (Hl : forall l0 j, logs (append_logs l0 j) = (logs j ++ l0)%list).
    { induction l0 as [|x r IH]; intros j; cbn [append_logs fold_left].
      - now rewrite app_nil_r.
      - unfold append_logs in IH. rewrite IH. cbn [logs append_log].
        now rewrite <- app_assoc. }
    rewrite Hl. now rewrite <- app_assoc.
Qed.

(** X12.  [start_training] does not check the number of epochs.  A job of
    no (or a negative number of) epochs is completed by the simulated worker
    in its first two blocks: its progress goes from 0 to 100 and its model is
    registered although no training step has run. *)
Theorem job_without_epochs_completes_at_once
    (s : State) (tid : nat) (k : string) (job : TrainingJob) (clk1 clk2 : Clock) :
  nth_error (threads s) tid = Some {| th_job_id := k; th_pc := SimSpawned |} ->
  Dict.get k (training_jobs s) = Some job ->
  epochs job <= 0 ->
  let s2 := run fmt [(clk1, Work tid Tick); (clk2, Work tid Tick)] s in
  (exists job2,
     Dict.get k (training_jobs s2) = Some job2
     /\ status job2 = status_completed /\ progress job2 = 100
     /\ logs job2
        = (logs job ++ ["Training started..."; "Training completed successfully!"])%list)
  /\ Dict.mem (model_name job) (trained_models s2) = true
  /\ nth_error (threads s2) tid = Some {| th_job_id := k; th_pc := SimWrite |}.
Proof.
  intros Hth Hget Hep s2.
  set (job1 := append_log "Training started..." (set_status status_training job)).
  set (s1 := goto tid (SimLoop 0 0) (update_job k (fun j =>
               append_log "Training started..." (set_status status_training j)) s)).
  assert (Hs1 : step fmt clk1 (Work tid Tick) s = s1).
  { rewrite (step_work _ _ _ _ _ Hth). cbn [is_sim_pc th_pc th_job_id].
    unfold sim_worker. rewrite Hget. reflexivity. }
  assert (Hth1 : nth_error (threads s1) tid = Some {| th_job_id := k; th_pc := SimLoop 0 0 |})
    by (apply (goto_thread _ _ _ _ Hth)).
  assert (Hget1 : Dict.get k (training_jobs s1) = Some job1)
    by (unfold s1; cbn [goto training_jobs with_threads];
        exact (update_job_get _ _ _ _ Hget)).
  assert (Hs2 : s2 = goto tid SimWrite (sim_complete clk2 k job1 s1)).
  { unfold s2. cbn [run]. rewrite Hs1. rewrite (step_work _ _ _ _ _ Hth1).
    cbn [is_sim_pc th_pc th_job_id]. unfold sim_worker. rewrite Hget1.
    change (epochs job1) with (epochs job).
    destruct (Z.leb_spec (epochs job) 0); [reflexivity|lia]. }
  split.
  { eexists. rewrite Hs2. state_simpl. rewrite DictFacts.get_modify_same, Hget1.
    cbn [option_map]. split; [reflexivity|]. do 2 (split; [reflexivity|]).
    unfold job1. cbn [logs append_log set_progress set_end_time set_status].
    now rewrite <- app_assoc. }
  split.
  { rewrite Hs2. state_simpl. unfold Dict.mem.
    change (model_name job1) with (model_name job).
    now rewrite DictFacts.get_set_same. }
  rewrite Hs2. apply (goto_thread _ _ _ _ Hth1).
Qed.

(** *** The registry of models *)

Lemma step_job_static clk l s k job :
  Inv s -> Dict.get k (training_jobs s) = Some job ->
  exists job', Dict.get k (training_jobs (step fmt clk l s)) = Some job'
               /\ id job' = id job /\ model_name job' = model_name job.
Proof.
  intros HI Hget. destruct l as [kind rq| |job_id|n raised|tid ev]; cbn [step].
  - destruct (admission_cases kind clk rq s) as [[-> _]|(job0 & E & _)].
    + exists job. auto.
    + rewrite E. cbn [snd training_jobs]. exists job.
      rewrite DictFacts.get_set_other; [auto|].
      intros E'. pose proof (new_job_id_fresh clk s HI). congruence.
  - destruct (commit_frame s) as (-> & _). exists job. auto.
  - destruct (String.eqb_spec k job_id) as [->|Hne].
    + pose proof (cancel_training_cases clk job_id s) as H. rewrite Hget in H.
      destruct (String.eqb (status job) status_pending
                || String.eqb (status job) status_training).
      * destruct H as (s' & -> & Hg & _). cbn [snd]. rewrite Hg.
        eexists. split; [reflexivity|split; reflexivity].
      * rewrite H. cbn [snd]. exists job. auto.
    + destruct (cancel_frame clk job_id s) as (_ & _ & _ & _ & _ & Ho).
      rewrite (Ho k Hne). exists job. auto.
  - destruct (delete_frame raised n s) as (-> & _). exists job. auto.
  - destruct (nth_error (threads s) tid) as [t|] eqn:Hth; [|exists job; auto].
    destruct (work_effect clk tid ev t s HI Hth) as (job0 & Hget0 & HW).
    unfold step in HW. rewrite Hth in HW.
    destruct (String.eqb_spec k (th_job_id t)) as [->|Hne].
    + rewrite Hget in Hget0. injection Hget0 as <-.
      destruct (we_job _ _ _ _ _ HW) as (job' & pc' & Hg & _ & _ & _ & _ & Hi & Hm & _).
      exists job'. auto.
    + rewrite (we_others _ _ _ _ _ HW k Hne). exists job. auto.
Qed.

Lemma step_finished_job clk l s k job :
  Inv s -> Dict.get k (training_jobs s) = Some job ->
  status job = status_completed \/ status job = status_failed ->
  exists job', Dict.get k (training_jobs (step fmt clk l s)) = Some job'
               /\ model_name job' = model_name job
               /\ (status job' = status_completed \/ status job' = status_failed).
Proof.
  intros HI Hget Hst.
  destruct (step_job_static clk l s k job HI Hget) as (job' & Hget' & _ & Hmn).
  exists job'. split; [exact Hget'|]. split; [exact Hmn|].
  destruct (step_status_change clk l s k job job' HI Hget Hget')
    as [->|[(_ & Hc)|(tid & ev & t & _ & _ & _ & [He|Ho])]]; [exact Hst| | |].
  - exfalso. destruct Hst as [E|E]; rewrite E in Hc; inversion Hc.
  - exfalso. destruct Hst as [E|E]; rewrite E in He; inversion He.
  - destruct Hst as [E|E]; rewrite E in Ho; inversion Ho; now right.
Qed.

(** The registry changes in two places only: the block in which the
    simulated worker completes a job, and [delete_model]. *)
Lemma work_registry clk tid ev t job s :
  nth_error (threads s) tid = Some t ->
  Dict.get (th_job_id t) (training_jobs s) = Some job ->
  let s' := step fmt clk (Work tid ev) s in
  trained_models s' = trained_models s
  \/ (trained_models s'
      = Dict.set (model_name job)
          (sim_model_info (config s) (th_job_id t) job (isoformat clk))
          (trained_models s)
      /\ exists job', Dict.get (th_job_id t) (training_jobs s') = Some job'
                      /\ status job' = status_completed
                      /\ model_name job' = model_name job).
Proof.
  intros Hth Hget s'. unfold s'. rewrite (step_work _ _ _ _ _ Hth).
  destruct t as [k pc]. cbn [th_job_id th_pc] in *.
  destruct pc; cbn [is_sim_pc]; destruct ev; unfold sim_worker, real_worker;
    cbv zeta; rewrite Hget; try (left; reflexivity);
    repeat match goal with
           | |- context [if ?c then _ else _] => destruct c
           end;
    try (left; reflexivity).
  right. split; [reflexivity|].
  eexists. state_simpl. rewrite DictFacts.get_modify_same, Hget. cbn [option_map].
  split; [reflexivity|split; reflexivity].
Qed.

Lemma step_registry clk l s n m :
  Inv s ->
  Dict.get n (trained_models (step fmt clk l s)) = Some m ->
  Dict.get n (trained_models s) = Some m
  \/ exists k job job',
       Dict.get k (training_jobs s) = Some job
       /\ n = model_name job
       /\ m = sim_model_info (config s) k job (isoformat clk)
       /\ Dict.get k (training_jobs (step fmt clk l s)) = Some job'
       /\ status job' = status_completed
       /\ model_name job' = model_name job.
Proof.
  intros HI. destruct l as [kind rq| |job_id|n0 raised|tid ev]; cbn [step].
  - destruct (admission_cases kind clk rq s) as [[-> _]|(job0 & -> & _)]; now left.
  - destruct (commit_frame s) as (_ & _ & -> & _). now left.
  - destruct (cancel_frame clk job_id s) as (_ & _ & -> & _). now left.
  - pose proof (delete_model_cases raised n0 s) as Hd.
    destruct (Dict.get n0 (trained_models s)) as [m0|] eqn:E0;
      [|rewrite Hd; now left].
    destruct (if path_exists s (mi_model_path m0) then raised else None);
      [rewrite Hd; now left|].
    destruct Hd as [_ ->].
    destruct (inv_models s HI) as [Hnd _].
    destruct (String.eqb_spec n n0) as [->|Hne].
    + rewrite (get_del_same _ _ Hnd). discriminate.
    + rewrite DictFacts.get_del_other by congruence. now left.
  - destruct (nth_error (threads s) tid) as [t|] eqn:Hth.
    + destruct (inv_thread_job s tid t HI Hth) as (job & Hget & _).
      pose proof (work_registry clk tid ev t job s Hth Hget) as Hw.
      unfold step in Hw. rewrite Hth in Hw. cbv zeta in Hw.
      destruct Hw as [->|[-> (job' & Hg' & Hs' & Hm')]]; [now left|].
      destruct (String.eqb_spec n (model_name job)) as [->|Hne].
      * rewrite DictFacts.get_set_same. intros [= <-]. right.
        exists (th_job_id t), job, job'. repeat split; assumption.
      * rewrite DictFacts.get_set_other by congruence. now left.
    + now left.
Qed.

Lemma registry_step clk l s : Inv s -> registry_ok s -> registry_ok (step fmt clk l s).
Proof.
  intros HI Hok n m Hget.
  destruct (step_config_active clk l s HI) as [Hcfg _].
  destruct (step_registry clk l s n m HI Hget)
    as [Hold|(k & job & job' & Hk & -> & -> & Hk' & Hst' & Hmn')].
  - destruct (Hok n m Hold) as (H1 & H2 & H3 & H4 & H5 & job & Hj & Hmn & Hst).
    destruct (step_finished_job clk l s _ job HI Hj Hst) as (job' & Hj' & Hmn' & Hst').
    unfold registered_by_worker. rewrite Hcfg.
    repeat (split; [assumption|]).
    exists job'. split; [exact Hj'|]. split; [congruence|exact Hst'].
  - unfold registered_by_worker. rewrite Hcfg.
    cbn [name mi_model_path dataset_info performance_metrics model_size
         training_job_id sim_model_info].
    split; [reflexivity|]. split; [reflexivity|]. split; [eexists; reflexivity|].
    split; [reflexivity|]. split; [reflexivity|].
    exists job'. split; [exact Hk'|]. split; [exact Hmn'|now left].
Qed.

Lemma registry_run tr : forall s, Inv s -> registry_ok s -> registry_ok (run fmt tr s).
Proof.
  induction tr as [|[clk l] r IH]; intros s HI Hok; [exact Hok|].
  cbn [run]. apply IH; [now apply inv_step|now apply registry_step].
Qed.

Lemma reachable_registry cfg files s : reachable fmt cfg files s -> registry_ok s.
Proof.
  intros [tr ->]. apply registry_run; [apply inv_fresh|].
  intros n m H. discriminate H.
Qed.

(** X13.  In every reachable state each registered model is registered
    under its own name, points to its file in the models directory, carries
    the size and the metrics that the simulation hard-codes (50 MB, accuracy
    0.95, loss 0.05), and names a job that exists, has the same model name,
    and is [completed] or (after a failed write of the model file)
    [failed]. *)
Theorem registered_models_come_from_jobs
    (cfg : Config) (files : Dict.t DatasetFile) (s : State)
    (n : string) (m : ModelInfo) :
  reachable fmt cfg files s ->
  Dict.get n (trained_models s) = Some m ->
  name m = n
  /\ mi_model_path m = Path.join (models_directory cfg) (n ++ ".model")
  /\ performance_metrics m = [ ("accuracy", Float.lit_0_95); ("loss", Float.lit_0_05) ]
  /\ model_size m = 50 * 1024 * 1024
  /\ exists job,
       Dict.get (training_job_id m) (training_jobs s) = Some job
       /\ model_name job = n
       /\ (status job = status_completed \/ status job = status_failed).
Proof.
  intros Hr Hget.
  destruct (reachable_registry cfg files s Hr n m Hget)
    as (H1 & H2 & _ & H4 & H5 & H6).
  rewrite (reachable_config cfg files s Hr) in H2. repeat split; assumption.
Qed.

(** *** Testing, exporting and listing models *)

Variable rnd : Rendering.

Lemma last_char_app (a b : string) :
  b <> EmptyString -> last_char (a ++ b) = last_char b.
Proof.
  intros Hb. induction a as [|c r IH]; [reflexivity|].
  cbn [String.append last_char]. rewrite IH.
  destruct (r ++ b) eqn:E; [|reflexivity].
  destruct r; [cbn in E; contradiction|discriminate E].
Qed.

Lemma join_last_char (a b : string) :
  b <> EmptyString -> last_char (Path.join a b) = last_char b.
Proof.
  intros Hb. unfold Path.join.
  destruct (Str.starts_with_slash b); [reflexivity|].
  destruct (negb (Str.truthy a) || Str.ends_with_slash a).
  - now apply last_char_app.
  - rewrite last_char_app; [now apply (last_char_app "/")|].
    destruct b; [contradiction|discriminate].
Qed.

(** The file of a model is not one of the two catalogs. *)
Lemma model_path_not_catalog (cfg : Config) (n dir : string) :
  Path.join (models_directory cfg) (n ++ ".model")
  <> Path.join dir "training_jobs.json"
  /\ Path.join (models_directory cfg) (n ++ ".model")
     <> Path.join dir "trained_models.json".
Proof.
  assert (Hl : last_char (Path.join (models_directory cfg) (n ++ ".model")) = Some "l"%char).
  { rewrite join_last_char; [|destruct n; discriminate].
    now rewrite last_char_app by discriminate. }
  split; intros E; rewrite E, join_last_char in Hl by discriminate; discriminate Hl.
Qed.

Lemma path_exists_model_file s p :
  Dict.mem p (model_files (disk s)) = true -> path_exists s p = true.
Proof. intros H. unfold path_exists. now rewrite H. Qed.

Lemma test_model_known (pick : Pick) (n input : string) (s : State) :
  n <> EmptyString -> input <> EmptyString ->
  test_model rnd pick n input s
  = match Dict.get n (trained_models s) with
    | None => "Model '" ++ n ++ "' not found. Available models: "
                ++ join_comma (Dict.keys (trained_models s))
    | Some m =>
        if path_exists s (mi_model_path m) then model_response rnd pick n input m
        else "Model file not found at " ++ mi_model_path m
    end.
Proof.
  intros Hn Hi. unfold test_model.
  destruct n; [contradiction|]. destruct input; [contradiction|]. cbn [Str.truthy negb orb].
  destruct (Dict.get _ _) as [m|]; [|reflexivity].
  now destruct (path_exists s (mi_model_path m)).
Qed.

(** X14.  When the simulated worker has left its loops, it marks the job
    [completed] and registers the model before it writes the model file.  If
    that write fails, the job becomes [failed] but the model stays
    registered: its name is refused to later submissions as a duplicate,
    although no model file exists, and [test_model] answers that the file
    of the model is not found. *)
Theorem failed_model_write_keeps_registration
    (s : State) (tid : nat) (k : string) (job : TrainingJob) (epoch step_no : Z)
    (clk1 clk2 : Clock) (msg : string) (pick : Pick) (input : string) :
  nth_error (threads s) tid = Some {| th_job_id := k; th_pc := SimLoop epoch step_no |} ->
  Dict.get k (training_jobs s) = Some job ->
  epochs job <= epoch ->
  let s2 := run fmt [(clk1, Work tid Tick); (clk2, Work tid (Raised msg))] s in
  let path := Path.join (models_directory (config s)) (model_name job ++ ".model") in
  (exists job2,
     Dict.get k (training_jobs s2) = Some job2
     /\ status job2 = status_failed /\ error_message job2 = Some msg
     /\ progress job2 = 100)
  /\ (exists m, Dict.get (model_name job) (trained_models s2) = Some m
                /\ training_job_id m = k /\ mi_model_path m = path)
  /\ model_files (disk s2) = model_files (disk s)
  /\ active_jobs s2 = active_jobs s - 1
  /\ (forall kind clk rq,
        rq_model_name rq = model_name job ->
        Str.truthy (Str.strip (rq_model_name rq)) = true ->
        start_training_with fmt kind clk rq s2
        = ((false, "Model '" ++ model_name job ++ "' already exists"), s2))
  /\ (path_exists s path = false ->
      model_name job <> EmptyString -> input <> EmptyString ->
      test_model rnd pick (model_name job) input s2
      = "Model file not found at " ++ path).
Proof.
  intros Hth Hget Hep s2 path.
  set (s1 := goto tid SimWrite (sim_complete clk1 k job s)).
  assert (Hs1 : step fmt clk1 (Work tid Tick) s = s1).
  { rewrite (step_work _ _ _ _ _ Hth). cbn [is_sim_pc th_pc th_job_id].
    unfold sim_worker. rewrite Hget.
    destruct (Z.leb_spec (epochs job) epoch); [reflexivity|lia]. }
  assert (Hth1 : nth_error (threads s1) tid = Some {| th_job_id := k; th_pc := SimWrite |})
    by (apply (goto_thread _ _ _ _ Hth)).
  assert (Hget1 : exists job1, Dict.get k (training_jobs s1) = Some job1).
  { eexists. unfold s1. state_simpl. rewrite DictFacts.get_modify_same, Hget.
    reflexivity. }
  destruct Hget1 as (job1 & Hget1).
  assert (Hs2 : s2 = goto tid SimDone (sim_finally (sim_except msg k s1))).
  { unfold s2. cbn [run]. rewrite Hs1. rewrite (step_work _ _ _ _ _ Hth1).
    cbn [is_sim_pc th_pc th_job_id]. unfold sim_worker. rewrite Hget1. reflexivity. }
  assert (Hreg : Dict.get (model_name job) (trained_models s2)
                 = Some (sim_model_info (config s) k job (isoformat clk1))).
  { rewrite Hs2. unfold s1. state_simpl. apply DictFacts.get_set_same. }
  split.
  { eexists. rewrite Hs2. unfold s1. state_simpl.
    rewrite !DictFacts.get_modify_same, Hget. cbn [option_map].
    split; [reflexivity|]. repeat split. }
  split; [eexists; split; [exact Hreg|split; reflexivity]|].
  split; [rewrite Hs2; reflexivity|]. split; [rewrite Hs2; reflexivity|].
  split.
  { intros kind clk rq Hn Htr. unfold start_training_with, admission.
    rewrite Htr. cbn [negb]. unfold Dict.mem. rewrite Hn, Hreg. reflexivity. }
  intros Hno Hn Hi.
  rewrite (test_model_known pick (model_name job) input s2 Hn Hi), Hreg.
  cbn [mi_model_path sim_model_info]. fold path.
  assert (Hex : path_exists s2 path = false).
  { destruct (model_path_not_catalog (config s) (model_name job)
                (logs_directory (config s))) as [Hj _].
    destruct (model_path_not_catalog (config s) (model_name job)
                (models_directory (config s))) as [_ Hm].
    fold path in Hj, Hm.
    unfold path_exists in Hno |- *.
    apply orb_false_iff in Hno as [Hno _]. apply orb_false_iff in Hno as [Hno _].
    apply orb_false_iff in Hno as [Hf Hd].
    rewrite Hs2. unfold s1. state_simpl. cbn [model_files datasets jobs_file models_file].
    rewrite Hf, Hd.
    destruct (String.eqb_spec path
                (Path.join (logs_directory (config s)) "training_jobs.json"));
      [contradiction|].
    destruct (String.eqb_spec path
                (Path.join (models_directory (config s)) "trained_models.json"));
      [contradiction|].
    reflexivity. }
  now rewrite Hex.
Qed.

(** X15.  [test_model] asks for both arguments first, then for a registered
    model, then for the file of the model, and only then answers with a
    simulated response.  After a successful [delete_model] the model is
    unknown to it and is no longer listed among the available ones; after a
    [delete_model] that failed on the file, the file is still there and
    [test_model] answers for the model as before. *)
Theorem test_model_answers (pick : Pick) (n input : string) (s : State) :
  (n = EmptyString \/ input = EmptyString ->
   test_model rnd pick n input s = "Please provide both model name and test input")
  /\ (n <> EmptyString -> input <> EmptyString ->
      (Dict.get n (trained_models s) = None ->
       test_model rnd pick n input s
       = "Model '" ++ n ++ "' not found. Available models: "
           ++ join_comma (Dict.keys (trained_models s)))
      /\ (forall m, Dict.get n (trained_models s) = Some m ->
            test_model rnd pick n input s
            = if path_exists s (mi_model_path m)
              then model_response rnd pick n input m
              else "Model file not found at " ++ mi_model_path m))
  /\ (forall m raised, NoDup (Dict.keys (trained_models s)) ->
        n <> EmptyString -> input <> EmptyString ->
        Dict.get n (trained_models s) = Some m ->
        let r := delete_model raised n s in
        (fst (fst r) = true ->
         test_model rnd pick n input (snd r)
         = "Model '" ++ n ++ "' not found. Available models: "
             ++ join_comma (Dict.keys (trained_models (snd r)))
         /\ ~ In n (Dict.keys (trained_models (snd r))))
        /\ (fst (fst r) = false ->
            (exists msg, raised = Some msg
                         /\ snd (fst r) = "Error deleting model: " ++ msg)
            /\ snd r = s
            /\ test_model rnd pick n input (snd r) = model_response rnd pick n input m)).
Proof.
  split; [|split].
  - intros [-> | ->]; unfold test_model; [reflexivity|].
    now destruct (Str.truthy n).
  - intros Hn Hi. rewrite (test_model_known pick n input s Hn Hi). split.
    + intros ->. reflexivity.
    + intros m ->. reflexivity.
  - intros m raised Hnd Hn Hi Hget r.
    pose proof (delete_model_cases raised n s) as Hd. rewrite Hget in Hd. fold r in Hd.
    destruct (path_exists s (mi_model_path m)) eqn:Hex;
      [destruct raised as [msg|]|].
    + rewrite Hd. cbn [fst snd]. split; [discriminate|]. intros _.
      split; [exists msg; split; reflexivity|]. split; [reflexivity|].
      now rewrite (test_model_known pick n input s Hn Hi), Hget, Hex.
    + destruct Hd as [Hf Hs']. rewrite Hf. cbn [fst]. split; [|discriminate].
      intros _.
      assert (Hgone : Dict.get n (trained_models (snd r)) = None)
        by (rewrite Hs'; now apply get_del_same).
      split.
      * rewrite (test_model_known pick n input (snd r) Hn Hi), Hgone. reflexivity.
      * now apply DictFacts.get_none_notin.
    + destruct Hd as [Hf Hs']. rewrite Hf. cbn [fst]. split; [|discriminate].
      intros _.
      assert (Hgone : Dict.get n (trained_models (snd r)) = None)
        by (rewrite Hs'; now apply get_del_same).
      split.
      * rewrite (test_model_known pick n input (snd r) Hn Hi), Hgone. reflexivity.
      * now apply DictFacts.get_none_notin.
Qed.

(** X16.  When the simulated worker leaves its loops and the model file
    can be written, the job is [completed], the file holds the name of the
    model and the time of completion, and [test_model] answers for the model
    with a response, not an error. *)
Theorem completed_model_can_be_tested
    (s : State) (tid : nat) (k : string) (job : TrainingJob) (epoch step_no : Z)
    (clk1 clk2 : Clock) (pick : Pick) (input : string) :
  nth_error (threads s) tid = Some {| th_job_id := k; th_pc := SimLoop epoch step_no |} ->
  Dict.get k (training_jobs s) = Some job ->
  epochs job <= epoch ->
  model_name job <> EmptyString -> input <> EmptyString ->
  let s2 := run fmt [(clk1, Work tid Tick); (clk2, Work tid Returned)] s in
  let path := Path.join (models_directory (config s)) (model_name job ++ ".model") in
  status_at s2 k = status_completed
  /\ Dict.get path (model_files (disk s2))
     = Some ("Model: " ++ model_name job ++ nl ++ "Trained: " ++ isoformat clk1)
  /\ test_model rnd pick (model_name job) input s2
     = model_response rnd pick (model_name job) input
         (sim_model_info (config s) k job (isoformat clk1))
  /\ nth_error (threads s2) tid = Some {| th_job_id := k; th_pc := SimDone |}
  /\ active_jobs s2 = active_jobs s - 1.
Proof.
  intros Hth Hget Hep Hn Hi s2 path.
  set (s1 := goto tid SimWrite (sim_complete clk1 k job s)).
  assert (Hs1 : step fmt clk1 (Work tid Tick) s = s1).
  { rewrite (step_work _ _ _ _ _ Hth). cbn [is_sim_pc th_pc th_job_id].
    unfold sim_worker. rewrite Hget.
    destruct (Z.leb_spec (epochs job) epoch); [reflexivity|lia]. }
  assert (Hth1 : nth_error (threads s1) tid = Some {| th_job_id := k; th_pc := SimWrite |})
    by (apply (goto_thread _ _ _ _ Hth)).
  set (job1 := append_log "Training completed successfully!"
                 (set_progress 100
                    (set_end_time (Some (isoformat clk1))
                       (set_status status_completed job)))).
  assert (Hget1 : Dict.get k (training_jobs s1) = Some job1).
  { unfold s1. state_simpl. now rewrite DictFacts.get_modify_same, Hget. }
  set (s1w := with_disk
                {| jobs_file := jobs_file (disk s1); models_file := models_file (disk s1);
                   model_files :=
                     Dict.set path
                       ("Model: " ++ model_name job ++ nl ++ "Trained: " ++ isoformat clk1)
                       (model_files (disk s1));
                   datasets := datasets (disk s1) |} s1).
  assert (Hs2 : s2 = goto tid SimDone (sim_finally s1w)).
  { unfold s2. cbn [run]. rewrite Hs1. rewrite (step_work _ _ _ _ _ Hth1).
    cbn [is_sim_pc th_pc th_job_id]. unfold sim_worker. rewrite Hget1. reflexivity. }
  assert (Hfile : Dict.get path (model_files (disk s2))
                  = Some ("Model: " ++ model_name job ++ nl ++ "Trained: "
                            ++ isoformat clk1)).
  { rewrite Hs2. unfold s1w. state_simpl. apply DictFacts.get_set_same. }
  assert (Hreg : Dict.get (model_name job) (trained_models s2)
                 = Some (sim_model_info (config s) k job (isoformat clk1))).
  { rewrite Hs2. unfold s1w, s1. state_simpl. apply DictFacts.get_set_same. }
  split.
  { unfold status_at. rewrite Hs2. unfold s1w. state_simpl. now rewrite Hget1. }
  split; [exact Hfile|]. split.
  { rewrite (test_model_known pick (model_name job) input s2 Hn Hi), Hreg.
    cbn [mi_model_path sim_model_info]. fold path.
    rewrite path_exists_model_file; [reflexivity|].
    unfold Dict.mem. now rewrite Hfile. }
  split; [rewrite Hs2;
          exact (goto_thread tid SimDone {| th_job_id := k; th_pc := SimWrite |}
                   (sim_finally s1w) Hth1)|].
  rewrite Hs2. reflexivity.
Qed.

(** X17.  [export_model] answers "not found" for a name that is not
    registered, and "Export failed" when the export file cannot be opened;
    in both cases nothing changes.  Otherwise it writes one file, named after
    the model and the format, in the models directory.  It never changes
    the registries, the catalogs, the threads or the counter, no file
    disappears, and what [test_model] answers for a model whose file exists
    stays the same. *)
Theorem export_model_outcomes
    (clk : Clock) (raised : option string) (n format : string) (s : State) :
  (Dict.get n (trained_models s) = None ->
   export_model rnd clk raised n format s
   = ((false, "Model '" ++ n ++ "' not found"), s))
  /\ (forall m msg,
        Dict.get n (trained_models s) = Some m -> raised = Some msg ->
        export_model rnd clk raised n format s
        = ((false, "Export failed: " ++ msg), s))
  /\ (forall m,
        Dict.get n (trained_models s) = Some m -> raised = None ->
        let s' := snd (export_model rnd clk raised n format s) in
        let p := Path.join (models_directory (config s)) (n ++ "_export." ++ format) in
        fst (export_model rnd clk raised n format s)
        = (true, "Model exported to: " ++ p)
        /\ Dict.get p (model_files (disk s'))
           = Some ("Exported model: " ++ n ++ nl
                   ++ "Export time: " ++ isoformat clk ++ nl
                   ++ "Model info: " ++ dumps_indent2 rnd (model_asdict m) ++ nl)
        /\ (forall q, q <> p ->
              Dict.get q (model_files (disk s')) = Dict.get q (model_files (disk s)))
        /\ training_jobs s' = training_jobs s
        /\ trained_models s' = trained_models s
        /\ threads s' = threads s /\ active_jobs s' = active_jobs s
        /\ jobs_file (disk s') = jobs_file (disk s)
        /\ models_file (disk s') = models_file (disk s)
        /\ (forall q, path_exists s q = true -> path_exists s' q = true)
        /\ (forall pick n' input m',
              Dict.get n' (trained_models s) = Some m' ->
              path_exists s (mi_model_path m') = true ->
              test_model rnd pick n' input s' = test_model rnd pick n' input s)).
Proof.
  split; [unfold export_model; intros ->; reflexivity|]. split.
  - intros m msg Hm ->. unfold export_model. rewrite Hm. reflexivity.
  - intros m Hm -> s' p.
    assert (Hs' : export_model rnd clk None n format s
                  = ((true, "Model exported to: " ++ p),
                     with_disk
                       {| jobs_file := jobs_file (disk s);
                          models_file := models_file (disk s);
                          model_files :=
                            Dict.set p (export_text rnd clk n m) (model_files (disk s));
                          datasets := datasets (disk s) |} s))
      by (unfold export_model; rewrite Hm; reflexivity).
    unfold s'. rewrite Hs'. cbn [fst snd]. clear s' Hs'.
    set (s' := with_disk _ s).
    assert (Hex : forall q, path_exists s q = true -> path_exists s' q = true).
    { intros q. unfold path_exists. subst s'.
      cbn [disk with_disk model_files datasets jobs_file models_file config].
      destruct (Dict.mem q (model_files (disk s))) eqn:E.
      - rewrite (mem_set_mono _ _ _ _ E). reflexivity.
      - cbn [orb]. intros H.
        destruct (Dict.mem q (Dict.set p _ _)); [reflexivity|exact H]. }
    split; [reflexivity|]. split; [apply DictFacts.get_set_same|].
    split; [intros q Hq; subst s'; cbn [disk with_disk model_files];
            apply DictFacts.get_set_other; congruence|].
    do 6 (split; [reflexivity|]). split; [exact Hex|].
    intros pick n' input m' Hm' Hp. unfold test_model.
    destruct (negb (Str.truthy n') || negb (Str.truthy input)); [reflexivity|].
    change (trained_models s') with (trained_models s). rewrite Hm'.
    now rewrite Hp, (Hex _ Hp).
Qed.

Lemma sorted_desc_forall {A} (key : A -> string) (P : A -> Prop) (l : list A) :
  Forall P l -> Forall P (Text.sorted_desc key l).
Proof.
  induction 1 as [|x r Hx Hr IH]; [constructor|].
  cbn [Text.sorted_desc fold_right]. fold (Text.sorted_desc key r).
  induction IH as [|y t Hy Ht IHt]; cbn [Text.insert_desc].
  - repeat constructor; assumption.
  - destruct (String.ltb (key x) (key y)); repeat constructor; assumption.
Qed.

Lemma models_text_total (l : list ModelInfo) :
  Forall (fun m => exists p, Dict.get "path" (dataset_info m) = Some (JStr p)) l ->
  exists t, models_text fmt rnd l = Some t.
Proof.
  induction 1 as [|m r [p Hp] Hr [t IH]]; [now exists EmptyString|].
  cbn [models_text]. unfold model_summary_text. rewrite Hp, IH. eexists. reflexivity.
Qed.

(** X18.  In every reachable state [get_trained_models] returns a text:
    "No trained models available" when the registry is empty, and otherwise
    a listing, since the dataset path of every registered model is a
    string, as [os.path.basename] needs. *)
Theorem trained_models_listing_never_fails
    (cfg : Config) (files : Dict.t DatasetFile) (s : State) :
  reachable fmt cfg files s ->
  (trained_models s = [] ->
   get_trained_models fmt rnd s = Some "No trained models available")
  /\ (trained_models s <> [] ->
      exists t,
        models_text fmt rnd (Text.sorted_desc created_at (Dict.values (trained_models s)))
        = Some t
        /\ get_trained_models fmt rnd s
           = Some ("**Trained Models:**" ++ nl ++ nl ++ t)).
Proof.
  intros Hr. split; [intros E; unfold get_trained_models; now rewrite E|].
  intros Hne. pose proof (reachable_inv _ _ _ Hr) as HI.
  destruct (inv_models s HI) as [Hnd _].
  assert (Hall : Forall (fun m => exists p, Dict.get "path" (dataset_info m)
                                            = Some (JStr p))
                   (Dict.values (trained_models s))).
  { apply Forall_forall. intros m Hin. unfold Dict.values in Hin.
    apply in_map_iff in Hin as ([n m'] & E & Hin). cbn [snd] in E. subst m'.
    pose proof (get_in_nodup n m _ Hnd Hin) as Hget.
    destruct (reachable_registry cfg files s Hr n m Hget) as (_ & _ & [p Hp] & _).
    exists p. rewrite Hp. reflexivity. }
  destruct (models_text_total _ (sorted_desc_forall created_at _ _ Hall)) as [t Ht].
  exists t. split; [exact Ht|]. unfold get_trained_models. rewrite Ht.
  destruct (trained_models s); [contradiction|reflexivity].
Qed.

(** *** The status report *)

Lemma append_assoc_r (a b c : string) : ((a ++ b) ++ c = a ++ (b ++ c))%string.
Proof. induction a as [|x a IH]; [reflexivity|]. cbn [String.append]. now rewrite IH. Qed.

Lemma append_nil_r (a : string) : (a ++ EmptyString = a)%string.
Proof. induction a as [|x a IH]; [reflexivity|]. cbn [String.append]. now rewrite IH. Qed.

Lemma ltb_false_trans (a b c : string) :
  String.ltb a b = false -> String.ltb b c = false -> String.ltb a c = false.
Proof.
  unfold String.ltb. intros Hab Hbc.
  destruct (String.compare a c) eqn:Hac; try reflexivity. exfalso.
  destruct (String.compare b c) eqn:Ebc; [| discriminate Hbc |].
  - apply String.compare_eq_iff in Ebc. subst c. rewrite Hac in Hab. discriminate Hab.
  - assert (Hcb : String.compare c b = Lt)
      by (rewrite String.compare_antisym, Ebc; reflexivity).
    apply OrderedTypeEx.String_as_OT.cmp_lt in Hac, Hcb.
    pose proof (OrderedTypeEx.String_as_OT.lt_trans _ _ _ Hac Hcb) as H.
    apply OrderedTypeEx.String_as_OT.cmp_lt in H.
    unfold OrderedTypeEx.String_as_OT.cmp in H. rewrite H in Hab. discriminate Hab.
Qed.

Lemma ltb_asym (a b : string) : String.ltb a b = true -> String.ltb b a = false.
Proof.
  unfold String.ltb. rewrite (String.compare_antisym a b).
  destruct (String.compare b a); simpl; congruence.
Qed.

Lemma insert_desc_perm {A} (key : A -> string) (x : A) (l : list A) :
  Permutation (Text.insert_desc key x l) (x :: l).
Proof.
  induction l as [|y r IH]; cbn [Text.insert_desc]; [reflexivity|].
  destruct (String.ltb (key x) (key y)); [|reflexivity].
  rewrite IH. apply perm_swap.
Qed.

Lemma sorted_desc_perm {A} (key : A -> string) (l : list A) :
  Permutation (Text.sorted_desc key l) l.
Proof.
  induction l as [|x r IH]; [reflexivity|].
  cbn [Text.sorted_desc fold_right]. fold (Text.sorted_desc key r).
  rewrite insert_desc_perm. now constructor.
Qed.

Lemma insert_desc_sorted {A} (key : A -> string) (x : A) (l : list A) :
  descending key l -> descending key (Text.insert_desc key x l).
Proof.
  unfold descending.
  induction 1 as [|y r Hr IH Hy]; cbn [Text.insert_desc].
  - repeat constructor.
  - destruct (String.ltb (key x) (key y)) eqn:E.
    + constructor; [exact IH|].
      apply (Permutation_Forall (Permutation_sym (insert_desc_perm key x r))).
      constructor; [now apply ltb_asym|exact Hy].
    + constructor; [now constructor|].
      constructor; [exact E|].
      eapply Forall_impl; [|exact Hy]. intros z Hz. cbv beta in *.
      now apply (ltb_false_trans _ (key y)).
Qed.

Lemma sorted_desc_sorted {A} (key : A -> string) (l : list A) :
  descending key (Text.sorted_desc key l).
Proof.
  induction l as [|x r IH]; [constructor|].
  cbn [Text.sorted_desc fold_right]. fold (Text.sorted_desc key r).
  now apply insert_desc_sorted.
Qed.

(** The report on all jobs (lines 331-349), for [None] and for the empty
    identifier alike. *)
Lemma status_of_all_jobs (job_id : option string) (t : State) :
  job_id = None \/ job_id = Some EmptyString ->
  get_training_status job_id t
  = match Text.sorted_desc start_time (Dict.values (training_jobs t)) with
    | [] => "No training jobs found"
    | _ :: _ =>
        "**All Training Jobs:**" ++ nl ++ nl
        ++ Text.concat
             (map job_summary_text
                (Text.sorted_desc start_time (Dict.values (training_jobs t))))
    end.
Proof.
  intros Hid.
  assert (E : get_training_status job_id t = get_training_status None t)
    by (destruct Hid as [-> | ->]; reflexivity).
  rewrite E. unfold get_training_status.
  destruct (training_jobs t) as [|[k j] r] eqn:Ej; [reflexivity|].
  destruct (Text.sorted_desc start_time (Dict.values ((k, j) :: r))) eqn:El;
    [|reflexivity].
  pose proof (sorted_desc_perm start_time (Dict.values ((k, j) :: r))) as Hp.
  rewrite El in Hp. apply Permutation_nil in Hp. discriminate Hp.
Qed.

(** X19.  [get_training_status] with no identifier, or an empty one,
    reports on all jobs: it says "No training jobs found" when there is
    none, and otherwise lists every job once, the latest start first, each
    with its model name, identifier, status, progress, base model, start
    time and last log line.  With an identifier that no job has it says so.
    Right after an accepted submission the report on the new job shows it
    [Pending] at 0% with the two log lines of its creation, and when it is
    the first job the report on all jobs is its entry alone. *)
Theorem status_report_of_new_job
    (k : WorkerKind) (clk : Clock) (rq : Request) (s : State) :
  rejection fmt rq s = None ->
  let s' := snd (start_training_with fmt k clk rq s) in
  let job_id := new_job_id clk s in
  (exists samples,
     get_training_status (Some job_id) s'
     = "**Job " ++ job_id ++ " Status:**" ++ nl ++ nl
       ++ "Model: " ++ rq_model_name rq ++ nl
       ++ "Status: Pending" ++ nl
       ++ "Progress: 0%" ++ nl
       ++ "Base Model: " ++ rq_base_model rq ++ nl
       ++ "Started: " ++ Text.take 19 (isoformat clk) ++ nl
       ++ nl ++ "**Recent Logs:**" ++ nl
       ++ "- Training job created at " ++ strftime clk ++ nl
       ++ "- Dataset: " ++ Path.basename (rq_dataset_path rq) ++ " ("
       ++ Str.of_Z samples ++ " samples)" ++ nl)
  /\ (forall t : State,
        exists l,
          Permutation l (Dict.values (training_jobs t))
          /\ descending start_time l
          /\ forall id_given,
               id_given = None \/ id_given = Some EmptyString ->
               get_training_status id_given t
               = match l with
                 | [] => "No training jobs found"
                 | _ :: _ =>
                     "**All Training Jobs:**" ++ nl ++ nl
                     ++ Text.concat (map job_summary_text l)
                 end)
  /\ (forall job,
        job_summary_text job
        = "**" ++ model_name job ++ "** (ID: " ++ id job ++ ")" ++ nl
          ++ "- Status: " ++ Text.title (status job) ++ nl
          ++ "- Progress: " ++ Str.of_Z (progress job) ++ "%" ++ nl
          ++ "- Base Model: " ++ base_model job ++ nl
          ++ "- Started: " ++ Text.take 19 (start_time job) ++ nl
          ++ match last (map Some (logs job)) None with
             | Some line => "- Latest: " ++ line ++ nl
             | None => EmptyString
             end
          ++ nl)
  /\ (training_jobs s' <> []
      /\ get_training_status None s' <> "No training jobs found"
      /\ get_training_status (Some EmptyString) s' = get_training_status None s')
  /\ (training_jobs s = [] ->
      get_training_status None s = "No training jobs found"
      /\ get_training_status (Some EmptyString) s = "No training jobs found"
      /\ exists samples,
           get_training_status None s'
           = "**All Training Jobs:**" ++ nl ++ nl
             ++ "**" ++ rq_model_name rq ++ "** (ID: " ++ job_id ++ ")" ++ nl
             ++ "- Status: Pending" ++ nl
             ++ "- Progress: 0%" ++ nl
             ++ "- Base Model: " ++ rq_base_model rq ++ nl
             ++ "- Started: " ++ Text.take 19 (isoformat clk) ++ nl
             ++ "- Latest: Dataset: " ++ Path.basename (rq_dataset_path rq) ++ " ("
             ++ Str.of_Z samples ++ " samples)" ++ nl
             ++ nl)
  /\ (forall j, j <> EmptyString -> Dict.get j (training_jobs s') = None ->
                get_training_status (Some j) s' = "Job " ++ j ++ " not found").
Proof.
  intros Hrej s' job_id.
  assert (Hjobs : exists job,
            training_jobs s' = Dict.set job_id job (training_jobs s)
            /\ id job = job_id
            /\ model_name job = rq_model_name rq /\ base_model job = rq_base_model rq
            /\ status job = status_pending /\ progress job = 0
            /\ start_time job = isoformat clk /\ end_time job = None
            /\ error_message job = None
            /\ exists samples,
                 logs job
                 = [ "Training job created at " ++ strftime clk;
                     "Dataset: " ++ Path.basename (rq_dataset_path rq) ++ " ("
                       ++ Str.of_Z samples ++ " samples)" ]).
  { unfold s', start_training_with, admission. fold job_id.
    unfold rejection in Hrej.
    destruct (negb (Str.truthy (Str.strip (rq_model_name rq)))); [discriminate|].
    destruct (Dict.mem (rq_model_name rq) (trained_models s)); [discriminate|].
    destruct (max_concurrent_jobs (config s) <=? active_jobs s); [discriminate|].
    destruct (validate_dataset fmt s (rq_dataset_path rq)) as [[v msg] md].
    cbn [fst] in Hrej. destruct v; [|discriminate]. cbn [negb fst snd].
    match goal with |- context [commit ?x] => destruct (commit_frame x) as (-> & _) end.
    cbn [training_jobs with_callers spawn with_threads with_active_jobs
         with_training_jobs].
    eexists. split; [reflexivity|].
    cbn [id model_name base_model status progress start_time end_time error_message
         logs].
    do 8 (split; [reflexivity|]). eexists. reflexivity. }
  destruct Hjobs as (job & Hjobs & Hid & Hmn & Hbm & Hst & Hp & Hstart & Hend & Herr
                     & samples & Hlogs).
  assert (Hget : Dict.get job_id (training_jobs s') = Some job)
    by (rewrite Hjobs; apply DictFacts.get_set_same).
  assert (Hne : training_jobs s' <> []).
  { rewrite Hjobs. destruct (training_jobs s) as [|[k0 j0] r]; cbn [Dict.set].
    - discriminate.
    - destruct (String.eqb k0 job_id); discriminate. }
  split; [|split; [|split; [|split; [|split]]]].
  - exists samples. unfold get_training_status.
    change job_id with (String "j" (String "o" (String "b" (String "_"
             (Str.of_Z (unix_time clk) ++ "_"
                ++ Str.of_Z (Z.of_nat (List.length (training_jobs s)))))))) at 1.
    cbv iota beta.
    change (String "j" (String "o" (String "b" (String "_"
             (Str.of_Z (unix_time clk) ++ "_"
                ++ Str.of_Z (Z.of_nat (List.length (training_jobs s))))))))
      with job_id.
    rewrite Hget. unfold job_status_text.
    rewrite Hmn, Hbm, Hst, Hp, Hstart, Hend, Herr, Hlogs.
    cbn [Text.last_n List.length Nat.sub skipn map Text.concat fold_right].
    change (Text.title status_pending) with "Pending".
    change (Str.of_Z 0) with "0".
    rewrite !append_assoc_r, ?append_nil_r. reflexivity.
  - intros t. exists (Text.sorted_desc start_time (Dict.values (training_jobs t))).
    split; [apply sorted_desc_perm|]. split; [apply sorted_desc_sorted|].
    intros id_given Hgiven. apply status_of_all_jobs, Hgiven.
  - intros j. unfold job_summary_text.
    assert (Hlast : Text.last_n 1 (logs j)
                    = match last (map Some (logs j)) None with
                      | Some line => [line]
                      | None => []
                      end).
    { unfold Text.last_n. induction (logs j) as [|x r IH]; [reflexivity|].
      destruct r as [|y r']; [reflexivity|].
      cbn [map last]. cbn [map last] in IH. rewrite <- IH.
      cbn [List.length]. replace (S (S (List.length r')) - 1)%nat
        with (S (S (List.length r') - 1)) by lia.
      reflexivity. }
    rewrite Hlast. destruct (last (map Some (logs j)) None); reflexivity.
  - split; [exact Hne|]. split; [|reflexivity].
    unfold get_training_status. destruct (training_jobs s'); [contradiction|discriminate].
  - intros E. split; [unfold get_training_status; now rewrite E|].
    split; [unfold get_training_status; now rewrite E|].
    exists samples. unfold get_training_status. rewrite Hjobs, E.
    cbn [Dict.set Dict.values map snd Text.sorted_desc fold_right Text.insert_desc
         Text.concat].
    unfold job_summary_text.
    rewrite Hid, Hmn, Hbm, Hst, Hp, Hstart, Hlogs.
    cbn [Text.last_n List.length Nat.sub skipn].
    change (Text.title status_pending) with "Pending".
    change (Str.of_Z 0) with "0".
    rewrite !append_assoc_r, ?append_nil_r. reflexivity.
  - intros j Hj Hnone. unfold get_training_status.
    destruct j; [contradiction|]. now rewrite Hnone.
Qed.

(** *** Cancellation and the catalog *)

(** X20.  In every reachable state, a cancellation that is accepted has
    written the jobs catalog before it returns: a process started on the
    files afterwards finds the same jobs, the cancelled one as [cancelled],
    and has no worker for any of them. *)
Theorem cancellation_survives_restart
    (cfg : Config) (files : Dict.t DatasetFile) (s : State)
    (clk : Clock) (k : string) (job : TrainingJob) :
  reachable fmt cfg files s ->
  Dict.get k (training_jobs s) = Some job ->
  status job = status_pending \/ status job = status_training ->
  let s' := snd (cancel_training clk k s) in
  let r := init (config s') (disk s') in
  jobs_file (disk s') = Some (JList (map job_asdict (Dict.values (training_jobs s'))))
  /\ training_jobs r = training_jobs s'
  /\ status_at r k = status_cancelled
  /\ threads r = [] /\ active_jobs r = 0.
Proof.
  intros Hr Hget Hst s' r. pose proof (reachable_inv _ _ _ Hr) as HI.
  pose proof (inv_step clk (Cancel k) s HI) as HI'. cbn [step] in HI'. fold s' in HI'.
  destruct (reachable_jobs_keyed s' HI') as [Hnd Hid].
  destruct (inv_models s' HI') as [Hnd' Hid'].
  set (s1 := update_job k (fun j => append_log ("Training cancelled at " ++ strftime clk)
                                      (set_status status_cancelled j)) s).
  assert (Hs' : s' = _save_state s1).
  { unfold s', cancel_training. rewrite Hget.
    destruct Hst as [-> | ->]; reflexivity. }
  assert (Hdisk : disk s'
                  = {| jobs_file := Some (JList (map job_asdict (Dict.values (training_jobs s'))));
                       models_file :=
                         Some (JList (map model_asdict (Dict.values (trained_models s'))));
                       model_files := model_files (disk s);
                       datasets := datasets (disk s) |})
    by (rewrite Hs'; reflexivity).
  assert (Hr' : training_jobs r = training_jobs s').
  { unfold r, init, _load_state. rewrite Hdisk.
    cbn [disk jobs_file models_file training_jobs trained_models].
    rewrite (load_jobs_asdict (training_jobs s') []) by assumption.
    rewrite (load_models_asdict (trained_models s') []) by assumption.
    reflexivity. }
  split; [rewrite Hdisk; reflexivity|]. split; [exact Hr'|]. split.
  - unfold status_at. rewrite Hr', Hs'.
    cbn [_save_state training_jobs with_disk]. unfold s1.
    rewrite (update_job_get _ _ _ _ Hget). reflexivity.
  - unfold r, init, _load_state. rewrite Hdisk.
    cbn [disk jobs_file models_file training_jobs trained_models].
    rewrite (load_jobs_asdict (training_jobs s') []) by assumption.
    rewrite (load_models_asdict (trained_models s') []) by assumption.
    split; reflexivity.
Qed.

End Properties.

(* ===================================================================== *)
(** * Concrete runs *)
(* ===================================================================== *)

(** C1, counterexample.  Under [start_training] as the source has it, the
    job of a successful run is never [initializing]: its statuses are
    [pending], [training], [completed]. *)
Lemma simulated_run_skips_initializing :
  compress (history fmt0 (at_clk0 (sim_blocks ++ [Work 0 Returned]))
              (started Simulated) job0)
  = [status_pending; status_training; status_completed].
Proof. vm_compute. reflexivity. Qed.

(** Two further runs of the simulated worker, in which the worker writes
    over a status that was already terminal: a cancellation that arrives
    during the last [time.sleep] is followed by [completed], and a failure
    to write the model file turns [completed] into [failed]. *)
Example cancelled_then_completed :
  compress (history fmt0
              (at_clk0 (repeat (Work 0 Tick) 20 ++ [Cancel job0; Work 0 Tick; Work 0 Tick]))
              (started Simulated) job0)
  = [status_pending; status_training; status_cancelled; status_completed].
Proof. vm_compute. reflexivity. Qed.

Example completed_then_failed :
  compress (history fmt0 (at_clk0 (sim_blocks ++ [Work 0 (Raised "No such file")]))
              (started Simulated) job0)
  = [status_pending; status_training; status_completed; status_failed].
Proof. vm_compute. reflexivity. Qed.

(** C1, witness: the trainer-backed worker, run to success. *)
Lemma status_follows_lifecycle_witness :
  compress (history fmt0 (at_clk0 trainer_blocks) (started Trainer) job0)
  = [status_pending; status_initializing; status_training; status_completed].
Proof.
  assert (Hr : reachable fmt0 cfg2 files0 (started Trainer))
    by (eexists; reflexivity).
  apply (proj2 (proj2 (status_follows_lifecycle fmt0 cfg2 files0 (started Trainer) Hr))
           (at_clk0 trainer_blocks) job0 Trainer).
  - exists 0%nat, {| th_job_id := job0; th_pc := RealSpawned |}.
    split; [vm_compute; reflexivity|]. split; vm_compute; reflexivity.
  - vm_compute. reflexivity.
  - vm_compute. reflexivity.
  - vm_compute. reflexivity.
Defined.

(** C2, counterexample.  A job cancelled while the simulated worker trains
    it is [cancelled] with no [end_time], and stays so after the worker has
    returned. *)
Lemma cancelled_job_has_no_end_time :
  let s := run fmt0
             (at_clk0 [Work 0 Tick; Work 0 Tick; Cancel job0; Work 0 Tick; Work 0 Tick])
             (started Simulated) in
  option_map (fun j => (status j, end_time j)) (Dict.get job0 (training_jobs s))
  = Some (status_cancelled, None)
  /\ map th_pc (threads s) = [SimDone].
Proof. vm_compute. split; reflexivity. Qed.

(** C2, witness: a job cancelled under the trainer-backed worker, after the
    worker has returned through its exception handler. *)
Lemma end_time_and_terminal_status_witness :
  let s := step fmt0 clk0 (Work 0 (Raised "stopped")) trainer_cancelled in
  exists job,
    Dict.get job0 (training_jobs s) = Some job
    /\ is_terminal (status job) = true /\ end_time job <> None.
Proof.
  intros s.
  assert (Hr : reachable fmt0 cfg2 files0 s).
  { exists (at_clk0 [Admit Trainer (request "m1" 1); Commit; Work 0 Tick;
                     Work 0 (SetupReturned 108 12); Work 0 OnTrainBegin;
                     Cancel job0; Work 0 (Raised "stopped")]).
    vm_compute. reflexivity. }
  assert (E : exists job, Dict.get job0 (training_jobs s) = Some job)
    by (vm_compute; eexists; reflexivity).
  destruct E as [job E].
  assert (Hth : nth_error (threads s) 0 = Some {| th_job_id := job0; th_pc := RealDone |})
    by (vm_compute; reflexivity).
  exists job. split; [exact E|].
  exact (proj2 (proj2 (end_time_and_terminal_status fmt0 cfg2 files0 s job0 job Hr E))
           0%nat {| th_job_id := job0; th_pc := RealDone |} Hth eq_refl eq_refl).
Defined.

(** C3, counterexample.  A job that the trainer-backed worker has made
    [initializing] cannot be cancelled. *)
Lemma initializing_job_is_not_cancellable :
  let s := run fmt0 (at_clk0 [Work 0 Tick]) (started Trainer) in
  status_at s job0 = status_initializing
  /\ cancel_training clk0 job0 s
     = ((false, "Cannot cancel job with status: initializing"), s).
Proof. vm_compute. split; reflexivity. Qed.



(** C5, counterexample.  With a ceiling of 2 and two admitted jobs, the
    first is cancelled, so that its status is terminal; a third submission
    is still refused, because the worker of the cancelled job has not
    returned yet. *)
Lemma capacity_not_released_by_terminal_status :
  let s := step fmt0 clk0 (Cancel job0) two_training in
  status_at s job0 = status_cancelled
  /\ start_training fmt0 clk0 (request "m3" 1) s
     = ((false, "Maximum concurrent jobs (2) reached"), s).
Proof. vm_compute. split; reflexivity. Qed.

(** C5, witness: two jobs in training under a ceiling of 2. *)
Lemma live_job_counter_witness :
  start_training_with fmt0 Simulated clk0 (request "m3" 1) two_training
  = ((false, "Maximum concurrent jobs (2) reached"), two_training).
Proof.
  assert (Hr : reachable fmt0 cfg2 files0 two_training) by (eexists; reflexivity).
  destruct (Dict.get job0 (training_jobs two_training)) as [j0|] eqn:E0;
    [|vm_compute in E0; discriminate E0].
  destruct (Dict.get job1 (training_jobs two_training)) as [j1|] eqn:E1;
    [|vm_compute in E1; discriminate E1].
  apply (proj1 (proj2 (live_job_counter fmt0 cfg2 files0 two_training Hr))
           Simulated clk0 (request "m3" 1) job0 job1 j0 j1);
    try (vm_compute; reflexivity); try assumption.
  - discriminate.
  - vm_compute in E0. injection E0 as <-. reflexivity.
  - vm_compute in E1. injection E1 as <-. reflexivity.
Defined.

(** C6, counterexample.  The worker runs its first block between the start
    of its thread and the write of the catalog: nothing is on disk while the
    job is [pending], and the record that [start_training] then writes is a
    [training] one. *)
Lemma pending_record_never_written :
  let s1 := step fmt0 clk0 (Admit Simulated (request "m1" 1)) (fresh cfg2 files0) in
  let s2 := step fmt0 clk0 (Work 0 Tick) s1 in
  let s3 := step fmt0 clk0 Commit s2 in
  status_at s1 job0 = status_pending /\ jobs_file (disk s1) = None
  /\ status_at s2 job0 = status_training /\ jobs_file (disk s2) = None
  /\ persisted_jobs (disk s3) = map job_asdict (Dict.values (training_jobs s2)).
Proof. vm_compute. repeat split; reflexivity. Qed.

(** C6, witness: a first submission, run without interruption. *)
Lemma admitted_job_is_written_before_return_witness :
  exists job,
    Dict.get job0 (training_jobs (started Simulated)) = Some job
    /\ status job = status_pending
    /\ In (job_asdict job) (persisted_jobs (disk (started Simulated))).
Proof.
  assert (Hr : reachable fmt0 cfg2 files0 (fresh cfg2 files0)) by (exists []; reflexivity).
  apply (proj1 (proj2 (admitted_job_is_written_before_return fmt0 cfg2 files0
                         (fresh cfg2 files0) Simulated clk0 (request "m1" 1) Hr
                         eq_refl))).
Defined.

(** C8, witness: once the job of model [m1] has completed, the name is
    taken. *)
Lemma model_name_checked_against_registry_witness :
  start_training_with fmt0 Simulated clk0 (request "m1" 1) sim_completed
  = ((false, "Model 'm1' already exists"), sim_completed).
Proof.
  apply (proj1 (model_name_checked_against_registry fmt0 Simulated clk0
                  (request "m1" 1) sim_completed eq_refl)).
  vm_compute. reflexivity.
Defined.

(** C9, witness: a dataset path with no file behind it, and a model name
    made of a no-break space (U+00A0) and an ideographic space (U+3000). *)
Lemma rejected_submission_changes_nothing_witness :
  let rq := {| rq_model_name := "m1"; rq_base_model := "b";
               rq_dataset_path := "missing.csv";
               rq_learning_rate := Float.truediv 1 1000; rq_batch_size := 4;
               rq_epochs := 1; rq_max_length := 2048; rq_description := EmptyString |} in
  let blank :=
    String (ascii_of_nat 194) (String (ascii_of_nat 160)
      (String (ascii_of_nat 227) (String (ascii_of_nat 128)
         (String (ascii_of_nat 128) EmptyString)))) in
  start_training_with fmt0 Simulated clk0 rq (fresh cfg2 files0)
  = ((false, "Dataset validation failed: File does not exist"), fresh cfg2 files0)
  /\ start_training_with fmt0 Simulated clk0 (request blank 1) (fresh cfg2 files0)
     = ((false, "Model name is required"), fresh cfg2 files0).
Proof.
  intros rq blank. split.
  - apply (proj2 (proj2 (proj2 (rejected_submission_changes_nothing fmt0 Simulated clk0
                                  rq (fresh cfg2 files0)))));
      vm_compute; solve [reflexivity | intros; discriminate].
  - apply (proj1 (proj2 (rejected_submission_changes_nothing fmt0 Simulated clk0
                           (request blank 1) (fresh cfg2 files0))) InvalidRequest).
    vm_compute. reflexivity.
Defined.

(** C10, witness: the registries after one completed job. *)
Lemma catalogs_round_trip_witness :
  let s' := init (config sim_completed) (disk (_save_state sim_completed)) in
  training_jobs s' = training_jobs sim_completed
  /\ trained_models s' = trained_models sim_completed.
Proof.
  apply catalogs_round_trip.
  - split.
    + vm_compute. constructor; [intros []|constructor].
    + vm_compute. constructor; [reflexivity|constructor].
  - split.
    + vm_compute. constructor; [intros []|constructor].
    + vm_compute. constructor; [reflexivity|constructor].
Defined.

(** C7, counterexample.  At the 29th of 100 steps the simulated worker
    stores 28: [29 / 100] rounds to a double just below 0.29, and
    [int] truncates the product 28.999999999999996.  The floor of
    [100 * 29 / 100] is 29. *)
Lemma progress_one_below_floor :
  map th_pc (threads ten_epochs_step_29) = [SimSleep 2 8]
  /\ option_map (progress_event (SimSleep 2 8) Tick)
       (Dict.get job0 (training_jobs ten_epochs_step_29)) = Some (Some (29, 100))
  /\ option_map progress
       (Dict.get job0 (training_jobs (step fmt0 clk0 (Work 0 Tick) ten_epochs_step_29)))
     = Some 28
  /\ 100 * 29 / 100 = 29.
Proof. vm_compute. repeat split; reflexivity. Qed.

(** C7, witness: [on_log] at step 10 of 20 under the trainer. *)
Lemma progress_follows_step_ratio_witness :
  exists job',
    Dict.get job0
      (training_jobs (step fmt0 clk0 (Work 0 (OnLog true 10 20 None None))
                        trainer_training)) = Some job'
    /\ progress job' = 50.
Proof.
  assert (Hr : reachable fmt0 cfg2 files0 trainer_training).
  { exists (at_clk0 [Admit Trainer (request "m1" 1); Commit; Work 0 Tick;
                     Work 0 (SetupReturned 108 12); Work 0 OnTrainBegin;
                     Work 0 OnStepBegin]).
    vm_compute. reflexivity. }
  assert (E : exists job, Dict.get job0 (training_jobs trainer_training) = Some job)
    by (vm_compute; eexists; reflexivity).
  destruct E as (job & E).
  assert (Hth : nth_error (threads trainer_training) 0
                = Some {| th_job_id := job0; th_pc := RealTraining |})
    by (vm_compute; reflexivity).
  destruct (progress_follows_step_ratio fmt0 cfg2 files0 trainer_training clk0 0%nat
              {| th_job_id := job0; th_pc := RealTraining |} job
              (OnLog true 10 20 None None) 10 20 20 Hr Hth E eq_refl
              ltac:(lia) ltac:(lia))
    as ((job' & Hget' & Hp) & _).
  exists job'. split; [exact Hget'|].
  rewrite Hp. vm_compute. reflexivity.
Defined.

(** X1, witness: the job whose model file could not be written. *)
Lemma error_message_iff_failed_witness :
  exists job,
    Dict.get job0 (training_jobs sim_failed) = Some job
    /\ (status job = status_failed <-> error_message job <> None).
Proof.
  assert (Hr : reachable fmt0 cfg2 files0 sim_failed).
  { exists (at_clk0 ([Admit Simulated (request "m1" 1); Commit] ++ sim_blocks
                       ++ [Work 0 (Raised "No such file")])).
    vm_compute. reflexivity. }
  assert (E : exists job, Dict.get job0 (training_jobs sim_failed) = Some job)
    by (vm_compute; eexists; reflexivity).
  destruct E as (job & E). exists job. split; [exact E|].
  exact (error_message_iff_failed fmt0 cfg2 files0 sim_failed job0 job Hr E).
Defined.

(** X2, witness: under a ceiling of 2 and with one job running, two
    callers pass the tests before either registers its job; three jobs are
    then counted. *)
Lemma active_jobs_within_ceiling_witness :
  let s := started Simulated in
  let r1 := admission_register Simulated clk0 (request "m2" 1) metadata0 s in
  let r2 := admission_register Simulated clk0 (request "m3" 1) metadata0 (snd r1) in
  (active_jobs s = live_count (threads s)
   /\ 0 <= active_jobs s <= Z.max 0 (max_concurrent_jobs cfg2))
  /\ max_concurrent_jobs cfg2 = 2
  /\ active_jobs (snd r2) = max_concurrent_jobs cfg2 + 1.
Proof.
  intros s r1 r2.
  assert (Hr : reachable fmt0 cfg2 files0 s) by (eexists; reflexivity).
  destruct (active_jobs_within_ceiling fmt0 cfg2 files0 s Hr) as ((_ & H1 & H2) & _ & H3).
  split; [split; [exact H1|exact H2]|]. split; [reflexivity|].
  assert (T1 : admission_tests fmt0 (request "m2" 1) s = inr metadata0)
    by (vm_compute; reflexivity).
  assert (T2 : admission_tests fmt0 (request "m3" 1) s = inr metadata0)
    by (vm_compute; reflexivity).
  destruct (H3 Simulated Simulated clk0 clk0 (request "m2" 1) (request "m3" 1)
              metadata0 metadata0 T1 T2) as (_ & _ & _ & _ & H).
  apply H. vm_compute. reflexivity.
Defined.

(** X3, witness: the first submission. *)
Lemma accepted_submission_adds_one_job_witness :
  let s' := snd (start_training_with fmt0 Simulated clk0 (request "m1" 1)
                   (fresh cfg2 files0)) in
  List.length (training_jobs s') = S (List.length (training_jobs (fresh cfg2 files0)))
  /\ active_jobs s' = active_jobs (fresh cfg2 files0) + 1.
Proof.
  intros s'.
  assert (Hr : reachable fmt0 cfg2 files0 (fresh cfg2 files0)) by (exists []; reflexivity).
  assert (Hok : fst (fst (start_training_with fmt0 Simulated clk0 (request "m1" 1)
                            (fresh cfg2 files0))) = true)
    by (vm_compute; reflexivity).
  destruct (accepted_submission_adds_one_job fmt0 cfg2 files0 (fresh cfg2 files0)
              Simulated clk0 (request "m1" 1) Hr Hok)
    as (_ & _ & _ & Hlen & _ & Hact & _).
  split; [exact Hlen|exact Hact].
Defined.

(** X4, witness: a restart after the first job has completed. *)
Lemma restart_of_reachable_state_witness :
  let s' := init (config sim_completed) (disk (_save_state sim_completed)) in
  training_jobs s' = training_jobs sim_completed
  /\ trained_models s' = trained_models sim_completed
  /\ threads s' = [] /\ active_jobs s' = 0.
Proof.
  intros s'.
  assert (Hr : reachable fmt0 cfg2 files0 sim_completed).
  { exists (at_clk0 ([Admit Simulated (request "m1" 1); Commit] ++ sim_blocks
                       ++ [Work 0 Returned])).
    vm_compute. reflexivity. }
  destruct (restart_of_reachable_state fmt0 cfg2 files0 sim_completed Hr)
    as (H1 & H2 & H3 & H4 & _).
  split; [exact H1|]. split; [exact H2|]. split; [exact H3|exact H4].
Defined.

(** X5, witness: a jobs catalog whose second record lacks its fields. *)
Lemma bad_record_stops_loading_witness :
  let s := init cfg2 disk_with_bad_record in
  List.length (persisted_jobs disk_with_bad_record) = 4%nat
  /\ Dict.keys (training_jobs s) = [job0]
  /\ models_file disk_with_bad_record <> Some (JList [])
  /\ trained_models s = []
  /\ active_jobs s = 0.
Proof.
  intros s.
  destruct (bad_record_stops_loading cfg2 disk_with_bad_record
              (Dict.values (training_jobs sim_completed))
              (JObj [ ("id", JStr "job_1") ])
              (map job_asdict (Dict.values (training_jobs two_training)))
              eq_refl eq_refl) as (H1 & H2 & H3 & _).
  fold s in H1, H2, H3.
  split; [vm_compute; reflexivity|]. split; [rewrite H1; vm_compute; reflexivity|].
  split; [vm_compute; discriminate|]. split; [exact H2|exact H3].
Defined.

(** X6, witness: the file of a registered model cannot be removed. *)
Lemma delete_model_outcomes_witness :
  delete_model (Some "Permission denied") "m1" sim_completed
  = ((false, "Error deleting model: Permission denied"), sim_completed).
Proof.
  assert (E : exists m, Dict.get "m1" (trained_models sim_completed) = Some m
                        /\ path_exists sim_completed (mi_model_path m) = true)
    by (vm_compute; eexists; split; reflexivity).
  destruct E as (m & Hm & Hex).
  exact (proj1 (proj2 (delete_model_outcomes fmt0 (Some "Permission denied") "m1"
                         sim_completed))
           m "Permission denied" Hm Hex eq_refl).
Defined.

(** X7, witness: the jobs catalog, given as a dataset, is accepted. *)
Lemma validate_dataset_decision_witness :
  fst (fst (validate_dataset fmt0 (started Simulated) "./logs/training_jobs.json")) = true.
Proof.
  apply (proj2 (proj1 (validate_dataset_decision fmt0 (started Simulated)
                         "./logs/training_jobs.json"))).
  split; [discriminate|].
  assert (E : exists f, file_view fmt0 (started Simulated) "./logs/training_jobs.json"
                        = Some f /\ size_error f = None /\ file_size f = 2)
    by (vm_compute; eexists; repeat split; reflexivity).
  destruct E as (f & Hf & Herr & Hsize).
  exists f. split; [exact Hf|]. split; [exact Herr|].
  split; [rewrite Hsize; vm_compute; discriminate|]. vm_compute. reflexivity.
Defined.

(** X8, witness: the CSV file of 120 rows. *)
Lemma accepted_dataset_metadata_witness :
  exists f,
    file_view fmt0 (fresh cfg2 files0) "data.csv" = Some f
    /\ file_size f = 4096.
Proof.
  assert (H : validate_dataset fmt0 (fresh cfg2 files0) "data.csv"
              = (true, "Dataset validated successfully", metadata0))
    by (vm_compute; reflexivity).
  destruct (accepted_dataset_metadata fmt0 (fresh cfg2 files0) "data.csv" _ H)
    as (f & Hf & _ & Hsize & _).
  exists f. split; [exact Hf|]. symmetry. exact Hsize.
Defined.

(** X9, witness: a cancellation during the last step of the only epoch. *)
Lemma late_cancellation_is_overwritten_witness :
  let s1 := snd (cancel_training clk0 job0 last_sleep) in
  let s3 := run fmt0 [(clk0, Work 0 Tick); (clk0, Work 0 Tick)] s1 in
  fst (cancel_training clk0 job0 last_sleep)
  = (true, "Training job " ++ job0 ++ " cancelled successfully")
  /\ status_at s1 job0 = status_cancelled
  /\ exists job3,
       Dict.get job0 (training_jobs s3) = Some job3
       /\ status job3 = status_completed /\ progress job3 = 100
       /\ end_time job3 = Some (isoformat clk0).
Proof.
  intros s1 s3.
  assert (Hth : nth_error (threads last_sleep) 0
                = Some {| th_job_id := job0; th_pc := SimSleep 0 9 |})
    by (vm_compute; reflexivity).
  assert (E : exists job, Dict.get job0 (training_jobs last_sleep) = Some job
                          /\ status job = status_training /\ epochs job = 1)
    by (vm_compute; eexists; split; [reflexivity|split; reflexivity]).
  destruct E as (job & E & Hst & Hep).
  destruct (late_cancellation_is_overwritten fmt0 last_sleep 0%nat job0 job 0
              clk0 clk0 clk0 Hth E Hst ltac:(rewrite Hep; lia))
    as (H1 & H2 & H3 & _).
  split; [exact H1|]. split; [exact H2|exact H3].
Defined.

(** X10, witness: a cancellation in [trainer.train()], which then returns. *)
Lemma cancelled_trainer_run_completes_witness :
  let s1 := snd (cancel_training clk0 job0 trainer_training) in
  let s4 := run fmt0 [(clk0, Work 0 OnStepBegin); (clk0, Work 0 Returned);
                      (clk0, Work 0 (EvaluateReturned "{'eval_loss': 1.0}"))] s1 in
  status_at s1 job0 = status_cancelled
  /\ exists job4,
       Dict.get job0 (training_jobs s4) = Some job4
       /\ status job4 = status_completed /\ progress job4 = 100
       /\ end_time job4 = Some (isoformat clk0)
       /\ In "Cancellation signal received. Stopping training." (logs job4).
Proof.
  intros s1 s4.
  assert (Hth : nth_error (threads trainer_training) 0
                = Some {| th_job_id := job0; th_pc := RealTraining |})
    by (vm_compute; reflexivity).
  assert (E : exists job, Dict.get job0 (training_jobs trainer_training) = Some job
                          /\ status job = status_training)
    by (vm_compute; eexists; split; reflexivity).
  destruct E as (job & E & Hst).
  destruct (cancelled_trainer_run_completes fmt0 trainer_training 0%nat job0 job
              clk0 clk0 clk0 clk0 "{'eval_loss': 1.0}" Hth E Hst)
    as (_ & H2 & H3).
  split; [exact H2|exact H3].
Defined.

(** X11, witness: the tokenizer cannot be loaded. *)
Lemma setup_failure_fails_job_witness :
  let s' := step fmt0 clk0 (Work 0 (SetupRaised 1 0 0 "no such model")) trainer_setup in
  exists job',
    Dict.get job0 (training_jobs s') = Some job'
    /\ status job' = status_failed
    /\ error_message job' = Some "no such model"
    /\ end_time job' = Some (isoformat clk0).
Proof.
  intros s'.
  assert (Hr : reachable fmt0 cfg2 files0 trainer_setup).
  { exists (at_clk0 [Admit Trainer (request "m1" 1); Commit; Work 0 Tick]).
    vm_compute. reflexivity. }
  assert (Hth : nth_error (threads trainer_setup) 0
                = Some {| th_job_id := job0; th_pc := RealSetup |})
    by (vm_compute; reflexivity).
  assert (E : exists job, Dict.get job0 (training_jobs trainer_setup) = Some job)
    by (vm_compute; eexists; reflexivity).
  destruct E as (job & E).
  destruct (setup_failure_fails_job fmt0 cfg2 files0 trainer_setup clk0 0%nat job0 job
              1%nat 0 0 "no such model" Hr Hth E)
    as (_ & (job' & Hg & H1 & H2 & H3 & _) & _).
  exists job'. split; [exact Hg|]. split; [exact H1|]. split; [exact H2|exact H3].
Defined.

(** X12, witness: a submission with [epochs = 0]. *)
Lemma job_without_epochs_completes_at_once_witness :
  let s2 := run fmt0 [(clk0, Work 0 Tick); (clk0, Work 0 Tick)] started_without_epochs in
  (exists job2,
     Dict.get job0 (training_jobs s2) = Some job2
     /\ status job2 = status_completed /\ progress job2 = 100)
  /\ nth_error (threads s2) 0 = Some {| th_job_id := job0; th_pc := SimWrite |}.
Proof.
  intros s2.
  assert (Hth : nth_error (threads started_without_epochs) 0
                = Some {| th_job_id := job0; th_pc := SimSpawned |})
    by (vm_compute; reflexivity).
  assert (E : exists job, Dict.get job0 (training_jobs started_without_epochs) = Some job
                          /\ epochs job = 0)
    by (vm_compute; eexists; split; reflexivity).
  destruct E as (job & E & Hep).
  destruct (job_without_epochs_completes_at_once fmt0 started_without_epochs 0%nat job0
              job clk0 clk0 Hth E ltac:(rewrite Hep; lia))
    as ((job2 & Hg & H1 & H2 & _) & _ & Hth2).
  split; [|exact Hth2].
  exists job2. split; [exact Hg|]. split; [exact H1|exact H2].
Defined.

(** X13, witness: the model of the first job. *)
Lemma registered_models_come_from_jobs_witness :
  exists m,
    Dict.get "m1" (trained_models sim_completed) = Some m
    /\ name m = "m1"
    /\ mi_model_path m = Path.join (models_directory cfg2) ("m1" ++ ".model")
    /\ model_size m = 50 * 1024 * 1024.
Proof.
  assert (Hr : reachable fmt0 cfg2 files0 sim_completed).
  { exists (at_clk0 ([Admit Simulated (request "m1" 1); Commit] ++ sim_blocks
                       ++ [Work 0 Returned])).
    vm_compute. reflexivity. }
  assert (E : exists m, Dict.get "m1" (trained_models sim_completed) = Some m)
    by (vm_compute; eexists; reflexivity).
  destruct E as (m & E).
  destruct (registered_models_come_from_jobs fmt0 cfg2 files0 sim_completed "m1" m Hr E)
    as (H1 & H2 & _ & H4 & _).
  exists m. split; [exact E|]. split; [exact H1|]. split; [exact H2|exact H4].
Defined.

(** X14, witness: the model file of the first job cannot be written. *)
Lemma failed_model_write_keeps_registration_witness :
  let s2 := run fmt0 [(clk0, Work 0 Tick); (clk0, Work 0 (Raised "No such file"))]
              loops_done in
  (exists job2,
     Dict.get job0 (training_jobs s2) = Some job2
     /\ status job2 = status_failed /\ error_message job2 = Some "No such file"
     /\ progress job2 = 100)
  /\ model_files (disk s2) = model_files (disk loops_done)
  /\ active_jobs s2 = active_jobs loops_done - 1.
Proof.
  intros s2.
  assert (Hth : nth_error (threads loops_done) 0
                = Some {| th_job_id := job0; th_pc := SimLoop 1 0 |})
    by (vm_compute; reflexivity).
  assert (E : exists job, Dict.get job0 (training_jobs loops_done) = Some job
                          /\ epochs job = 1)
    by (vm_compute; eexists; split; reflexivity).
  destruct E as (job & E & Hep).
  destruct (failed_model_write_keeps_registration fmt0 rnd0 loops_done 0%nat job0 job
              1 0 clk0 clk0 "No such file" First "hello" Hth E ltac:(rewrite Hep; lia))
    as (H1 & _ & H3 & H4 & _).
  split; [exact H1|]. split; [exact H3|exact H4].
Defined.

(** X16, witness: the model of the first job, after its file is written. *)
Lemma completed_model_can_be_tested_witness :
  let s2 := run fmt0 [(clk0, Work 0 Tick); (clk0, Work 0 Returned)] loops_done in
  status_at s2 job0 = status_completed
  /\ nth_error (threads s2) 0 = Some {| th_job_id := job0; th_pc := SimDone |}
  /\ active_jobs s2 = active_jobs loops_done - 1.
Proof.
  intros s2.
  assert (Hth : nth_error (threads loops_done) 0
                = Some {| th_job_id := job0; th_pc := SimLoop 1 0 |})
    by (vm_compute; reflexivity).
  assert (E : exists job, Dict.get job0 (training_jobs loops_done) = Some job
                          /\ epochs job = 1 /\ model_name job = "m1")
    by (vm_compute; eexists; split; [reflexivity|split; reflexivity]).
  destruct E as (job & E & Hep & Hmn).
  destruct (completed_model_can_be_tested fmt0 rnd0 loops_done 0%nat job0 job 1 0
              clk0 clk0 First "hello" Hth E ltac:(rewrite Hep; lia)
              ltac:(rewrite Hmn; discriminate) ltac:(discriminate))
    as (H1 & _ & _ & H4 & H5).
  split; [exact H1|]. split; [exact H4|exact H5].
Defined.

(** X18, witness: the listing after the first job has completed. *)
Lemma trained_models_listing_never_fails_witness :
  exists t,
    models_text fmt0 rnd0
      (Text.sorted_desc created_at (Dict.values (trained_models sim_completed)))
    = Some t
    /\ get_trained_models fmt0 rnd0 sim_completed
       = Some ("**Trained Models:**" ++ nl ++ nl ++ t).
Proof.
  assert (Hr : reachable fmt0 cfg2 files0 sim_completed).
  { exists (at_clk0 ([Admit Simulated (request "m1" 1); Commit] ++ sim_blocks
                       ++ [Work 0 Returned])).
    vm_compute. reflexivity. }
  apply (proj2 (trained_models_listing_never_fails fmt0 rnd0 cfg2 files0 sim_completed Hr)).
  vm_compute. discriminate.
Defined.

(** X19, witness: the reports on the first job, just submitted. *)
Lemma status_report_of_new_job_witness :
  let rq := request "m1" 1 in
  let s := fresh cfg2 files0 in
  let s' := snd (start_training_with fmt0 Simulated clk0 rq s) in
  (exists samples,
     get_training_status (Some (new_job_id clk0 s)) s'
     = "**Job " ++ new_job_id clk0 s ++ " Status:**" ++ nl ++ nl
       ++ "Model: " ++ rq_model_name rq ++ nl
       ++ "Status: Pending" ++ nl
       ++ "Progress: 0%" ++ nl
       ++ "Base Model: " ++ rq_base_model rq ++ nl
       ++ "Started: " ++ Text.take 19 (isoformat clk0) ++ nl
       ++ nl ++ "**Recent Logs:**" ++ nl
       ++ "- Training job created at " ++ strftime clk0 ++ nl
       ++ "- Dataset: " ++ Path.basename (rq_dataset_path rq) ++ " ("
       ++ Str.of_Z samples ++ " samples)" ++ nl)
  /\ (exists samples,
        get_training_status (Some EmptyString) s'
        = "**All Training Jobs:**" ++ nl ++ nl
          ++ "**" ++ rq_model_name rq ++ "** (ID: " ++ new_job_id clk0 s ++ ")" ++ nl
          ++ "- Status: Pending" ++ nl
          ++ "- Progress: 0%" ++ nl
          ++ "- Base Model: " ++ rq_base_model rq ++ nl
          ++ "- Started: " ++ Text.take 19 (isoformat clk0) ++ nl
          ++ "- Latest: Dataset: " ++ Path.basename (rq_dataset_path rq) ++ " ("
          ++ Str.of_Z samples ++ " samples)" ++ nl
          ++ nl).
Proof.
  intros rq s s'.
  assert (H : rejection fmt0 rq s = None) by (vm_compute; reflexivity).
  destruct (status_report_of_new_job fmt0 Simulated clk0 rq s H)
    as (H1 & _ & _ & (_ & _ & H4) & H5 & _).
  split; [exact H1|].
  destruct (H5 eq_refl) as (_ & _ & samples & H6).
  exists samples. fold s' in H4. rewrite H4. exact H6.
Defined.

(** X20, witness: the first job, cancelled while pending. *)
Lemma cancellation_survives_restart_witness :
  let s' := snd (cancel_training clk0 job0 (started Simulated)) in
  let r := init (config s') (disk s') in
  training_jobs r = training_jobs s'
  /\ status_at r job0 = status_cancelled
  /\ threads r = [] /\ active_jobs r = 0.
Proof.
  intros s' r.
  assert (Hr : reachable fmt0 cfg2 files0 (started Simulated)) by (eexists; reflexivity).
  assert (E : exists job, Dict.get job0 (training_jobs (started Simulated)) = Some job
                          /\ status job = status_pending)
    by (vm_compute; eexists; split; reflexivity).
  destruct E as (job & E & Hst).
  destruct (cancellation_survives_restart fmt0 cfg2 files0 (started Simulated) clk0 job0
              job Hr E (or_introl Hst))
    as (_ & H2 & H3 & H4 & H5).
  split; [exact H2|]. split; [exact H3|]. split; [exact H4|exact H5].
Defined.
